(* ===== verification/_CoqProject ===== *)
-Q . S2P
Prelude.v
Print.v
Gfx.v
Screen.v
IPAddress.v
Http.v
Query.v
WiFi.v
Sketch.v
Device.v
Responder.v
Interaction.v
Ordering.v
