(* ===== verification/Prelude.v ===== *)
(** * A verification development of the ESP8266 "platformio-esp-8266" sketch

    The program, [src/src/snippets/platformio-esp-8266/src/main.cpp], is one
    Arduino sketch for an ESP8266 board with an SSD1306 OLED panel.  Its parts:

    - the *status display* ([displayIP], [setupScreen]): an Adafruit_SSD1306
      object of 128x64 pixels on which [displayIP] clears the frame buffer,
      selects text size 1 and white, prints the line "IP Address" and the
      address, and pushes the buffer to the panel;
    - the *network join* ([setupWiFi]): station mode, [WiFi.begin], then a
      polling loop on [WiFi.status()] that ends on [WL_CONNECTED] or, through
      an early [return], on [WL_WRONG_PASSWORD];
    - the *HTTP responder* ([handleRoot], [handleNotFound], [setupServer]):
      an ESP8266WebServer on port 80 with one handler for "/" and a
      not-found handler echoing URI, method and arguments;
    - the *name advertisement* (the [MDNS] calls of [setupServer] and [loop]);
    - the *top level* ([setup], [loop]) composing them, with the serial log
      and the LED pin as the observable side channels.

    Files, in dependency order (the order of _CoqProject):

    - [Prelude] (this file): machine integers kept at their width
      ([wrap16] for [int16_t], [wrap8] for [uint8_t]), decimal printing of
      [String += int] ([dec]), string lemmas, an outcome monad [st] whose
      results distinguish a normal return, a loop the code never leaves
      ([Spin]) and exhausted fuel ([OutOfFuel]), the closure [star] of a
      step relation, and the rewrite database [esp_rw].
    - [Print]: the Arduino [Print] class as a type class whose one method
      is [write]; [print] and [println] are derived exactly as in the
      Arduino core; [HardwareSerial] (the serial log) and [StreamString]
      (the [String] that [IPAddress::toString] fills) are instances.
    - [Gfx]: the Adafruit_GFX / Adafruit_SSD1306 text path the sketch uses
      (cursor, text size and colour, wrap, clipping, frame buffer, panel)
      and the well-formedness [wf] of a display object (the library's
      field types) with one preservation lemma per operation; a library
      model, not code of this repository.
    - [Screen]: [displayIP] and its theorems.
    - [IPAddress]: the address [WiFi.localIP()] returns, as the 32-bit word
      of lwIP with its byte view ([Z.shiftr], [Z.land]); [printTo] and
      [toString] ("(IP unset)" for the two addresses [isSet] rejects,
      0.0.0.0 and [IPADDR_NONE] 255.255.255.255, else the dotted quad);
      the core's parser [fromString4] as the reading of the printed text.
    - [Http]: request and response data, [handleRoot], [handleNotFound]
      with its [uint8_t] loop, and the ESP8266WebServer dispatch.
    - [Query]: the split of the request URL into path and ordered query
      arguments, each name and value decoded by the library's
      [urlDecode] (library code, modelled from the specification and the
      library's documented behaviour).
    - [WiFi]: [wl_status_t], the [setupWiFi] polling loop against an
      environment that answers the successive [WiFi.status()] calls, and a
      reference search [exit_at] for the iteration that leaves it.
    - [Sketch]: the device state, [setupScreen], [setupServer], [setup]
      and [loop], and the theorems on one run of each.
    - [Device]: a step relation [step] over whole-device states and the
      invariants of its states reachable from power-on.
    - [Responder]: the specification's abstract device (life cycle
      [phase]/[astep], responder [contract]) and the refinement theorems
      of [Sketch] and [Device] against it.
    - [Interaction]: the same code without fuel, as interaction trees
      (the InteractionTrees library): every loop is [ITree.iter], the halt
      loop of [setupScreen] is [ITree.spin], and the Arduino core's
      [main] ([setup] once, then [loop] forever, [device_it]) never
      returns; what the code asks its environment is an event of [envE],
      answered by [handle] from an [Env] through [interp_state], with a
      [Clock] counting status polls and loop iterations.
    - [Ordering]: the traces of those trees (InteractionTrees'
      [Interp.Traces]) under every answer of the environment, projected
      to the list of answered queries, and the order in which [setup]
      and [loop] ask their questions.

    Correspondence with the code.  Each global object of the sketch is a
    record ([Gfx.SSD1306], [Http.ESP8266WebServer], [WiFi.Net] with the
    [Serial.HardwareSerial] log, [Sketch.MDNSResponder]) gathered in
    [Sketch.Device]; each function of main.cpp is one definition under its
    own name ([Screen.displayIP], [Http.handleRoot], [Http.handleNotFound]
    with its loop [Http.argsLoop], [WiFi.setupWiFi] with its loop
    [WiFi.waitLoop], [Sketch.setupScreen], [Sketch.setupServer],
    [Sketch.setup], [Sketch.loop]); the library members they call are
    modelled in [Print], [Gfx], [IPAddress], the Section [Http.Server],
    [Query] and [WiFi].  What the hardware and the network answer is an
    input: the allocation result of [display.begin], the answer to every
    [WiFi.status()] call, the address [WiFi.localIP()] returns, the result
    of [MDNS.begin], and the pending request of each [loop] iteration.
    The server dispatch ([Http.handleRequest], [Http.handleClient]) is
    generic over what a handler returns, so the fuel model ([option]) and
    the interaction trees share it.

    The theorems, by group:
    - display ([Screen], [Device]): one [displayIP] call draws exactly the
      title row and the address row at the current cursor height and
      moves the cursor two lines down ([displayIP_spec]); the cursor is
      never reset, so the panel shows text after call [k+1] exactly when
      [k mod 4096 < 4] ([displayIP_panel_visible], and
      [reachable_panel_visible] for the running device); two calls do not
      give the same panel ([displayIP_twice_differs]);
    - address ([IPAddress]): parsing the printed text gives a set address
      back and rejects the "(IP unset)" text ([fromString_toString]), so
      two texts are equal exactly when the addresses are, or both are
      unset ([toString_inj]); every text is one line of at most 15 characters
      ([toString_line]), which discharges the line bound [displayIP_spec]
      needs for every address the device may have;
    - HTTP ([Http], [Query], [Sketch]): the exact 404 body below 256
      arguments ([handleNotFound_returns]), no return from 256 arguments
      on ([handleNotFound_never_returns]), every non-GET method reported
      as POST ([handleNotFound_method_collapse]), the dispatch of the
      configured server ([serve_request]) and the reply to a request
      given as a URL with a query whose names and values [urlDecode]
      leaves as they are ([serve_query]);
    - Wi-Fi ([WiFi]): return on connection ([setupWiFi_connects]) and on a
      wrong password ([setupWiFi_wrong_password]) with the exact log,
      time and number of polls, no return otherwise
      ([setupWiFi_never_returns]), and the loop equal to the reference
      search ([waitLoop_exit]);
    - device ([Sketch], [Device]): the halt on a failed allocation
      ([setup_halts_without_display], [reachable_halted]), the wrong
      password not being fatal ([setup_wrong_password_nonfatal]), the log
      of a setup that connects ([setup_connects_log]), the invariant of
      every running state reached from power-on ([reachable_running]),
      proved by induction on [star step], and the return of [loop] below
      256 arguments ([loop_returns]);
    - refinement ([Responder]): every step is a step of the abstract life
      cycle ([step_refines]) and every reply meets the responder contract
      for GET and POST requests ([loop_refines]);
    - without fuel ([Interaction]): each fuel model agrees with its
      interaction tree (a run that returns in the fuel model returns the
      same state, up to [eutt]; every leaf of a fuel-free run is a result
      of the fuel model with enough fuel), and one request with 256
      arguments or more on a path other than "/" freezes the endless
      device for good
      ([after_it_stalls]).  Divergence is
      stated as [has_post t (fun _ => False)] (no leaf of the tree) and
      proved from loop invariants ([has_post_iter_strong],
      [Leaf_interp_state_iter_inv]), without coinduction of our own;
    - order of the interactions ([Ordering]), for every answer of the
      environment: a [setup] that returns asked for the
      buffer, then polled the radio in rounds of two, read the address
      only after connecting, and called [MDNS.begin] last
      ([setup_it_order]); a [loop()] iteration asks for one pending
      client and then for the address, and nothing else
      ([loop_it_order]).  The proofs take complete traces apart along
      the binds of the trees ([trace_bind_ret]) and go round the join
      loop by well-founded induction on the number of answers.

    Fuel and bounds.  [Http.argsLoop] gets one unit of fuel per loop test:
    [length args + 1] is enough below 256 arguments, and no fuel is enough
    from 256 on, which the theorems state for every fuel.
    [WiFi.waitLoop] gets one unit per iteration: [j + 1] is enough when
    the loop leaves at iteration [j], and [waitLoop_exit] gives the
    outcome for every fuel.  The parser accumulator of [fromString4] is a
    [uint16_t] that never exceeds 2559, so it is kept unbounded; the
    decimal text of a byte is checked on all 256 values by computation.
    [Interaction] has no fuel: its theorems hold of the endless program,
    and relate to the fuel models only through the adequacy lemmas.

    Not modelled: pixel rasterisation of glyphs and the I2C traffic of the
    display; TCP and headers of ESP8266WebServer (a request arrives as a
    method and a URL); the mDNS protocol; IPv6 addresses (the
    station of the sketch has an IPv4 address); config.h, whose two
    constants are Section variables.  The Arduino core's [main] is not in
    the repository; [Interaction.device_it] models it from the documented
    behaviour (setup once, loop forever). *)

From Stdlib Require Import String Ascii List ZArith Lia Bool.
From Stdlib Require Import DecimalString DecimalNat.
Import ListNotations.

Declare Scope esp_scope.
Delimit Scope esp_scope with esp.

Create Rewrite HintDb esp_rw.

(** ** Characters and strings *)

Definition CR : ascii := "013"%char.
Definition LF : ascii := "010"%char.

(** A one-character string. *)
Definition str1 (c : ascii) : string := String c EmptyString.

(** The two characters ["\r\n"] that [Print::println()] emits. *)
Definition crlf : string := String CR (String LF EmptyString).

(** ["\n"] *)
Definition nl : string := str1 LF.

Lemma append_nil_r (s : string) : (s ++ "")%string = s.
Proof. induction s as [|c s IH]; simpl; [reflexivity | now rewrite IH]. Qed.

Lemma append_assoc (s1 s2 s3 : string) :
  (s1 ++ (s2 ++ s3))%string = ((s1 ++ s2) ++ s3)%string.
Proof. induction s1 as [|c s IH]; simpl; [reflexivity | now rewrite IH]. Qed.

Lemma length_append (s1 s2 : string) :
  String.length (s1 ++ s2) = String.length s1 + String.length s2.
Proof. induction s1 as [|c s IH]; simpl; [reflexivity | now rewrite IH]. Qed.

#[export] Hint Rewrite append_nil_r length_append : esp_rw.
#[export] Hint Rewrite <- append_assoc : esp_rw.

(** [s] does not contain the character [c]. *)
Fixpoint lacks (c : ascii) (s : string) : bool :=
  match s with
  | EmptyString => true
  | String c' s' => negb (Ascii.eqb c c') && lacks c s'
  end.

Lemma lacks_append c s1 s2 :
  lacks c (s1 ++ s2) = lacks c s1 && lacks c s2.
Proof.
  induction s1 as [|c' s IH]; simpl; [reflexivity|].
  now rewrite IH, andb_assoc.
Qed.

(** ** [String += int]: decimal printing *)

(** [String::concat(int)] prints its argument with [itoa(num, buf, 10)];
    the counts it prints are never negative, so the decimal digits of a
    [nat] are the value the sketch appends. *)
Definition dec (n : nat) : string := NilEmpty.string_of_uint (Nat.to_uint n).

Lemma dec_inj n m : dec n = dec m -> n = m.
Proof.
  unfold dec. intros H.
  apply (f_equal NilEmpty.uint_of_string) in H.
  rewrite !NilEmpty.usu in H. injection H as H.
  now apply Unsigned.to_uint_inj.
Qed.

(** ** Machine integers *)

Open Scope Z_scope.

(** The value an [int16_t] holds after an assignment of [z]: the two's
    complement wrap-around GCC performs (and C++20 prescribes). *)
Definition wrap16 (z : Z) : Z := (z + 2 ^ 15) mod 2 ^ 16 - 2 ^ 15.

(** The value a [uint8_t] holds after an assignment of [z]. *)
Definition wrap8 (z : Z) : Z := z mod 2 ^ 8.

Lemma wrap16_range z : - 2 ^ 15 <= wrap16 z < 2 ^ 15.
Proof. unfold wrap16. pose proof (Z.mod_pos_bound (z + 2 ^ 15) (2 ^ 16)). lia. Qed.

Lemma wrap16_small z : - 2 ^ 15 <= z < 2 ^ 15 -> wrap16 z = z.
Proof.
  intros H. unfold wrap16.
  rewrite Z.mod_small by lia. lia.
Qed.

(** Wrapping an intermediate result does not change the final value. *)
Lemma wrap16_add_l a b : wrap16 (wrap16 a + b) = wrap16 (a + b).
Proof.
  unfold wrap16.
  replace ((a + 2 ^ 15) mod 2 ^ 16 - 2 ^ 15 + b + 2 ^ 15)
    with ((a + 2 ^ 15) mod 2 ^ 16 + b) by lia.
  rewrite Z.add_mod_idemp_l by lia.
  f_equal. f_equal. lia.
Qed.

#[export] Hint Rewrite wrap16_add_l : esp_rw.

Lemma wrap8_range z : 0 <= wrap8 z < 2 ^ 8.
Proof. unfold wrap8. apply Z.mod_pos_bound. lia. Qed.

Lemma wrap8_small z : 0 <= z < 2 ^ 8 -> wrap8 z = z.
Proof. intros H. unfold wrap8. now apply Z.mod_small. Qed.

Close Scope Z_scope.

(** ** The outcome monad *)

(** A computation on a state [S]: it returns a value and a state, enters a
    loop that the code never leaves ([for (;;) ;] and the like), or uses up
    the fuel that bounds a loop whose exit depends on the environment. *)
Inductive outcome (S A : Type) : Type :=
| Done (a : A) (s : S)
| Spin (s : S)
| OutOfFuel.

Arguments Done {S A} a s.
Arguments Spin {S A} s.
Arguments OutOfFuel {S A}.

Definition st (S A : Type) : Type := S -> outcome S A.

Definition ret {S A} (a : A) : st S A := fun s => Done a s.

Definition bind {S A B} (m : st S A) (k : A -> st S B) : st S B :=
  fun s =>
    match m s with
    | Done a s' => k a s'
    | Spin s' => Spin s'
    | OutOfFuel => OutOfFuel
    end.

(** A pure state update, [obj.method(...)] on the state. *)
Definition modify {S} (f : S -> S) : st S unit := fun s => Done tt (f s).

Definition gets {S A} (f : S -> A) : st S A := fun s => Done (f s) s.

(** [for (;;) ;] *)
Definition spin {S A} : st S A := fun s => Spin s.

Notation "x <- m ;; k" := (bind m (fun x => k))
  (at level 61, m at next level, right associativity) : esp_scope.
Notation "m ;; k" := (bind m (fun _ => k))
  (at level 61, right associativity) : esp_scope.

Lemma bind_Done {S A B} (m : st S A) (k : A -> st S B) s a s' :
  m s = Done a s' -> bind m k s = k a s'.
Proof. intros H. unfold bind. now rewrite H. Qed.

Lemma bind_Spin {S A B} (m : st S A) (k : A -> st S B) s s' :
  m s = Spin s' -> bind m k s = Spin s'.
Proof. intros H. unfold bind. now rewrite H. Qed.

Lemma bind_OutOfFuel {S A B} (m : st S A) (k : A -> st S B) s :
  m s = OutOfFuel -> bind m k s = OutOfFuel.
Proof. intros H. unfold bind. now rewrite H. Qed.

Lemma bind_assoc {S A B C} (m : st S A) (k : A -> st S B) (h : B -> st S C) s :
  bind (bind m k) h s = bind m (fun a => bind (k a) h) s.
Proof. unfold bind. now destruct (m s). Qed.

#[export] Hint Rewrite @bind_assoc : esp_rw.

(** ** Sequences of steps *)

(** Zero or more steps of a relation. *)
Section Star.
Context {A : Type} (R : A -> A -> Prop).

Inductive star : A -> A -> Prop :=
| star_refl a : star a a
| star_step a b c : R a b -> star b c -> star a c.

(** A property preserved by every step holds of everything reachable. *)
Lemma star_preserves (P : A -> Prop) :
  (forall a b, R a b -> P a -> P b) -> forall a b, star a b -> P a -> P b.
Proof. intros Hs a b Hab. induction Hab; eauto. Qed.

(** A step after a sequence of steps. *)
Lemma star_snoc a b c : star a b -> R b c -> star a c.
Proof.
  intros Hab Hbc. induction Hab as [a|a b' b Hab' _ IH].
  - exact (star_step a c c Hbc (star_refl c)).
  - exact (star_step a b' c Hab' (IH Hbc)).
Qed.
End Star.
