(* ===== verification/Print.v ===== *)
(** * The Arduino [Print] class and the serial port

    Every text output of the sketch goes through the Arduino core's [Print]
    class: [Serial.print], [Serial.println], [display.println] all end in the
    one virtual method [write(uint8_t)] of the object.  The class is a type
    class here, [print] and [println] are derived from [write] the way
    Print.cpp derives them, and [HardwareSerial] (the serial log of the
    sketch) is an instance.  Library code, modelled from its documented
    behaviour. *)

From Stdlib Require Import String Ascii List Lia NArith.
From S2P Require Import Prelude.

(** [virtual size_t write(uint8_t)]: the one operation an output device
    provides; the byte count it returns is ignored by every caller in the
    sketch. *)
Class Print (S : Type) := write : ascii -> S -> S.

Section Printing.
Context {S : Type} `{Print S}.

(** [Print::print(const char * )] / [print(const String &)]: [write]
    each character in order. *)
Fixpoint print (s : string) (o : S) : S :=
  match s with
  | EmptyString => o
  | String c s' => print s' (write c o)
  end.

(** [Print::println(x)]: [print(x)] followed by [println()], which
    prints ["\r\n"]. *)
Definition println (s : string) (o : S) : S := print crlf (print s o).

Lemma print_append s1 s2 o : print (s1 ++ s2) o = print s2 (print s1 o).
Proof. revert o. induction s1 as [|c s IH]; intros o; simpl; auto. Qed.

(** Printing is determined by the effect of [write] on each character:
    two devices that agree on an invariant preserved by [write] agree
    after any [print]. *)
Lemma print_preserves (P : S -> Prop) :
  (forall c o, P o -> P (write c o)) -> forall s o, P o -> P (print s o).
Proof. intros Hw s. induction s as [|c s IH]; intros o Ho; simpl; auto. Qed.
End Printing.

#[export] Hint Rewrite @print_append : esp_rw.

(** ** [HardwareSerial] *)
Module Serial.

(** The port: its baud rate once [begin] ran, and everything written to
    it so far (the diagnostic log of the sketch). *)
Record HardwareSerial := mkSerial {
  baud : option N;
  out : string
}.

Definition init : HardwareSerial := mkSerial None EmptyString.

(** [Serial.begin(baud)] *)
Definition begin (b : N) (sr : HardwareSerial) : HardwareSerial :=
  mkSerial (Some b) (out sr).

(** [HardwareSerial::write(uint8_t)]: append the byte to the output. *)
#[global] Instance print_serial : Print HardwareSerial :=
  fun c sr => mkSerial (baud sr) (out sr ++ str1 c).

Lemma out_print s sr : out (print s sr) = (out sr ++ s)%string.
Proof.
  revert sr. induction s as [|c s IH]; intros sr; simpl.
  - now rewrite append_nil_r.
  - rewrite IH. simpl. now rewrite <- append_assoc.
Qed.

Lemma baud_print s sr : baud (print s sr) = baud sr.
Proof.
  apply (print_preserves (fun o => baud o = baud sr)); [|reflexivity].
  intros c o Ho. exact Ho.
Qed.

Lemma out_println s sr : out (println s sr) = (out sr ++ s ++ crlf)%string.
Proof. unfold println. now rewrite !out_print, append_assoc. Qed.

End Serial.

#[export] Hint Rewrite Serial.out_print Serial.out_println Serial.baud_print : esp_rw.

(** ** [StreamString]: a [String] written through [Print] *)
Module StreamString.

(** [StreamString::write(uint8_t)]: [String::concat] of the byte; the
    [String] [IPAddress::toString] returns is built this way. *)
#[global] Instance print_string : Print string :=
  fun c s => (s ++ str1 c)%string.

Lemma print_string_eq s o : @print string _ s o = (o ++ s)%string.
Proof.
  revert o. induction s as [|c s IH]; intros o; simpl.
  - now rewrite append_nil_r.
  - rewrite IH. unfold write, print_string. now rewrite <- append_assoc.
Qed.

End StreamString.

Lemma print_str1 {S} `{Print S} c (o : S) : print (str1 c) o = write c o.
Proof. reflexivity. Qed.
