(* ===== verification/Gfx.v ===== *)
(** * The Adafruit_GFX / Adafruit_SSD1306 text path

    The display object of the sketch is an [Adafruit_SSD1306], a subclass of
    [Adafruit_GFX] and so of [Print].  This file models the members the
    sketch reaches: the constructor, [begin], [clearDisplay], [setTextSize],
    [setTextColor], the classic-font [write] with its cursor, wrap and
    clipping, [drawChar], and [display] which copies the frame buffer to the
    panel.  The cursor coordinates are [int16_t] fields of the library, so
    every update of them goes through [wrap16].

    A frame buffer is the list of what was drawn into it since the last
    clear, in drawing order: the glyphs placed by [drawChar] (with their
    position, colours and scale) and the splash bitmap [begin] draws.  Pixel
    rasterisation of a glyph is not modelled; a glyph is in the buffer
    exactly when [drawChar] does not clip it.  This is library code, outside
    the repository, modelled from the library's documented behaviour. *)

From Stdlib Require Import String Ascii List ZArith Lia Bool.
From S2P Require Import Prelude Print.
Import ListNotations.

Create HintDb gfx_wf.

Module Gfx.

Open Scope Z_scope.

(** One drawing operation recorded in the frame buffer. *)
Inductive item : Type :=
| Glyph (x y : Z) (c : ascii) (color bg : Z) (size_x size_y : Z)
| Splash.

Definition item_eq_dec (a b : item) : {a = b} + {a <> b}.
Proof. decide equality; first [apply Z.eq_dec | apply ascii_dec]. Defined.

(** The fields of an [Adafruit_SSD1306] that the sketch's calls read or
    write ([_width]/[_height] are [WIDTH]/[HEIGHT] at rotation 0). *)
Record SSD1306 := mkSSD1306 {
  WIDTH : Z;
  HEIGHT : Z;
  cursor_x : Z;
  cursor_y : Z;
  textsize_x : Z;
  textsize_y : Z;
  textcolor : Z;
  textbgcolor : Z;
  wrap : bool;
  allocated : bool;
  buffer : list item;
  panel : list item
}.

Definition set_cursor (x y : Z) (d : SSD1306) : SSD1306 :=
  mkSSD1306 (WIDTH d) (HEIGHT d) x y (textsize_x d) (textsize_y d)
    (textcolor d) (textbgcolor d) (wrap d) (allocated d) (buffer d) (panel d).

Definition set_buffer (b : list item) (d : SSD1306) : SSD1306 :=
  mkSSD1306 (WIDTH d) (HEIGHT d) (cursor_x d) (cursor_y d) (textsize_x d)
    (textsize_y d) (textcolor d) (textbgcolor d) (wrap d) (allocated d) b
    (panel d).

(** [SSD1306_WHITE] *)
Definition SSD1306_WHITE : Z := 1.

(** [Adafruit_SSD1306(w, h, &Wire, rst)] through [Adafruit_GFX(w, h)]:
    cursor at the origin, text size 1, colour 0xFFFF on 0xFFFF, wrap on,
    no buffer allocated yet. *)
Definition create (w h : Z) : SSD1306 :=
  mkSSD1306 w h 0 0 1 1 65535 65535 true false [] [].

(** [begin(vcs, addr)]: allocate the buffer unless it exists (the
    allocation succeeds when [alloc_ok]), clear it, draw the splash
    bitmap, initialise the controller; [false] when the allocation
    fails. *)
Definition begin (alloc_ok : bool) (d : SSD1306) : bool * SSD1306 :=
  if allocated d || alloc_ok then
    (true, mkSSD1306 (WIDTH d) (HEIGHT d) (cursor_x d) (cursor_y d)
             (textsize_x d) (textsize_y d) (textcolor d) (textbgcolor d)
             (wrap d) true [Splash] (panel d))
  else (false, d).

(** [clearDisplay()]: [memset] of the buffer; the cursor is untouched. *)
Definition clearDisplay (d : SSD1306) : SSD1306 := set_buffer [] d.

(** [setTextSize(uint8_t s)] = [setTextSize(s, s)]: the argument is
    converted to [uint8_t], and a size of 0 counts as 1. *)
Definition setTextSize (s : Z) (d : SSD1306) : SSD1306 :=
  let s := wrap8 s in
  let s' := if 0 <? s then s else 1 in
  mkSSD1306 (WIDTH d) (HEIGHT d) (cursor_x d) (cursor_y d) s' s'
    (textcolor d) (textbgcolor d) (wrap d) (allocated d) (buffer d) (panel d).

(** [setTextColor(c)]: foreground and background both [c], which makes
    the background transparent. *)
Definition setTextColor (c : Z) (d : SSD1306) : SSD1306 :=
  mkSSD1306 (WIDTH d) (HEIGHT d) (cursor_x d) (cursor_y d) (textsize_x d)
    (textsize_y d) c c (wrap d) (allocated d) (buffer d) (panel d).

(** The clipping test of [drawChar] for the classic 6x8 font. *)
Definition clipped (w h x y sx sy : Z) : bool :=
  (w <=? x) || (h <=? y) || (x + 6 * sx - 1 <? 0) || (y + 8 * sy - 1 <? 0).

(** [drawChar(x, y, c, color, bg, size_x, size_y)]: nothing when the
    glyph lies wholly outside the panel. *)
Definition drawChar (x y : Z) (c : ascii) (color bg sx sy : Z)
    (d : SSD1306) : SSD1306 :=
  if clipped (WIDTH d) (HEIGHT d) x y sx sy then d
  else set_buffer (buffer d ++ [Glyph x y c color bg sx sy]) d.

(** [Adafruit_GFX::write(uint8_t c)] with the classic font: ['\n'] moves
    to the start of the next line, ['\r'] is ignored, any other character
    first wraps to the next line when it would pass the right edge, is
    drawn, and advances the cursor by one cell. *)
Definition write (c : ascii) (d : SSD1306) : SSD1306 :=
  if Ascii.eqb c LF then
    set_cursor 0 (wrap16 (cursor_y d + textsize_y d * 8)) d
  else if Ascii.eqb c CR then d
  else
    let d1 :=
      if wrap d && (WIDTH d <? cursor_x d + textsize_x d * 6)
      then set_cursor 0 (wrap16 (cursor_y d + textsize_y d * 8)) d
      else d in
    let d2 := drawChar (cursor_x d1) (cursor_y d1) c (textcolor d1)
                (textbgcolor d1) (textsize_x d1) (textsize_y d1) d1 in
    set_cursor (wrap16 (cursor_x d2 + textsize_x d2 * 6)) (cursor_y d2) d2.

#[export] Instance print_gfx : Print SSD1306 := write.

(** [display()]: send the buffer to the panel, which then shows it. *)
Definition display (d : SSD1306) : SSD1306 :=
  mkSSD1306 (WIDTH d) (HEIGHT d) (cursor_x d) (cursor_y d) (textsize_x d)
    (textsize_y d) (textcolor d) (textbgcolor d) (wrap d) (allocated d)
    (buffer d) (buffer d).

(** ** A line of text *)

(** What printing [s] from [(x, y)] at scale 1 in colour [fg] on [bg]
    puts in the buffer when no character wraps: one glyph per character,
    six pixels apart, those [drawChar] does not clip. *)
Fixpoint row (w h fg bg x y : Z) (s : string) : list item :=
  match s with
  | EmptyString => []
  | String c s' =>
      (if clipped w h x y 1 1 then [] else [Glyph x y c fg bg 1 1])
        ++ row w h fg bg (x + 6) y s'
  end.

(** The hypotheses of [print_row]: scale 1, a line that holds no line
    break and fits between the cursor and the right edge. *)
Definition fits (s : string) (d : SSD1306) : Prop :=
  textsize_x d = 1 /\ textsize_y d = 1 /\ lacks LF s = true /\
  lacks CR s = true /\ 0 <= cursor_x d /\
  cursor_x d + 6 * Z.of_nat (String.length s) <= WIDTH d < 2 ^ 15.

Lemma row_append w h fg bg x y s1 s2 :
  row w h fg bg x y (s1 ++ s2) =
  row w h fg bg x y s1 ++ row w h fg bg (x + 6 * Z.of_nat (String.length s1)) y s2.
Proof.
  revert x. induction s1 as [|c s IH]; intros x.
  - simpl. now rewrite Z.add_0_r.
  - cbn [row String.append String.length].
    rewrite IH, app_assoc. f_equal. f_equal. lia.
Qed.

(** A row whose line is above or below the panel is empty. *)
Lemma row_off_panel w h fg bg x y s :
  (h <= y \/ y + 7 < 0) -> row w h fg bg x y s = [].
Proof.
  intros Hy. revert x. induction s as [|c s IH]; intros x; simpl; [reflexivity|].
  rewrite IH. replace (clipped w h x y 1 1) with true; [reflexivity|].
  symmetry. unfold clipped. rewrite !orb_true_iff, Z.leb_le, !Z.ltb_lt. lia.
Qed.

(** A non-empty row that starts on a visible cell is not empty. *)
Lemma row_visible_cons w h fg bg x y c s :
  clipped w h x y 1 1 = false ->
  row w h fg bg x y (String c s) = Glyph x y c fg bg 1 1 :: row w h fg bg (x + 6) y s.
Proof. intros H. simpl. now rewrite H. Qed.

(** One character of a fitting line: no wrap, one glyph, one cell right. *)
Lemma write_plain c d :
  textsize_x d = 1 -> textsize_y d = 1 -> c <> LF -> c <> CR ->
  0 <= cursor_x d -> cursor_x d + 6 <= WIDTH d < 2 ^ 15 ->
  write c d =
  set_cursor (cursor_x d + 6) (cursor_y d)
    (set_buffer (buffer d ++ row (WIDTH d) (HEIGHT d) (textcolor d)
                                 (textbgcolor d) (cursor_x d) (cursor_y d) (str1 c)) d).
Proof.
  intros Hx Hy HLF HCR H0 Hw. unfold write.
  rewrite (proj2 (Ascii.eqb_neq c LF) HLF), (proj2 (Ascii.eqb_neq c CR) HCR).
  rewrite Hx, (proj2 (Z.ltb_ge (WIDTH d) (cursor_x d + 1 * 6))) by lia.
  rewrite andb_false_r. unfold drawChar. simpl. rewrite Hx, Hy, app_nil_r.
  destruct (clipped _ _ _ _ _ _); simpl;
    rewrite ?app_nil_r, wrap16_small by lia; destruct d; simpl in *;
    now subst.
Qed.

(** A fitting line: its row is appended to the buffer and the cursor
    moves six pixels per character along the same line. *)
Lemma print_row s d :
  fits s d ->
  print s d =
  set_cursor (cursor_x d + 6 * Z.of_nat (String.length s)) (cursor_y d)
    (set_buffer (buffer d ++ row (WIDTH d) (HEIGHT d) (textcolor d)
                                 (textbgcolor d) (cursor_x d) (cursor_y d) s) d).
Proof.
  revert d. induction s as [|c s IH]; intros d (Hx & Hy & HLF & HCR & H0 & Hw).
  - simpl. rewrite app_nil_r, Z.add_0_r. now destruct d.
  - cbn [lacks String.length] in HLF, HCR, Hw.
    apply andb_prop in HLF as [HLF1 HLF].
    apply andb_prop in HCR as [HCR1 HCR].
    apply negb_true_iff, Ascii.eqb_neq in HLF1, HCR1.
    cbn [print]. change (Print.write c d) with (write c d).
    rewrite write_plain by first [assumption | congruence | lia].
    rewrite IH by (repeat split; cbn [set_cursor set_buffer textsize_x
      textsize_y cursor_x WIDTH]; first [assumption | lia]).
    destruct d; unfold set_cursor, set_buffer.
    cbn [WIDTH HEIGHT cursor_x cursor_y textsize_x textsize_y textcolor
         textbgcolor wrap allocated buffer panel].
    rewrite <- app_assoc. f_equal; [cbn [String.length]; lia|].
    cbn [row str1]. now rewrite app_nil_r, app_assoc.
Qed.

(** A fitting line printed with [println]: the row, then the cursor at
    the start of the next line, eight pixels down, kept at [int16_t]. *)
Lemma println_row s d :
  fits s d ->
  println s d =
  set_cursor 0 (wrap16 (cursor_y d + 8))
    (set_buffer (buffer d ++ row (WIDTH d) (HEIGHT d) (textcolor d)
                                 (textbgcolor d) (cursor_x d) (cursor_y d) s) d).
Proof.
  intros Hf. unfold println. rewrite (print_row s d Hf).
  destruct Hf as (Hx & Hy & _). destruct d; simpl in *; subst.
  reflexivity.
Qed.

(** ** Well-formed display objects *)

(** A value of [int16_t]. *)
Definition int16 (z : Z) : Prop := - 2 ^ 15 <= z < 2 ^ 15.

(** What [drawChar] can have put in the buffer of [d]: a glyph it did not
    clip, at a scale of at least 1; the splash bitmap of [begin]. *)
Definition drawn (d : SSD1306) (it : item) : Prop :=
  match it with
  | Glyph x y _ _ _ sx sy =>
      clipped (WIDTH d) (HEIGHT d) x y sx sy = false /\ 1 <= sx /\ 1 <= sy
  | Splash => True
  end.

(** The types of the library's fields: the cursor an [int16_t], each text
    size a [uint8_t] of at least 1; the buffer and the panel hold only
    what [drawChar] and [begin] draw on a panel of this geometry. *)
Definition wf (d : SSD1306) : Prop :=
  int16 (cursor_x d) /\ int16 (cursor_y d) /\
  1 <= textsize_x d < 256 /\ 1 <= textsize_y d < 256 /\
  Forall (drawn d) (buffer d) /\ Forall (drawn d) (panel d).

(** [drawn] reads the geometry only. *)
Lemma drawn_geometry d d' it :
  WIDTH d' = WIDTH d -> HEIGHT d' = HEIGHT d -> drawn d it -> drawn d' it.
Proof. intros Hw Hh. destruct it; cbn; [rewrite Hw, Hh|]; tauto. Qed.

Lemma Forall_drawn_geometry d d' l :
  WIDTH d' = WIDTH d -> HEIGHT d' = HEIGHT d ->
  Forall (drawn d) l -> Forall (drawn d') l.
Proof. intros Hw Hh. apply Forall_impl. intros it. now apply drawn_geometry. Qed.

(** The buffer and panel of an operation that keeps the geometry. *)
Ltac same_geometry :=
  match goal with
  | H : Forall (drawn ?d) ?l |- Forall (drawn _) ?l =>
      apply (Forall_drawn_geometry d); [reflexivity | reflexivity | exact H]
  end.

(** Most operations keep the geometry and the buffers, and set fields
    within their types. *)
Ltac wf_solve :=
  unfold wf, int16 in *;
  cbn [WIDTH HEIGHT cursor_x cursor_y textsize_x textsize_y buffer panel
       set_cursor set_buffer setTextColor display clearDisplay create] in *;
  repeat match goal with H : _ /\ _ |- _ => destruct H end;
  repeat split; first [lia | same_geometry | constructor].

Lemma wf_create w h : wf (create w h).
Proof. wf_solve. Qed.

Lemma wf_set_cursor x y d :
  wf d -> int16 x -> int16 y -> wf (set_cursor x y d).
Proof. intros. wf_solve. Qed.

Lemma wf_drawChar x y c fg bg d :
  wf d -> wf (drawChar x y c fg bg (textsize_x d) (textsize_y d) d).
Proof.
  intros Hd. unfold drawChar. destruct (clipped _ _ _ _ _ _) eqn:Hc; [exact Hd|].
  assert (Hb : Forall (drawn d) (buffer d)) by apply Hd.
  assert (Hb' : Forall (drawn d) (buffer d ++ [Glyph x y c fg bg (textsize_x d) (textsize_y d)]))
    by (apply Forall_app; split; [exact Hb|]; constructor; [|constructor];
        cbn; split; [exact Hc|]; unfold wf in Hd; lia).
  clear Hb. wf_solve.
Qed.

Lemma wf_write c d : wf d -> wf (write c d).
Proof.
  intros Hd. pose proof Hd as (Hx & Hy & Hsx & Hsy & _).
  unfold write.
  destruct (Ascii.eqb c LF); [apply wf_set_cursor; [exact Hd | unfold int16; lia | apply wrap16_range]|].
  destruct (Ascii.eqb c CR); [exact Hd|].
  assert (Hw : forall d1, wf d1 ->
    wf (let d2 := drawChar (cursor_x d1) (cursor_y d1) c (textcolor d1) (textbgcolor d1)
                    (textsize_x d1) (textsize_y d1) d1 in
        set_cursor (wrap16 (cursor_x d2 + textsize_x d2 * 6)) (cursor_y d2) d2)).
  { intros d1 H1.
    pose proof (wf_drawChar (cursor_x d1) (cursor_y d1) c (textcolor d1) (textbgcolor d1) d1 H1)
      as H2.
    apply wf_set_cursor; [exact H2 | apply wrap16_range | apply H2]. }
  destruct (_ && _); apply Hw; [|exact Hd].
  apply wf_set_cursor; [exact Hd | unfold int16; lia | apply wrap16_range].
Qed.

Lemma wf_print s d : wf d -> wf (print s d).
Proof. apply print_preserves. exact wf_write. Qed.

Lemma wf_println s d : wf d -> wf (println s d).
Proof. intros Hd. unfold println. now apply wf_print, wf_print. Qed.

Lemma wf_clearDisplay d : wf d -> wf (clearDisplay d).
Proof. intros. wf_solve. Qed.

Lemma wf_setTextSize s d : wf d -> wf (setTextSize s d).
Proof.
  intros Hd. pose proof (wrap8_range s).
  unfold setTextSize. destruct (Z.ltb_spec 0 (wrap8 s)); wf_solve.
Qed.

Lemma wf_setTextColor c d : wf d -> wf (setTextColor c d).
Proof. intros. wf_solve. Qed.

Lemma wf_display d : wf d -> wf (display d).
Proof. intros. wf_solve. Qed.

Lemma wf_begin a d : wf d -> wf (snd (begin a d)).
Proof.
  intros Hd. unfold begin. destruct (_ || _); [|exact Hd]. cbn [snd].
  wf_solve; first [exact I | constructor].
Qed.

#[export] Hint Resolve wf_create wf_write wf_print wf_println wf_clearDisplay
  wf_setTextSize wf_setTextColor wf_display wf_begin : gfx_wf.

End Gfx.
