(* ===== verification/Screen.v ===== *)
(** * The status display: [displayIP]

    [main.cpp] lines 18-37: the panel geometry, the global display object
    and [displayIP], which [loop] calls once per iteration with the current
    address.  The theorems describe one call exactly ([displayIP_spec]) and
    then what repeated calls do: [displayIP] never moves the cursor back to
    the top-left corner ([clearDisplay] clears the buffer only), so each call
    draws sixteen pixels lower than the previous one, the [int16_t] cursor
    wraps after 4096 calls, and the panel shows the address during four
    calls out of every 4096. *)

From Stdlib Require Import String Ascii List ZArith Lia Bool.
From S2P Require Import Prelude Print Gfx.
Import ListNotations.

Module Screen.
Import Gfx.
Open Scope Z_scope.

(** [#define SCREEN_WIDTH 128] *)
Definition SCREEN_WIDTH : Z := 128.
(** [#define SCREEN_HEIGHT 64] *)
Definition SCREEN_HEIGHT : Z := 64.
(** [#define OLED_RESET -1] *)
Definition OLED_RESET : Z := -1.
(** [#define SCREEN_ADDRESS 0x3C] *)
Definition SCREEN_ADDRESS : Z := 60.

(** [Adafruit_SSD1306 display(SCREEN_WIDTH, SCREEN_HEIGHT, &Wire, OLED_RESET);] *)
Definition display : SSD1306 := create SCREEN_WIDTH SCREEN_HEIGHT.

(** [void displayIP(String ip)] *)
Definition displayIP (ip : string) (d : SSD1306) : SSD1306 :=
  let d := clearDisplay d in
  let d := setTextSize 1 d in
  let d := setTextColor SSD1306_WHITE d in
  let d := println "IP Address" d in
  let d := println ip d in
  Gfx.display d.

(** ** Specification of one call *)

(** What one call draws when the cursor starts at height [y]: the title
    row at [y] and the address row one text line lower. *)
Definition frame (y : Z) (ip : string) : list item :=
  row SCREEN_WIDTH SCREEN_HEIGHT SSD1306_WHITE SSD1306_WHITE 0 y "IP Address"
  ++ row SCREEN_WIDTH SCREEN_HEIGHT SSD1306_WHITE SSD1306_WHITE 0
       (wrap16 (y + 8)) ip.

(** The state of the display object between two calls: the geometry of
    the constructor, the cursor at the left edge, its height an
    [int16_t]. *)
Definition screen_ok (d : SSD1306) : Prop :=
  WIDTH d = SCREEN_WIDTH /\ HEIGHT d = SCREEN_HEIGHT /\ cursor_x d = 0 /\
  - 2 ^ 15 <= cursor_y d < 2 ^ 15.

(** An address string that fits on one text line of the panel: at most
    21 characters of 6 pixels on 128, no line break.  Every dotted quad
    (at most 15 characters) is one. *)
Definition ip_line (ip : string) : Prop :=
  lacks LF ip = true /\ lacks CR ip = true /\ (String.length ip <= 21)%nat.

(** The title line fits. *)
Lemma title_fits d :
  WIDTH d = SCREEN_WIDTH -> cursor_x d = 0 ->
  textsize_x d = 1 -> textsize_y d = 1 -> fits "IP Address" d.
Proof.
  intros Hw Hx Hsx Hsy. unfold fits. rewrite Hw, Hx. unfold SCREEN_WIDTH.
  repeat split; auto; simpl; lia.
Qed.

Lemma ip_fits ip d :
  ip_line ip -> WIDTH d = SCREEN_WIDTH -> cursor_x d = 0 ->
  textsize_x d = 1 -> textsize_y d = 1 -> fits ip d.
Proof.
  intros (HLF & HCR & Hlen) Hw Hx Hsx Hsy. unfold fits.
  rewrite Hw, Hx. unfold SCREEN_WIDTH. repeat split; auto; lia.
Qed.

(** One call, on every state between two calls: the panel and the
    buffer hold exactly [frame] at the old cursor height (nothing drawn
    before the call survives), and the cursor ends at the left edge two
    text lines lower, wrapped as an [int16_t]. *)
Lemma displayIP_spec ip d :
  screen_ok d -> ip_line ip ->
  panel (displayIP ip d) = frame (cursor_y d) ip /\
  buffer (displayIP ip d) = frame (cursor_y d) ip /\
  cursor_y (displayIP ip d) = wrap16 (cursor_y d + 16) /\
  screen_ok (displayIP ip d).
Proof.
  intros (Hw & Hh & Hx & Hy) Hip. unfold displayIP.
  rewrite (println_row "IP Address")
    by (apply title_fits; cbn; first [assumption | reflexivity]).
  rewrite (println_row ip)
    by (apply ip_fits; cbn; first [assumption | reflexivity]).
  destruct d; cbn in Hw, Hh, Hx |- *; subst.
  rewrite wrap16_add_l.
  unfold frame, screen_ok; cbn.
  repeat split; first [reflexivity | apply wrap16_range | f_equal; lia].
Qed.

(** [displayIP] keeps the display object well-formed, whatever the
    address text. *)
Lemma displayIP_wf ip d : wf d -> wf (displayIP ip d).
Proof. intros Hd. unfold displayIP. auto 10 with gfx_wf. Qed.

(** ** Repeated calls *)

(** After [k] calls the cursor is [16 * k] pixels lower, as an
    [int16_t]. *)
Lemma displayIP_iter ip d k :
  screen_ok d -> ip_line ip ->
  screen_ok (Nat.iter k (displayIP ip) d) /\
  cursor_y (Nat.iter k (displayIP ip) d) = wrap16 (cursor_y d + 16 * Z.of_nat k).
Proof.
  intros Hd Hip. induction k as [|k [Hok Hy]].
  - split; [exact Hd|]. destruct Hd as (_ & _ & _ & Hr).
    rewrite Z.add_0_r. symmetry. now apply wrap16_small.
  - rewrite Nat.iter_succ. destruct (displayIP_spec ip _ Hok Hip) as (_ & _ & Hy' & Hok').
    split; [exact Hok'|]. rewrite Hy', Hy, wrap16_add_l. f_equal. lia.
Qed.

(** The panel after call [k + 1]. *)
Lemma displayIP_iter_panel ip d k :
  screen_ok d -> ip_line ip ->
  panel (Nat.iter (S k) (displayIP ip) d) =
  frame (wrap16 (cursor_y d + 16 * Z.of_nat k)) ip.
Proof.
  intros Hd Hip. destruct (displayIP_iter ip d k Hd Hip) as [Hok Hy].
  rewrite Nat.iter_succ, <- Hy. now apply displayIP_spec.
Qed.

(** A frame is blank exactly when both of its rows are off the panel. *)
Lemma frame_blank_iff y ip :
  frame y ip = [] <->
  ~ (- 7 <= y < 64) /\ (ip = EmptyString \/ ~ (- 7 <= wrap16 (y + 8) < 64)).
Proof.
  unfold frame, SCREEN_WIDTH, SCREEN_HEIGHT.
  assert (Hclip : forall y', clipped 128 64 0 y' 1 1 = false <-> - 7 <= y' < 64).
  { intros y'. unfold clipped.
    rewrite !orb_false_iff, Z.leb_gt, !Z.ltb_ge, Z.leb_gt. lia. }
  split.
  - intros H. apply app_eq_nil in H as [H1 H2]. split.
    + intros Hv. apply Hclip in Hv. rewrite row_visible_cons in H1 by exact Hv.
      discriminate.
    + destruct ip as [|c ip]; [now left|right]. intros Hv.
      apply Hclip in Hv. rewrite row_visible_cons in H2 by exact Hv.
      discriminate.
  - intros [Ht Hi]. rewrite row_off_panel by lia. simpl.
    destruct Hi as [->|Hi]; [reflexivity|]. apply row_off_panel. lia.
Qed.

(** The arithmetic of the drift: a cursor [16 * k] pixels down, wrapped
    to 16 bits, leaves one of the two text lines on the panel exactly
    when [k mod 4096 < 4]. *)
Lemma drift_on_panel (k : Z) :
  0 <= k ->
  (- 7 <= wrap16 (16 * k) < 64 <-> k mod 4096 < 4) /\
  (- 7 <= wrap16 (wrap16 (16 * k) + 8) < 64 <-> k mod 4096 < 4).
Proof.
  intros Hk. rewrite wrap16_add_l. unfold wrap16.
  pose proof (Z.div_mod k 4096 ltac:(lia)) as Hdm.
  pose proof (Z.mod_pos_bound k 4096 ltac:(lia)).
  set (r := k mod 4096) in *. set (q := k / 4096) in *.
  replace (16 * k + 2 ^ 15) with ((16 * r + 2 ^ 15) + q * 2 ^ 16) by lia.
  replace (16 * k + 8 + 2 ^ 15) with ((16 * r + 8 + 2 ^ 15) + q * 2 ^ 16) by lia.
  rewrite !Z.mod_add by lia.
  destruct (Z.lt_ge_cases r 2048).
  - rewrite !Z.mod_small by lia. split; lia.
  - replace (16 * r + 2 ^ 15) with ((16 * r - 2 ^ 15) + 1 * 2 ^ 16) by lia.
    replace (16 * r + 8 + 2 ^ 15) with ((16 * r + 8 - 2 ^ 15) + 1 * 2 ^ 16) by lia.
    rewrite !Z.mod_add, !Z.mod_small by lia. split; lia.
Qed.

(** ** The theorems *)

(** The frame drawn from a cursor [16 * k] pixels down is not blank
    exactly when [k mod 4096 < 4]. *)
Lemma frame_drift_visible (k : nat) ip :
  frame (wrap16 (16 * Z.of_nat k)) ip <> [] <-> (k mod 4096 < 4)%nat.
Proof.
  rewrite frame_blank_iff.
  destruct (drift_on_panel (Z.of_nat k) ltac:(lia)) as [Ht Hi].
  assert (Hm : Z.of_nat k mod 4096 = Z.of_nat (k mod 4096))
    by (rewrite Nat2Z.inj_mod; reflexivity).
  destruct (Nat.lt_ge_cases (k mod 4096) 4) as [Hc|Hc].
  - assert (Hz : Z.of_nat k mod 4096 < 4) by lia. tauto.
  - assert (Hz : ~ Z.of_nat k mod 4096 < 4) by lia. split; [|lia].
    intros Hn. exfalso. apply Hn. tauto.
Qed.

(** C1. Called once per [loop] iteration from a display whose cursor
    starts at the top-left corner (as after [begin]), [displayIP] leaves
    something on the panel after its [k+1]-th call exactly when
    [k mod 4096 < 4]: the first four calls show the address, the next
    4092 leave the panel blank, and the cycle repeats when the [int16_t]
    cursor wraps around. *)
Theorem displayIP_panel_visible ip d k :
  screen_ok d -> cursor_y d = 0 -> ip_line ip ->
  panel (Nat.iter (S k) (displayIP ip) d) <> [] <-> (k mod 4096 < 4)%nat.
Proof.
  intros Hd H0 Hip. rewrite displayIP_iter_panel, H0 by assumption.
  rewrite Z.add_0_l. apply frame_drift_visible.
Qed.

(** C6. [displayIP] is not idempotent, contrary to the specification's
    idempotence property: from the top-left corner, a second call with the
    same address draws both lines sixteen pixels lower than the first, so
    the two panels differ. *)
Theorem displayIP_twice_differs ip d :
  screen_ok d -> cursor_y d = 0 -> ip_line ip ->
  panel (displayIP ip (displayIP ip d)) <> panel (displayIP ip d).
Proof.
  intros Hd H0 Hip.
  pose proof (displayIP_iter_panel ip d 1 Hd Hip) as H2.
  pose proof (displayIP_iter_panel ip d 0 Hd Hip) as H1.
  change (Nat.iter 2 (displayIP ip) d) with (displayIP ip (displayIP ip d)) in H2.
  change (Nat.iter 1 (displayIP ip) d) with (displayIP ip d) in H1.
  rewrite H1, H2, H0. unfold frame. cbn.
  intros H. injection H. lia.
Qed.

(** C15. The first call after [begin] draws exactly the title at the top
    line and the address on the line below it, whatever the buffer held
    (the splash screen of [begin] included), and leaves the cursor two
    lines down. *)
Theorem displayIP_first_call ip alloc_ok :
  fst (begin alloc_ok display) = true -> ip_line ip ->
  panel (displayIP ip (snd (begin alloc_ok display))) =
    row SCREEN_WIDTH SCREEN_HEIGHT SSD1306_WHITE SSD1306_WHITE 0 0 "IP Address"
    ++ row SCREEN_WIDTH SCREEN_HEIGHT SSD1306_WHITE SSD1306_WHITE 0 8 ip /\
  cursor_y (displayIP ip (snd (begin alloc_ok display))) = 16.
Proof.
  intros Hb Hip. destruct alloc_ok; [|discriminate].
  assert (Hok : screen_ok (snd (begin true display))) by (repeat split; simpl; lia).
  destruct (displayIP_spec ip _ Hok Hip) as (Hp & _ & Hy & _).
  rewrite Hp, Hy. split; reflexivity.
Qed.

(** ** Witnesses *)

Definition example_ip : string := "192.168.1.42".

Lemma displayIP_panel_visible_witness :
  panel (Nat.iter 4097 (displayIP example_ip) (snd (begin true display))) <> [] /\
  panel (Nat.iter 5 (displayIP example_ip) (snd (begin true display))) = [].
Proof.
  assert (Hok : screen_ok (snd (begin true display))) by (repeat split; simpl; lia).
  assert (Hip : ip_line example_ip) by (repeat split; simpl; lia).
  split.
  - apply (displayIP_panel_visible example_ip _ 4096 Hok eq_refl Hip).
    apply Nat.ltb_lt. vm_compute. reflexivity.
  - destruct (list_eq_dec item_eq_dec
      (panel (Nat.iter 5 (displayIP example_ip) (snd (begin true display)))) []) as [E|E];
      [exact E|].
    apply (displayIP_panel_visible example_ip _ 4 Hok eq_refl Hip) in E. simpl in E. lia.
Defined.

Lemma displayIP_twice_differs_witness :
  panel (displayIP example_ip (displayIP example_ip (snd (begin true display)))) <>
  panel (displayIP example_ip (snd (begin true display))).
Proof.
  apply displayIP_twice_differs; [repeat split; simpl; lia | reflexivity |].
  repeat split; simpl; lia.
Defined.

Lemma displayIP_first_call_witness :
  panel (displayIP example_ip (snd (begin true display))) =
    row SCREEN_WIDTH SCREEN_HEIGHT SSD1306_WHITE SSD1306_WHITE 0 0 "IP Address"
    ++ row SCREEN_WIDTH SCREEN_HEIGHT SSD1306_WHITE SSD1306_WHITE 0 8 example_ip.
Proof.
  apply (displayIP_first_call example_ip true); [reflexivity|].
  repeat split; simpl; lia.
Defined.
End Screen.
