(* ===== verification/IPAddress.v ===== *)
(** * [IPAddress]: the address [loop] draws and [setupWiFi] logs

    [main.cpp] line 99 ([Serial.println(WiFi.localIP())]) and line 132
    ([String ip = WiFi.localIP().toString();]).  The ESP8266 core keeps an
    IPv4 address as lwIP's 32-bit word in network byte order; [operator[]]
    reads and writes its bytes at offsets 0 to 3 of a little-endian word,
    that is bits [8i] to [8i+7].  [printTo] (which both [println] of the
    address and [toString] run) prints "(IP unset)" for an address that
    is not [isSet] (0.0.0.0 and [IPADDR_NONE], 255.255.255.255) and
    otherwise the four bytes in decimal separated by dots.

    The file models the word and its byte view with [Z.shiftr], [Z.land],
    [Z.lor] and [Z.shiftl], the printing loop of [printTo], and the core's
    own parser [fromString4] as the reading of the printed text.  The
    theorems: every printed address is one line of at most 15 characters;
    parsing the text of a set address gives the address back, and the
    text of an unset one is rejected; two addresses have the same text
    exactly when they are equal or both unset. *)

From Stdlib Require Import String Ascii List ZArith Lia Bool.
From S2P Require Import Prelude Print Screen.
Import ListNotations.

Module IPAddress.
Local Open Scope Z_scope.

(** [class IPAddress], IPv4: the [uint32_t] of [ip_addr_t]. *)
Record IPAddress := mkIPAddress { v4 : Z }.

(** [( *this)[i]]: the byte at offset [i] of the little-endian word. *)
Definition octet (ip : IPAddress) (i : nat) : Z :=
  Z.land (Z.shiftr (v4 ip) (8 * Z.of_nat i)) 255.

(** [( *this)[i] = v] with [v : uint16_t] stored into a [uint8_t]. *)
Definition set_octet (ip : IPAddress) (i : nat) (v : Z) : IPAddress :=
  mkIPAddress
    (Z.lor (Z.land (v4 ip) (Z.lnot (Z.shiftl 255 (8 * Z.of_nat i))))
           (Z.shiftl (wrap8 v) (8 * Z.of_nat i))).

(** [IPADDR_NONE], the broadcast word 255.255.255.255. *)
Definition IPADDR_NONE : Z := 4294967295.

(** [IPAddress::isSet()]: [!ip_addr_isany(&_ip) && ( *this != IPADDR_NONE)]:
    neither 0.0.0.0 nor 255.255.255.255. *)
Definition isSet (ip : IPAddress) : bool := negb (v4 ip =? 0) && negb (v4 ip =? IPADDR_NONE).

(** The value a [uint32_t] can hold. *)
Definition uint32 (ip : IPAddress) : Prop := 0 <= v4 ip < 2 ^ 32.

(** ** [printTo], [toString], [fromString] *)

Section PrintTo.
Context {S : Type} `{Print S}.

(** [size_t IPAddress::printTo(Print& p) const]: "(IP unset)" when the
    address is not set, else [for (int i = 0; i < 4; i++) {
    p.print(( *this)[i], DEC); if (i != 3) p.print('.'); }]. *)
Definition printTo (ip : IPAddress) (p : S) : S :=
  if isSet ip then
    fold_left (fun p i =>
        let p := print (dec (Z.to_nat (octet ip i))) p in
        if Nat.eqb i 3 then p else write "."%char p)
      (seq 0 4) p
  else print "(IP unset)" p.

End PrintTo.

(** [String IPAddress::toString() const]: [printTo] into an empty
    [StreamString]. *)
Definition toString (ip : IPAddress) : string := printTo ip EmptyString.

(** [bool IPAddress::fromString4(const char * address)] of the core, from
    the character loop on: [acc] is its [uint16_t] accumulator (it never
    exceeds [255 * 10 + 9], so it never wraps), [dots] its [uint8_t] count
    of dots (at most 3); each dot stores [acc] into the next byte. *)
Fixpoint fromString4 (s : string) (acc : Z) (dots : nat) (ip : IPAddress)
    : option IPAddress :=
  match s with
  | EmptyString => if Nat.eqb dots 3 then Some (set_octet ip 3 acc) else None
  | String c s' =>
      let n := Z.of_nat (nat_of_ascii c) in
      if (48 <=? n) && (n <=? 57) then
        let acc := acc * 10 + (n - 48) in
        if 255 <? acc then None else fromString4 s' acc dots ip
      else if Ascii.eqb c "." then
        if Nat.eqb dots 3 then None
        else fromString4 s' 0 (S dots) (set_octet ip dots acc)
      else None
  end.

(** [IPAddress ip; ip.fromString(s)]: the address a text denotes. *)
Definition fromString (s : string) : option IPAddress :=
  fromString4 s 0 0 (mkIPAddress 0).

(** ** The bits of a byte view *)

Lemma testbit_small v k n : 0 <= v < 2 ^ k -> 0 <= k <= n -> Z.testbit v n = false.
Proof.
  intros Hv Hk. destruct (Z.eq_dec v 0) as [->|Hz]; [apply Z.testbit_0_l|].
  apply Z.bits_above_log2; [lia|].
  assert (Z.log2 v < k) by (apply Z.log2_lt_pow2; lia). lia.
Qed.

Lemma range_true a b c : a <= b < c -> (a <=? b) && (b <? c) = true.
Proof. intros. apply andb_true_iff. split; [apply Z.leb_le|apply Z.ltb_lt]; lia. Qed.

Lemma range_false a b c : ~ (a <= b < c) -> (a <=? b) && (b <? c) = false.
Proof.
  intros H. apply andb_false_iff.
  destruct (Z.leb_spec a b); [right; apply Z.ltb_ge|left]; lia.
Qed.

Lemma testbit_255 n : Z.testbit 255 n = (0 <=? n) && (n <? 8).
Proof.
  change 255 with (Z.ones 8).
  destruct (Z.leb_spec 0 n); [|now rewrite Z.testbit_neg_r].
  now rewrite Z.testbit_ones_nonneg by lia.
Qed.

Lemma octet_testbit ip i n :
  Z.testbit (octet ip i) n =
    (0 <=? n) && (n <? 8) && Z.testbit (v4 ip) (n + 8 * Z.of_nat i).
Proof.
  unfold octet. rewrite Z.land_spec, testbit_255.
  destruct (Z.leb_spec 0 n); [|now rewrite Z.testbit_neg_r].
  rewrite Z.shiftr_spec by lia. now rewrite andb_comm.
Qed.

Lemma set_octet_testbit ip i v n :
  0 <= n ->
  Z.testbit (v4 (set_octet ip i v)) n =
    if (8 * Z.of_nat i <=? n) && (n <? 8 * Z.of_nat i + 8)
    then Z.testbit (wrap8 v) (n - 8 * Z.of_nat i)
    else Z.testbit (v4 ip) n.
Proof.
  intros Hn. cbn [v4 set_octet].
  rewrite Z.lor_spec, Z.land_spec, Z.lnot_spec by lia.
  pose proof (wrap8_range v) as Hw.
  destruct (Z.leb_spec (8 * Z.of_nat i) n).
  - rewrite !Z.shiftl_spec by lia. rewrite testbit_255.
    destruct (Z.ltb_spec n (8 * Z.of_nat i + 8)); cbn [andb].
    + replace ((0 <=? n - 8 * Z.of_nat i) && (n - 8 * Z.of_nat i <? 8)) with true
        by (symmetry; apply range_true; lia).
      now rewrite andb_false_r.
    + replace ((0 <=? n - 8 * Z.of_nat i) && (n - 8 * Z.of_nat i <? 8)) with false
        by (symmetry; apply range_false; lia).
      rewrite (testbit_small (wrap8 v) 8) by lia. now rewrite andb_true_r, orb_false_r.
  - rewrite !Z.shiftl_spec_low by lia. cbn [andb].
    now rewrite andb_true_r, orb_false_r.
Qed.

Lemma octet_range ip i : 0 <= octet ip i < 256.
Proof.
  unfold octet. change 255 with (Z.ones 8). rewrite Z.land_ones by lia.
  apply Z.mod_pos_bound. lia.
Qed.

(** Writing byte [i] and reading it back. *)
Lemma octet_set_same ip i v : 0 <= v < 256 -> octet (set_octet ip i v) i = v.
Proof.
  intros Hv. apply Z.bits_inj'. intros n Hn.
  rewrite octet_testbit, set_octet_testbit by lia.
  destruct (Z.ltb_spec n 8); cbn [andb].
  - replace ((0 <=? n)) with true by (symmetry; apply Z.leb_le; lia).
    replace ((8 * Z.of_nat i <=? n + 8 * Z.of_nat i) &&
             (n + 8 * Z.of_nat i <? 8 * Z.of_nat i + 8)) with true
      by (symmetry; apply range_true; lia).
    rewrite wrap8_small by lia. cbn [andb]. f_equal. lia.
  - rewrite andb_false_r. symmetry. apply (testbit_small _ 8); lia.
Qed.

(** Writing byte [i] leaves byte [j] alone. *)
Lemma octet_set_other ip i j v :
  i <> j -> octet (set_octet ip i v) j = octet ip j.
Proof.
  intros Hij. apply Z.bits_inj'. intros n Hn.
  rewrite !octet_testbit, set_octet_testbit by lia.
  destruct (Z.ltb_spec n 8); [|now rewrite !andb_false_r].
  rewrite range_false; [reflexivity|].
  destruct (Nat.lt_ge_cases i j); lia.
Qed.

(** Two [uint32_t] words with the same four bytes are equal. *)
Lemma octets_ext a b :
  uint32 a -> uint32 b -> (forall i, (i < 4)%nat -> octet a i = octet b i) -> a = b.
Proof.
  intros Ha Hb Ho. destruct a as [a], b as [b]. f_equal. unfold uint32 in *; cbn in *.
  apply Z.bits_inj'. intros n Hn.
  destruct (Z.ltb_spec n 32).
  - set (i := Z.to_nat (n / 8)). set (r := n mod 8).
    assert (En : n = r + 8 * Z.of_nat i)
      by (subst i r; rewrite Z2Nat.id by (apply Z.div_pos; lia);
          rewrite (Z.div_mod n 8) at 1 by lia; lia).
    assert (Hr : 0 <= r < 8) by (apply Z.mod_pos_bound; lia).
    assert (Hi : (i < 4)%nat) by (subst i; apply Nat2Z.inj_lt; rewrite Z2Nat.id by
      (apply Z.div_pos; lia); apply Z.div_lt_upper_bound; lia).
    pose proof (f_equal (fun z => Z.testbit z r) (Ho i Hi)) as E. cbn beta in E.
    rewrite !octet_testbit in E. cbn [v4] in E. rewrite <- En in E.
    replace ((0 <=? r) && (r <? 8)) with true in E
      by (symmetry; apply range_true; lia).
    exact E.
  - rewrite !(testbit_small _ 32) by lia. reflexivity.
Qed.

(** ** Printing *)

Lemma printTo_toString {S} `{Print S} ip (p : S) : printTo ip p = print (toString ip) p.
Proof.
  unfold toString, printTo. destruct (isSet ip); cbn [seq fold_left Nat.eqb];
    rewrite ?StreamString.print_string_eq; unfold write, StreamString.print_string;
    autorewrite with esp_rw; reflexivity.
Qed.

(** The text of a set address. *)
Lemma toString_set ip :
  isSet ip = true ->
  toString ip = (dec (Z.to_nat (octet ip 0)) ++ "." ++ dec (Z.to_nat (octet ip 1)) ++ "." ++
                 dec (Z.to_nat (octet ip 2)) ++ "." ++ dec (Z.to_nat (octet ip 3)))%string.
Proof.
  intros Hs. unfold toString, printTo. rewrite Hs. cbn [seq fold_left Nat.eqb].
  rewrite !StreamString.print_string_eq. unfold write, StreamString.print_string.
  autorewrite with esp_rw. reflexivity.
Qed.

(** The decimal text of a byte: at most three digits, checked on all
    256 values. *)
Lemma dec_octets_ok :
  forallb (fun n => (String.length (dec n) <=? 3)%nat && lacks LF (dec n) && lacks CR (dec n))
    (seq 0 256) = true.
Proof. vm_compute. reflexivity. Qed.

Lemma dec_octet n :
  (n < 256)%nat ->
  (String.length (dec n) <= 3)%nat /\ lacks LF (dec n) = true /\ lacks CR (dec n) = true.
Proof.
  intros Hn. pose proof dec_octets_ok as E. rewrite forallb_forall in E.
  specialize (E n ltac:(apply in_seq; lia)).
  rewrite !andb_true_iff, Nat.leb_le in E. tauto.
Qed.

Lemma octet_nat ip i : (Z.to_nat (octet ip i) < 256)%nat.
Proof. pose proof (octet_range ip i). lia. Qed.

(** ** Parsing *)

(** The parser reads the decimal text of a byte into its accumulator,
    whatever follows; checked on all 256 values. *)
Lemma fromString4_dec n rest dots ip :
  (n < 256)%nat ->
  fromString4 (dec n ++ rest) 0 dots ip = fromString4 rest (Z.of_nat n) dots ip.
Proof.
  intros Hn. do 256 (destruct n as [|n]; [reflexivity|]). lia.
Qed.

Lemma fromString4_octet ip i rest dots acc :
  fromString4 (dec (Z.to_nat (octet ip i)) ++ rest) 0 dots acc =
  fromString4 rest (octet ip i) dots acc.
Proof.
  rewrite fromString4_dec by apply octet_nat.
  rewrite Z2Nat.id by apply octet_range. reflexivity.
Qed.

Lemma set_octet_testbit_high ip i v n :
  (i < 4)%nat -> 32 <= n -> Z.testbit (v4 (set_octet ip i v)) n = Z.testbit (v4 ip) n.
Proof.
  intros Hi Hn. rewrite set_octet_testbit by lia. rewrite range_false by lia. reflexivity.
Qed.

Lemma uint32_bits z :
  0 <= z -> (forall n, 32 <= n -> Z.testbit z n = false) -> 0 <= z < 2 ^ 32.
Proof.
  intros Hz Hb.
  assert (E : Z.land z (Z.ones 32) = z).
  { apply Z.bits_inj'. intros n Hn. rewrite Z.land_spec.
    destruct (Z.ltb_spec n 32).
    - rewrite Z.testbit_ones_nonneg by lia. rewrite (proj2 (Z.ltb_lt _ _)) by lia.
      apply andb_true_r.
    - rewrite Hb by lia. reflexivity. }
  rewrite <- E, Z.land_ones by lia. apply Z.mod_pos_bound. lia.
Qed.

Lemma set_octet_uint32 ip i v : (i < 4)%nat -> uint32 ip -> uint32 (set_octet ip i v).
Proof.
  intros Hi Hu. unfold uint32 in *. apply uint32_bits.
  - cbn [v4 set_octet]. apply Z.lor_nonneg. split.
    + apply Z.land_nonneg. lia.
    + apply Z.shiftl_nonneg. apply wrap8_range.
  - intros n Hn. rewrite set_octet_testbit_high by lia. apply (testbit_small _ 32); lia.
Qed.

Lemma fromString4_dot rest acc dots ip :
  fromString4 ("." ++ rest) acc dots ip =
  if Nat.eqb dots 3 then None else fromString4 rest 0 (S dots) (set_octet ip dots acc).
Proof. reflexivity. Qed.

(** Reading back the four bytes written by the parser. *)
Ltac octet_simpl :=
  repeat first [ rewrite octet_set_same by apply octet_range
               | rewrite octet_set_other by lia ].

(** Every unset address, 0.0.0.0 or 255.255.255.255, prints the same. *)
Lemma toString_unset ip : isSet ip = false -> toString ip = "(IP unset)"%string.
Proof. intros Hs. unfold toString, printTo. now rewrite Hs. Qed.

(** ** The theorems *)

(** A set [uint32_t] address is read back from its text: the four bytes
    are printed in order 0 to 3 and stored back at the same offsets. *)
Lemma fromString_toString_set ip :
  uint32 ip -> isSet ip = true -> fromString (toString ip) = Some ip.
Proof.
  intros Hu Hs. rewrite (toString_set ip Hs). unfold fromString.
  rewrite <- (append_nil_r (dec (Z.to_nat (octet ip 3)))).
  rewrite !fromString4_octet, !fromString4_dot, !fromString4_octet, !fromString4_dot,
    !fromString4_octet, !fromString4_dot, !fromString4_octet.
  cbn [Nat.eqb fromString4]. f_equal.
  apply octets_ext; [repeat apply set_octet_uint32; unfold uint32; cbn; lia | exact Hu |].
  intros i Hi. destruct i as [|[|[|[|i]]]]; octet_simpl; [reflexivity..|lia].
Qed.

(** C16. Round trip: for every [uint32_t] word, the core's parser reads
    the text [toString] prints back to the same address when the address
    is set, and rejects the text "(IP unset)" printed for the two unset
    addresses 0.0.0.0 and 255.255.255.255. *)
Theorem fromString_toString ip :
  uint32 ip -> fromString (toString ip) = if isSet ip then Some ip else None.
Proof.
  intros Hu. destruct (isSet ip) eqn:Hs; [now apply fromString_toString_set|].
  now rewrite (toString_unset ip Hs).
Qed.

(** C17. What the panel text tells about the address: two [uint32_t]
    addresses print the same [toString] text exactly when they are equal
    or both unset; 0.0.0.0 and 255.255.255.255 both print "(IP unset)",
    and no set address prints that text. *)
Theorem toString_inj a b :
  uint32 a -> uint32 b ->
  toString a = toString b <-> a = b \/ (isSet a = false /\ isSet b = false).
Proof.
  intros Ha Hb. split.
  - intros E. destruct (isSet a) eqn:Sa, (isSet b) eqn:Sb; [left| exfalso | exfalso | now right];
      apply (f_equal fromString) in E; rewrite !fromString_toString in E by assumption;
      rewrite Sa, Sb in E; congruence.
  - intros [<- | [Sa Sb]]; [reflexivity|]. now rewrite !toString_unset.
Qed.

(** Whatever the word, [toString] prints at most 15 characters and no
    line break: the address is always one line of the panel
    ([Screen.ip_line]). *)
Lemma toString_line ip :
  (String.length (toString ip) <= 15)%nat /\ Screen.ip_line (toString ip).
Proof.
  destruct (isSet ip) eqn:Hs.
  - rewrite (toString_set ip Hs). unfold Screen.ip_line.
    destruct (dec_octet _ (octet_nat ip 0)) as (L0 & F0 & C0),
             (dec_octet _ (octet_nat ip 1)) as (L1 & F1 & C1),
             (dec_octet _ (octet_nat ip 2)) as (L2 & F2 & C2),
             (dec_octet _ (octet_nat ip 3)) as (L3 & F3 & C3).
    rewrite !lacks_append, !length_append, F0, F1, F2, F3, C0, C1, C2, C3.
    change (lacks LF ".") with true. change (lacks CR ".") with true.
    cbn [String.length andb]. repeat split; lia.
  - rewrite (toString_unset ip Hs).
    unfold Screen.ip_line. vm_compute. repeat split; lia.
Qed.

(** ** Witnesses *)

(** The specification's example address 192.168.1.42: bytes 192, 168,
    1, 42 at offsets 0 to 3. *)
Definition example_address : IPAddress :=
  mkIPAddress (Z.lor 192 (Z.lor (Z.shiftl 168 8) (Z.lor (Z.shiftl 1 16) (Z.shiftl 42 24)))).

Lemma fromString_toString_witness :
  toString example_address = "192.168.1.42"%string /\
  fromString (toString example_address) =
    if isSet example_address then Some example_address else None.
Proof.
  split; [vm_compute; reflexivity|].
  apply (fromString_toString example_address). unfold uint32; vm_compute; split; congruence.
Defined.

(** 0.0.0.0 and 255.255.255.255 print the same text. *)
Lemma toString_inj_witness : toString (mkIPAddress 0) = toString (mkIPAddress IPADDR_NONE).
Proof.
  apply (toString_inj (mkIPAddress 0) (mkIPAddress IPADDR_NONE));
    [unfold uint32; vm_compute; split; congruence..|right; split; reflexivity].
Defined.

End IPAddress.

#[export] Hint Rewrite @IPAddress.printTo_toString : esp_rw.
