(* ===== verification/Http.v ===== *)
(** * The HTTP responder: handlers and dispatch

    [main.cpp] lines 39-63: [handleRoot] and [handleNotFound], which read
    the current request through [server.uri()], [server.method()],
    [server.args()], [server.argName(i)], [server.arg(i)], answer with
    [server.send], and raise the LED pin around the work.  A handler run is
    the list of its observable effects, in order ([event]).  The loop of
    [handleNotFound] counts with a [uint8_t], so its model keeps the
    counter at eight bits and runs on fuel: with fewer than 256 arguments
    it returns, with 256 or more it never does.

    The second half models the part of ESP8266WebServer the sketch relies
    on ([on], [onNotFound], [begin], [handleClient] and the handler search
    of [_handleRequest]) as a Section over the type of handler functions
    and over what running one gives, so that its theorems hold for any
    handlers; [Sketch] instantiates it with the two handlers of this file
    run on fuel ([option]), [Interaction] with the same handlers as
    interaction trees.  That half is library code. *)

From Stdlib Require Import String Ascii List ZArith Lia Bool.
From S2P Require Import Prelude.
Import ListNotations.

Module Http.

(** [enum HTTPMethod] of ESP8266WebServer. *)
Inductive HTTPMethod : Type :=
| HTTP_ANY | HTTP_GET | HTTP_HEAD | HTTP_POST | HTTP_PUT | HTTP_PATCH
| HTTP_DELETE | HTTP_OPTIONS.

Definition HTTPMethod_eq_dec (a b : HTTPMethod) : {a = b} + {a <> b}.
Proof. decide equality. Defined.

(** The request the server is currently handling: its method, its path
    and its arguments in the order of the request. *)
Record Request := mkRequest {
  method : HTTPMethod;
  uri : string;
  args : list (string * string)
}.

Inductive level := LOW | HIGH.

(** What a handler does that can be observed. *)
Inductive event : Type :=
| DigitalWrite (pin : nat) (v : level)
| Send (code : nat) (content_type : string) (content : string).

(** [LED_BUILTIN] of the ESP8266 boards (GPIO 2). *)
Definition LED_BUILTIN : nat := 2.

(** [server.args()] *)
Definition argCount (req : Request) : Z := Z.of_nat (length (args req)).

(** [server.argName(i)]: the empty string out of range. *)
Definition argName (req : Request) (i : Z) : string :=
  match nth_error (args req) (Z.to_nat i) with
  | Some (k, _) => k
  | None => EmptyString
  end.

(** [server.arg(i)]: the empty string out of range. *)
Definition arg (req : Request) (i : Z) : string :=
  match nth_error (args req) (Z.to_nat i) with
  | Some (_, v) => v
  | None => EmptyString
  end.

(** [void handleRoot()] *)
Definition handleRoot (req : Request) : list event :=
  [DigitalWrite LED_BUILTIN HIGH;
   Send 200 "text/plain" ("hello from esp8266!" ++ crlf);
   DigitalWrite LED_BUILTIN LOW].

(** [(server.method() == HTTP_GET) ? "GET" : "POST"] *)
Definition methodName (m : HTTPMethod) : string :=
  if HTTPMethod_eq_dec m HTTP_GET then "GET" else "POST".

(** The message of [handleNotFound] up to its loop (lines 49-56). *)
Definition notFoundHeader (req : Request) : string :=
  "File Not Found" ++ nl ++ nl ++ "URI: " ++ uri req ++
  nl ++ "Method: " ++ methodName (method req) ++
  nl ++ "Arguments: " ++ dec (length (args req)) ++ nl.

(** [for (uint8_t i = 0; i < server.args(); i++) message += " " +
    server.argName(i) + ": " + server.arg(i) + "\n";] with [i] kept at
    eight bits; [None] when the fuel runs out. *)
Fixpoint argsLoop (fuel : nat) (i : Z) (req : Request) (message : string)
    : option string :=
  match fuel with
  | O => None
  | S fuel' =>
      if (i <? argCount req)%Z then
        argsLoop fuel' (wrap8 (i + 1)) req
          (message ++ (" " ++ argName req i ++ ": " ++ arg req i ++ nl))
      else Some message
  end.

(** [void handleNotFound()] *)
Definition handleNotFound (fuel : nat) (req : Request) : option (list event) :=
  match argsLoop fuel 0 req (notFoundHeader req) with
  | Some message =>
      Some [DigitalWrite LED_BUILTIN HIGH; Send 404 "text/plain" message;
            DigitalWrite LED_BUILTIN LOW]
  | None => None
  end.

(** ** Specification of the argument lines *)

Definition argLine (kv : string * string) : string :=
  " " ++ fst kv ++ ": " ++ snd kv ++ nl.

Fixpoint argLines (l : list (string * string)) : string :=
  match l with
  | [] => EmptyString
  | kv :: l' => argLine kv ++ argLines l'
  end.

(** The body [handleNotFound] means to send. *)
Definition notFoundBody (req : Request) : string :=
  notFoundHeader req ++ argLines (args req).

(** One pass of the loop body reads the [i]-th argument. *)
Lemma argLine_nth req (i : nat) kv :
  nth_error (args req) i = Some kv ->
  (" " ++ argName req (Z.of_nat i) ++ ": " ++ arg req (Z.of_nat i) ++ nl)%string
  = argLine kv.
Proof.
  intros H. unfold argName, arg. rewrite Nat2Z.id, H. now destruct kv.
Qed.

Lemma argLines_skipn (l : list (string * string)) i kv :
  nth_error l i = Some kv ->
  argLines (skipn i l) = (argLine kv ++ argLines (skipn (S i) l))%string.
Proof.
  revert i. induction l as [|kv' l IH]; intros [|i] H; try discriminate.
  - now injection H as ->.
  - simpl. now apply IH.
Qed.

(** Below 256 arguments the loop returns once it has appended the lines
    of the arguments from [i] on, given one unit of fuel per remaining
    argument and one for the final test. *)
Lemma argsLoop_from req (i : nat) message fuel :
  (length (args req) < 256)%nat -> (i <= length (args req))%nat ->
  (length (args req) - i < fuel)%nat ->
  argsLoop fuel (Z.of_nat i) req message =
    Some (message ++ argLines (skipn i (args req)))%string.
Proof.
  intros Hn. revert i message. induction fuel as [|fuel IH]; intros i message Hi Hf;
    [lia|].
  cbn [argsLoop]. unfold argCount.
  destruct (Z.ltb_spec (Z.of_nat i) (Z.of_nat (length (args req)))) as [Hlt|Hge].
  - destruct (nth_error (args req) i) as [kv|] eqn:E;
      [|apply nth_error_None in E; lia].
    rewrite wrap8_small by lia.
    replace (Z.of_nat i + 1)%Z with (Z.of_nat (S i)) by lia.
    rewrite IH by lia. rewrite (argLine_nth _ _ _ E), (argLines_skipn _ _ _ E).
    now rewrite append_assoc.
  - replace i with (length (args req)) by lia.
    now rewrite skipn_all, append_nil_r.
Qed.

(** From 256 arguments on, the eight-bit counter stays below the count:
    the loop consumes all the fuel it is given. *)
Lemma argsLoop_stuck req i message fuel :
  (256 <= length (args req))%nat -> (0 <= i < 256)%Z ->
  argsLoop fuel i req message = None.
Proof.
  intros Hn. revert i message. induction fuel as [|fuel IH]; intros i message Hi;
    [reflexivity|].
  cbn [argsLoop]. unfold argCount.
  rewrite (proj2 (Z.ltb_lt _ _)) by lia.
  apply IH. pose proof (wrap8_range (i + 1)). lia.
Qed.

(** Below 256 arguments, a loop that returns was given enough fuel. *)
Lemma argsLoop_fuel req (i : nat) message fuel msg :
  (length (args req) < 256)%nat -> (i <= length (args req))%nat ->
  argsLoop fuel (Z.of_nat i) req message = Some msg -> (length (args req) - i < fuel)%nat.
Proof.
  intros Hn. revert i message. induction fuel as [|fuel IH]; intros i message Hi;
    [discriminate|].
  cbn [argsLoop]. unfold argCount.
  destruct (Z.ltb_spec (Z.of_nat i) (Z.of_nat (length (args req)))) as [Hlt|Hge]; [|lia].
  rewrite wrap8_small by lia. replace (Z.of_nat i + 1)%Z with (Z.of_nat (S i)) by lia.
  intros E. apply IH in E; lia.
Qed.

(** A run of [handleNotFound] that returns had fewer than 256 arguments
    and sent the whole body. *)
Lemma handleNotFound_some fuel req es :
  handleNotFound fuel req = Some es ->
  (length (args req) < 256)%nat /\
  es = [DigitalWrite LED_BUILTIN HIGH; Send 404 "text/plain" (notFoundBody req);
        DigitalWrite LED_BUILTIN LOW].
Proof.
  unfold handleNotFound. destruct (argsLoop fuel 0 req _) as [msg|] eqn:E; [|discriminate].
  intros H. injection H as <-.
  destruct (Nat.lt_ge_cases (length (args req)) 256) as [Hn|Hn];
    [|rewrite argsLoop_stuck in E by (lia || assumption); discriminate].
  change 0%Z with (Z.of_nat 0) in E.
  pose proof (argsLoop_fuel _ _ _ _ _ Hn (Nat.le_0_l _) E) as Hf.
  rewrite argsLoop_from in E by lia. injection E as <-. split; [exact Hn|reflexivity].
Qed.

(** ** The ESP8266WebServer dispatch *)

Section Server.
(** The handler functions the sketch registers, and what running one
    on a request gives: a computation of type [R] of the handler's events
    ([option (list event)] for the fuel model, [None] when it does not
    return; an interaction tree in [Interaction]), [ret] the one that
    just returns events. *)
Context {H R : Type} (ret : list event -> R) (run : H -> Request -> R).

(** A [FunctionRequestHandler]: path, method, function. *)
Record RequestHandler := mkHandler {
  h_uri : string;
  h_method : HTTPMethod;
  h_fn : H
}.

Record ESP8266WebServer := mkServer {
  port : nat;
  handlers : list RequestHandler;
  notFoundHandler : option H;
  listening : bool
}.

(** [ESP8266WebServer server(port);] *)
Definition server (p : nat) : ESP8266WebServer := mkServer p [] None false.

(** [on(uri, fn)] = [on(uri, HTTP_ANY, fn)]: the handler goes to the
    end of the handler list. *)
Definition on (u : string) (fn : H) (s : ESP8266WebServer) : ESP8266WebServer :=
  mkServer (port s) (handlers s ++ [mkHandler u HTTP_ANY fn])
    (notFoundHandler s) (listening s).

(** [onNotFound(fn)] *)
Definition onNotFound (fn : H) (s : ESP8266WebServer) : ESP8266WebServer :=
  mkServer (port s) (handlers s) (Some fn) (listening s).

(** [begin()]: start listening on the port. *)
Definition begin (s : ESP8266WebServer) : ESP8266WebServer :=
  mkServer (port s) (handlers s) (notFoundHandler s) true.

(** [FunctionRequestHandler::canHandle]: the method matches (or the
    handler takes any) and the path is equal. *)
Definition canHandle (h : RequestHandler) (m : HTTPMethod) (u : string) : bool :=
  (if HTTPMethod_eq_dec (h_method h) HTTP_ANY then true
   else if HTTPMethod_eq_dec (h_method h) m then true else false)
  && String.eqb (h_uri h) u.

(** [_handleRequest]: the first handler that can handle the request,
    else the not-found handler, else the built-in 404 page. *)
Definition handleRequest (s : ESP8266WebServer) (req : Request) : R :=
  match find (fun h => canHandle h (method req) (uri req)) (handlers s) with
  | Some h => run (h_fn h) req
  | None =>
      match notFoundHandler s with
      | Some fn => run fn req
      | None => ret [Send 404 "text/html" ("Not found: " ++ uri req)]
      end
  end.

(** [handleClient()]: serve the pending request, if the server
    listens and a client sent one. *)
Definition handleClient (s : ESP8266WebServer) (pending : option Request) : R :=
  if listening s then
    match pending with
    | Some req => handleRequest s req
    | None => ret []
    end
  else ret [].
End Server.

Arguments RequestHandler : clear implicits.
Arguments ESP8266WebServer : clear implicits.

(** ** The theorems on the handlers *)

(** C2. With fewer than 256 arguments, [handleNotFound] returns (given
    one unit of fuel per argument and one more) and its one reply is a
    404 in [text/plain] whose body is the header lines ("File Not Found",
    a blank line, the URI, the method, the argument count) followed by
    one line " name: value" per argument in request order, between a
    rise and a fall of the LED pin. *)
Theorem handleNotFound_returns req fuel :
  (length (args req) < 256)%nat -> (length (args req) < fuel)%nat ->
  handleNotFound fuel req =
    Some [DigitalWrite LED_BUILTIN HIGH; Send 404 "text/plain" (notFoundBody req);
          DigitalWrite LED_BUILTIN LOW].
Proof.
  intros Hn Hf. unfold handleNotFound.
  rewrite (argsLoop_from req 0) by lia. reflexivity.
Qed.

(** C3. With 256 arguments or more, the [uint8_t] counter of the loop
    wraps from 255 to 0 before it reaches [server.args()]: whatever the
    fuel, [handleNotFound] never returns and never sends a reply. *)
Theorem handleNotFound_never_returns req fuel :
  (256 <= length (args req))%nat -> handleNotFound fuel req = None.
Proof.
  intros Hn. unfold handleNotFound. now rewrite argsLoop_stuck by lia.
Qed.

(** C14. The method line of the not-found reply names "GET" for a GET and
    "POST" for every other method: a request with method [HEAD], [PUT],
    [PATCH], [DELETE] or [OPTIONS] gets exactly the reply of the same
    request made with [POST]. *)
Theorem handleNotFound_method_collapse req m fuel :
  m <> HTTP_GET ->
  handleNotFound fuel (mkRequest m (uri req) (args req)) =
  handleNotFound fuel (mkRequest HTTP_POST (uri req) (args req)).
Proof.
  intros Hm. unfold handleNotFound, notFoundHeader, methodName. cbn [method].
  destruct (HTTPMethod_eq_dec m HTTP_GET) as [E|_]; [contradiction|].
  destruct (HTTPMethod_eq_dec HTTP_POST HTTP_GET) as [E|_]; [discriminate|].
  assert (Hl : forall fuel' i msg, argsLoop fuel' i (mkRequest m (uri req) (args req)) msg
               = argsLoop fuel' i (mkRequest HTTP_POST (uri req) (args req)) msg).
  { induction fuel' as [|f IH]; intros i msg; [reflexivity|]. simpl. now rewrite IH. }
  now rewrite Hl.
Qed.

(** ** Witnesses *)

(** The request of the specification: [/foo?a=1&b=2]. *)
Definition foo_request : Request :=
  mkRequest HTTP_GET "/foo" [("a"%string, "1"%string); ("b"%string, "2"%string)].

Lemma handleNotFound_returns_witness :
  handleNotFound 3 foo_request =
    Some [DigitalWrite LED_BUILTIN HIGH;
          Send 404 "text/plain"
            ("File Not Found" ++ nl ++ nl ++ "URI: /foo" ++ nl ++ "Method: GET" ++ nl ++
             "Arguments: 2" ++ nl ++ " a: 1" ++ nl ++ " b: 2" ++ nl);
          DigitalWrite LED_BUILTIN LOW].
Proof.
  rewrite (handleNotFound_returns foo_request 3) by (simpl; lia).
  vm_compute. reflexivity.
Defined.

Lemma handleNotFound_never_returns_witness :
  handleNotFound 1000 (mkRequest HTTP_GET "/" (repeat ("k"%string, "v"%string) 256)) = None.
Proof. apply handleNotFound_never_returns. apply Nat.leb_le. vm_compute. reflexivity. Defined.

Lemma handleNotFound_method_collapse_witness :
  handleNotFound 3 (mkRequest HTTP_DELETE "/foo" (args foo_request)) =
  handleNotFound 3 (mkRequest HTTP_POST "/foo" (args foo_request)).
Proof. apply (handleNotFound_method_collapse foo_request). discriminate. Defined.

End Http.
