(* ===== verification/WiFi.v ===== *)
(** * The network join: [setupWiFi]

    [main.cpp] lines 13-14 and 75-100.  The station joins the network named
    by the build-time constants of config.h and then polls [WiFi.status()]
    every 500 ms.  Each iteration of the [while] loop calls [WiFi.status()]
    twice: once in the loop condition, compared with [WL_CONNECTED], and
    once inside, compared with [WL_WRONG_PASSWORD].  The answers come from
    the radio, so they are an environment: [status_at n] is the answer to
    the [n]-th call since power-on.

    The state a join touches is [Net]: the Wi-Fi driver (mode, station
    configuration, number of status calls so far), the serial log and the
    time spent in [delay].  The loop is a [Fixpoint] on fuel in the outcome
    monad of [Prelude]; one unit of fuel is one iteration.  The theorems
    say exactly when the loop leaves and how (connected, or the early
    [return] on a wrong password), and that it never leaves when neither
    poll ever answers the awaited value. *)

From Stdlib Require Import String Ascii List ZArith Lia Bool.
From S2P Require Import Prelude Print IPAddress.
Import ListNotations.

Module WiFi.
Local Open Scope esp_scope.

(** [wl_status_t] of the ESP8266 core. *)
Inductive wl_status_t : Type :=
| WL_NO_SHIELD | WL_IDLE_STATUS | WL_NO_SSID_AVAIL | WL_SCAN_COMPLETED
| WL_CONNECTED | WL_CONNECT_FAILED | WL_CONNECTION_LOST | WL_WRONG_PASSWORD
| WL_DISCONNECTED.

Definition wl_status_eq_dec (a b : wl_status_t) : {a = b} + {a <> b}.
Proof. decide equality. Defined.

(** [WiFiMode_t] *)
Inductive WiFiMode : Type := WIFI_OFF | WIFI_STA | WIFI_AP | WIFI_AP_STA.

(** The [WiFi] object as the sketch sees it. *)
Record ESP8266WiFi := mkWiFi {
  wmode : WiFiMode;
  sta_config : option (string * string);
  polls : nat
}.

(** What a join reads and writes. *)
Record Net := mkNet {
  wifi : ESP8266WiFi;
  serial : Serial.HardwareSerial;
  clock : nat
}.

Definition init_wifi : ESP8266WiFi := mkWiFi WIFI_OFF None 0.

(** [WiFi.mode(m)] *)
Definition mode (m : WiFiMode) : st Net unit :=
  modify (fun n => mkNet (mkWiFi m (sta_config (wifi n)) (polls (wifi n)))
                         (serial n) (clock n)).

(** [WiFi.begin(ssid, password)]: store the station configuration and
    start associating. *)
Definition begin (ssid password : string) : st Net unit :=
  modify (fun n => mkNet (mkWiFi (wmode (wifi n)) (Some (ssid, password))
                                 (polls (wifi n)))
                         (serial n) (clock n)).

(** [delay(ms)] *)
Definition delay (ms : nat) : st Net unit :=
  modify (fun n => mkNet (wifi n) (serial n) (clock n + ms)).

(** [Serial.print(s)] and [Serial.println(s)] *)
Definition serial_print (s : string) : st Net unit :=
  modify (fun n => mkNet (wifi n) (print s (serial n)) (clock n)).

Definition serial_println (s : string) : st Net unit :=
  modify (fun n => mkNet (wifi n) (println s (serial n)) (clock n)).

(** [Serial.println(const Printable& x)]: [x.printTo( *this)], then
    [println()]. *)
Definition serial_println_ip (ip : IPAddress.IPAddress) : st Net unit :=
  modify (fun n => mkNet (wifi n) (println "" (IPAddress.printTo ip (serial n))) (clock n)).

Section Join.
(** The build-time credentials of config.h ([STASSID], [STAPSK]). *)
Variables STASSID STAPSK : string.
(** The answer of the radio to the [n]-th call of [WiFi.status()]. *)
Variable status_at : nat -> wl_status_t.
(** The address [WiFi.localIP()] returns once connected. *)
Variable localIP : IPAddress.IPAddress.

(** [const char *ssid = STASSID;] *)
Definition ssid : string := STASSID.
(** [const char *password = STAPSK;] *)
Definition password : string := STAPSK.

(** [WiFi.status()]: the next answer of the radio. *)
Definition status : st Net wl_status_t :=
  fun n => Done (status_at (polls (wifi n)))
                (mkNet (mkWiFi (wmode (wifi n)) (sta_config (wifi n))
                               (S (polls (wifi n))))
                       (serial n) (clock n)).

(** [while (WiFi.status() != WL_CONNECTED) { delay(500); Serial.print(".");
    if (WiFi.status() == WL_WRONG_PASSWORD) { ...; return; } }]:
    [true] when the loop condition ends the loop, [false] on the early
    [return]. *)
Fixpoint waitLoop (fuel : nat) : st Net bool :=
  match fuel with
  | O => fun _ => OutOfFuel
  | S fuel' =>
      s <- status ;;
      (if wl_status_eq_dec s WL_CONNECTED then ret true
       else
         delay 500 ;;
         serial_print "." ;;
         s' <- status ;;
         (if wl_status_eq_dec s' WL_WRONG_PASSWORD then
            serial_print "INCORRECT WIFI PASSWORD" ;;
            ret false
          else waitLoop fuel'))
  end.

(** [void setupWiFi()] *)
Definition setupWiFi (fuel : nat) : st Net unit :=
  mode WIFI_STA ;;
  begin ssid password ;;
  serial_println "" ;;
  serial_print "Connecting to WIFI" ;;
  connected <- waitLoop fuel ;;
  (if connected then
     serial_println "" ;;
     serial_print "Connected to " ;;
     serial_println ssid ;;
     serial_print "IP address: " ;;
     serial_println_ip localIP
   else ret tt).

(** ** The loop, iteration by iteration *)

(** The dots of [j] iterations. *)
Fixpoint dots (j : nat) : string :=
  match j with
  | O => EmptyString
  | S j' => String "." (dots j')
  end.

(** The state after [j] iterations that went round: two more status
    calls, one more dot and 500 ms more per iteration. *)
Definition after (j : nat) (n : Net) : Net :=
  mkNet (mkWiFi (wmode (wifi n)) (sta_config (wifi n)) (polls (wifi n) + 2 * j))
        (print (dots j) (serial n)) (clock n + 500 * j).

(** Iteration [i] of a loop entered after [p] status calls goes round:
    its condition poll is not [WL_CONNECTED] and its inner poll is not
    [WL_WRONG_PASSWORD]. *)
Definition goes_round (p i : nat) : Prop :=
  status_at (p + 2 * i) <> WL_CONNECTED /\
  status_at (p + 2 * i + 1) <> WL_WRONG_PASSWORD.

Lemma dots_S_r j : dots (S j) = (dots j ++ ".")%string.
Proof.
  induction j as [|j IH]; [reflexivity|].
  change (dots (S (S j))) with (String "." (dots (S j))). rewrite IH at 1. reflexivity.
Qed.

Lemma after_S j n : after (S j) n = after j (after 1 n).
Proof.
  unfold after; cbn [wifi serial clock wmode sta_config polls].
  change (dots (S j)) with ("." ++ dots j)%string.
  rewrite print_append. f_equal; [f_equal|]; lia.
Qed.

Lemma waitLoop_round fuel n :
  goes_round (polls (wifi n)) 0 -> waitLoop (S fuel) n = waitLoop fuel (after 1 n).
Proof.
  intros [H1 H2]. rewrite Nat.add_0_r in H1, H2. rewrite Nat.add_1_r in H2.
  cbn [waitLoop]. unfold bind at 1, status.
  destruct (wl_status_eq_dec _ WL_CONNECTED) as [E|_]; [contradiction|].
  unfold bind, delay, serial_print, modify. cbn [wifi polls sta_config wmode serial clock].
  destruct (wl_status_eq_dec _ WL_WRONG_PASSWORD) as [E|_]; [contradiction|].
  unfold after. replace (polls (wifi n) + 2 * 1) with (S (S (polls (wifi n)))) by lia.
  replace (clock n + 500 * 1) with (clock n + 500) by lia. reflexivity.
Qed.

(** [j] iterations that go round use [j] units of fuel and lead to
    [after j]. *)
Lemma waitLoop_rounds j fuel n :
  (forall i, i < j -> goes_round (polls (wifi n)) i) ->
  waitLoop (j + fuel) n = waitLoop fuel (after j n).
Proof.
  revert n. induction j as [|j IH]; intros n Hr.
  - cbn [Nat.add]. unfold after. rewrite Nat.mul_0_r, !Nat.add_0_r.
    destruct n as [[] ? ?]. reflexivity.
  - cbn [Nat.add]. rewrite waitLoop_round by (apply Hr; lia).
    rewrite IH, <- after_S; [reflexivity|].
    intros i Hi. destruct (Hr (S i) ltac:(lia)) as [H1 H2].
    unfold goes_round, after. cbn [wifi polls]. replace (polls (wifi n) + 2 * 1 + 2 * i) with (polls (wifi n) + 2 * S i) by lia.
    split; assumption.
Qed.

(** The state in which [setupWiFi] enters its loop: station mode, the
    credentials stored, the two first log lines written. *)
Definition joining (n : Net) : Net :=
  mkNet (mkWiFi WIFI_STA (Some (ssid, password)) (polls (wifi n)))
        (print "Connecting to WIFI" (println "" (serial n))) (clock n).

Lemma setupWiFi_loop fuel n :
  setupWiFi fuel n =
  (connected <- waitLoop fuel ;;
   (if connected then
      serial_println "" ;;
      serial_print "Connected to " ;;
      serial_println ssid ;;
      serial_print "IP address: " ;;
      serial_println_ip localIP
    else ret tt)) (joining n).
Proof. reflexivity. Qed.

(** The join never enters a loop it cannot leave by itself: it returns or
    uses up its fuel. *)
Lemma waitLoop_no_spin fuel n s : waitLoop fuel n <> Spin s.
Proof.
  revert n. induction fuel as [|f IH]; intros n; [discriminate|].
  cbn [waitLoop]. unfold bind at 1, status.
  destruct (wl_status_eq_dec _ WL_CONNECTED); [discriminate|].
  unfold bind, delay, serial_print, modify.
  destruct (wl_status_eq_dec _ WL_WRONG_PASSWORD); [discriminate | apply IH].
Qed.

Lemma setupWiFi_no_spin fuel n s : setupWiFi fuel n <> Spin s.
Proof.
  rewrite setupWiFi_loop. unfold bind at 1.
  pose proof (waitLoop_no_spin fuel (joining n) s) as H.
  destruct (waitLoop fuel (joining n)) as [[|] n'|n'|]; [| | intros E; apply H; injection E as ->; reflexivity | discriminate];
    unfold bind, serial_println, serial_print, modify, ret; intros E; inversion E.
Qed.

(** ** The theorems on the join *)

(** The loop ends through its condition at the first iteration [j]
    whose condition poll answers [WL_CONNECTED], provided every earlier
    iteration went round: it has made [2 j + 1] status calls, printed [j]
    dots and waited [500 j] ms, given more than [j] units of fuel. *)
Theorem waitLoop_connects j fuel n :
  (forall i, i < j -> goes_round (polls (wifi n)) i) ->
  status_at (polls (wifi n) + 2 * j) = WL_CONNECTED -> j < fuel ->
  waitLoop fuel n =
  Done true (mkNet (mkWiFi (wmode (wifi n)) (sta_config (wifi n)) (polls (wifi n) + 2 * j + 1))
                   (print (dots j) (serial n)) (clock n + 500 * j)).
Proof.
  intros Hr Hc Hf. replace fuel with (j + S (fuel - S j)) by lia.
  rewrite waitLoop_rounds by exact Hr. cbn [waitLoop]. unfold bind, status, after.
  cbn [wifi polls wmode sta_config serial clock]. rewrite Hc.
  destruct (wl_status_eq_dec WL_CONNECTED WL_CONNECTED) as [_|C]; [|contradiction].
  unfold ret. now rewrite Nat.add_1_r.
Qed.

(** A wrong password ends the loop through the early [return] at the
    first iteration [j] whose inner poll answers [WL_WRONG_PASSWORD] (its
    condition poll not being [WL_CONNECTED]): [j + 1] dots, then
    "INCORRECT WIFI PASSWORD", after [2 j + 2] status calls and
    [500 (j + 1)] ms. *)
Theorem waitLoop_wrong_password j fuel n :
  (forall i, i < j -> goes_round (polls (wifi n)) i) ->
  status_at (polls (wifi n) + 2 * j) <> WL_CONNECTED ->
  status_at (polls (wifi n) + 2 * j + 1) = WL_WRONG_PASSWORD -> j < fuel ->
  waitLoop fuel n =
  Done false (mkNet (mkWiFi (wmode (wifi n)) (sta_config (wifi n)) (polls (wifi n) + 2 * j + 2))
                    (print (dots (S j) ++ "INCORRECT WIFI PASSWORD") (serial n))
                    (clock n + 500 * S j)).
Proof.
  intros Hr Hc Hw Hf. replace fuel with (j + S (fuel - S j)) by lia.
  rewrite waitLoop_rounds by exact Hr. cbn [waitLoop]. unfold bind at 1, status, after.
  cbn [wifi polls wmode sta_config serial clock].
  destruct (wl_status_eq_dec _ WL_CONNECTED) as [E|_]; [contradiction|].
  unfold bind, delay, serial_print, modify, ret.
  cbn [wifi polls wmode sta_config serial clock].
  replace (S (polls (wifi n) + 2 * j)) with (polls (wifi n) + 2 * j + 1) by lia.
  rewrite Hw. destruct (wl_status_eq_dec _ _) as [_|C]; [|contradiction].
  rewrite dots_S_r, !print_append.
  replace (S (polls (wifi n) + 2 * j + 1)) with (polls (wifi n) + 2 * j + 2) by lia.
  replace (clock n + 500 * j + 500) with (clock n + 500 * S j) by lia.
  reflexivity.
Qed.

(** The early [return] of the loop is the end of [setupWiFi]. *)
Lemma setupWiFi_rejected fuel n n1 :
  waitLoop fuel (joining n) = Done false n1 -> setupWiFi fuel n = Done tt n1.
Proof. intros E. rewrite setupWiFi_loop. now erewrite bind_Done by exact E. Qed.

(** ** The loop against a reference search *)

(** The reference: the first iteration from [i] on, within [fuel]
    iterations, that leaves the loop, and how ([true]: its condition poll
    answered [WL_CONNECTED]; [false]: its inner poll answered
    [WL_WRONG_PASSWORD]); [p] is the number of status calls before the
    loop. *)
Fixpoint exit_at (p i fuel : nat) : option (bool * nat) :=
  match fuel with
  | O => None
  | S f =>
      if wl_status_eq_dec (status_at (p + 2 * i)) WL_CONNECTED then Some (true, i)
      else if wl_status_eq_dec (status_at (p + 2 * i + 1)) WL_WRONG_PASSWORD
      then Some (false, i)
      else exit_at p (S i) f
  end.

(** The state in which the loop leaves at iteration [j], by the
    condition ([true]) or by the early [return] ([false]). *)
Definition exit_state (b : bool) (j : nat) (n : Net) : Net :=
  if b then
    mkNet (mkWiFi (wmode (wifi n)) (sta_config (wifi n)) (polls (wifi n) + 2 * j + 1))
          (print (dots j) (serial n)) (clock n + 500 * j)
  else
    mkNet (mkWiFi (wmode (wifi n)) (sta_config (wifi n)) (polls (wifi n) + 2 * j + 2))
          (print (dots (S j) ++ "INCORRECT WIFI PASSWORD") (serial n))
          (clock n + 500 * S j).

Lemma after_add i n : after 1 (after i n) = after (S i) n.
Proof.
  unfold after; cbn [wifi serial clock wmode sta_config polls].
  rewrite <- print_append, <- dots_S_r. f_equal; [f_equal|]; lia.
Qed.

Lemma after_0 n : after 0 n = n.
Proof.
  unfold after. cbn [print dots]. rewrite Nat.mul_0_r, !Nat.add_0_r.
  now destruct n as [[] ? ?].
Qed.

(** An iteration that does not go round bounds the search. *)
Lemma exit_at_found p i j :
  j <= i -> ~ goes_round p i -> exists r, exit_at p j (S (i - j)) = Some r.
Proof.
  intros Hj Hn. remember (i - j) as m eqn:Hm. revert j Hj Hm.
  induction m as [|m IH]; intros j Hj Hm; cbn [exit_at];
    (destruct (wl_status_eq_dec _ WL_CONNECTED); [eauto|]);
    (destruct (wl_status_eq_dec _ WL_WRONG_PASSWORD); [eauto|]).
  - exfalso. apply Hn. replace i with j by lia. split; assumption.
  - apply IH; lia.
Qed.

Lemma waitLoop_exit_from fuel i n :
  waitLoop fuel (after i n) =
  match exit_at (polls (wifi n)) i fuel with
  | Some (b, j) => Done b (exit_state b j n)
  | None => OutOfFuel
  end.
Proof.
  revert i. induction fuel as [|f IH]; intros i; [reflexivity|].
  cbn [exit_at].
  destruct (wl_status_eq_dec (status_at (polls (wifi n) + 2 * i)) WL_CONNECTED) as [Hc|Hc].
  - rewrite (waitLoop_connects 0) by (cbn [after wifi polls]; rewrite ?Nat.add_0_r;
      first [lia | assumption]).
    unfold after, exit_state; cbn [wifi serial clock wmode sta_config polls dots print].
    f_equal. f_equal; [f_equal|]; lia.
  - destruct (wl_status_eq_dec (status_at (polls (wifi n) + 2 * i + 1)) WL_WRONG_PASSWORD)
      as [Hw|Hw].
    + rewrite (waitLoop_wrong_password 0) by (cbn [after wifi polls]; rewrite ?Nat.add_0_r;
        first [lia | assumption]).
      unfold after, exit_state; cbn [wifi serial clock wmode sta_config polls].
      rewrite <- print_append, (dots_S_r i), <- append_assoc.
      change (dots 1) with "."%string.
      f_equal. f_equal; [f_equal|]; lia.
    + rewrite waitLoop_round by (unfold goes_round, after; cbn [wifi polls];
        rewrite !Nat.add_0_r; split; assumption).
      rewrite after_add. apply IH.
Qed.

(** After a loop that connects, [setupWiFi] logs the network name and
    the address, each on a line of its own. *)
Lemma setupWiFi_accepted fuel n n1 :
  waitLoop fuel (joining n) = Done true n1 ->
  exists n2, setupWiFi fuel n = Done tt n2 /\ wifi n2 = wifi n1 /\ clock n2 = clock n1 /\
    Serial.out (serial n2) =
      (Serial.out (serial n1) ++ crlf ++ "Connected to " ++ ssid ++ crlf ++
       "IP address: " ++ IPAddress.toString localIP ++ crlf)%string.
Proof.
  intros E. rewrite setupWiFi_loop. erewrite bind_Done by exact E.
  eexists; split; [reflexivity|]. cbn [serial wifi clock].
  split; [reflexivity|]. split; [reflexivity|]. now autorewrite with esp_rw.
Qed.

(** C12. When the radio answers [WL_CONNECTED] to the condition poll of
    iteration [j], every earlier iteration having gone round,
    [setupWiFi] returns in station mode with the credentials of config.h,
    after [2 j + 1] status calls and [500 j] ms; its log is an empty line,
    "Connecting to WIFI", [j] dots, then "Connected to" the network name
    and "IP address:" the address, each on a line of its own. *)
Theorem setupWiFi_connects j fuel n :
  (forall i, i < j -> goes_round (polls (wifi n)) i) ->
  status_at (polls (wifi n) + 2 * j) = WL_CONNECTED -> j < fuel ->
  exists n', setupWiFi fuel n = Done tt n' /\
    Serial.out (serial n') =
      (Serial.out (serial n) ++ crlf ++ "Connecting to WIFI" ++ dots j ++ crlf ++
       "Connected to " ++ ssid ++ crlf ++ "IP address: " ++ IPAddress.toString localIP ++ crlf)%string /\
    wmode (wifi n') = WIFI_STA /\ sta_config (wifi n') = Some (ssid, password) /\
    polls (wifi n') = polls (wifi n) + 2 * j + 1 /\ clock n' = clock n + 500 * j.
Proof.
  intros Hr Hc Hf.
  destruct (setupWiFi_accepted fuel n _ (waitLoop_connects j fuel (joining n) Hr Hc Hf))
    as (n2 & E & Hw & Hk & Ho).
  exists n2. split; [exact E|]. rewrite Hw, Hk, Ho.
  cbn [serial wifi wmode sta_config polls clock joining].
  autorewrite with esp_rw. repeat split; reflexivity.
Qed.

(** C13. A wrong password is not fatal: when the inner poll of iteration
    [j] answers [WL_WRONG_PASSWORD] (its condition poll not
    [WL_CONNECTED], every earlier iteration having gone round),
    [setupWiFi] returns normally, its log ending with [j + 1] dots and
    "INCORRECT WIFI PASSWORD" and without the "Connected to" lines. *)
Theorem setupWiFi_wrong_password j fuel n :
  (forall i, i < j -> goes_round (polls (wifi n)) i) ->
  status_at (polls (wifi n) + 2 * j) <> WL_CONNECTED ->
  status_at (polls (wifi n) + 2 * j + 1) = WL_WRONG_PASSWORD -> j < fuel ->
  exists n', setupWiFi fuel n = Done tt n' /\
    Serial.out (serial n') =
      (Serial.out (serial n) ++ crlf ++ "Connecting to WIFI" ++ dots (S j) ++
       "INCORRECT WIFI PASSWORD")%string /\
    wmode (wifi n') = WIFI_STA /\ sta_config (wifi n') = Some (ssid, password) /\
    clock n' = clock n + 500 * S j.
Proof.
  intros Hr Hc Hw Hf.
  eexists; split; [apply setupWiFi_rejected, (waitLoop_wrong_password j); assumption|].
  cbn [serial wifi wmode sta_config polls clock joining].
  autorewrite with esp_rw.
  repeat split; reflexivity.
Qed.

(** C21. Equivalence with the reference search: whatever the radio
    answers and whatever the fuel, the polling loop returns exactly as
    [exit_at] says: connected at the first iteration whose condition poll
    answers [WL_CONNECTED], rejected at the first one whose inner poll
    answers [WL_WRONG_PASSWORD] (the condition poll taking precedence
    within an iteration), with the polls, dots, log and time of that many
    iterations; it runs out of fuel exactly when no iteration within the
    fuel leaves. *)
Theorem waitLoop_exit fuel n :
  waitLoop fuel n =
  match exit_at (polls (wifi n)) 0 fuel with
  | Some (b, j) => Done b (exit_state b j n)
  | None => OutOfFuel
  end.
Proof. rewrite <- waitLoop_exit_from. now rewrite after_0. Qed.

(** C4. When every iteration goes round (no condition poll answers
    [WL_CONNECTED] and no inner poll answers [WL_WRONG_PASSWORD]; an
    unreachable network, or a wrong password reported only to the
    condition polls), [setupWiFi] never returns: it uses up any fuel. *)
Theorem setupWiFi_never_returns fuel n :
  (forall i, goes_round (polls (wifi n)) i) -> setupWiFi fuel n = OutOfFuel.
Proof.
  intros Hr. rewrite setupWiFi_loop. apply bind_OutOfFuel.
  replace fuel with (fuel + 0) by lia.
  rewrite (waitLoop_rounds fuel 0) by (intros i _; apply Hr). reflexivity.
Qed.

End Join.

(** ** Witnesses *)

Definition power_on : Net := mkNet init_wifi Serial.init 0.

(** The radio connects at the seventh poll: the fourth condition poll. *)
Definition connects_late (k : nat) : wl_status_t :=
  if k <? 6 then WL_DISCONNECTED else WL_CONNECTED.

(** The radio reports the wrong password at the fourth poll, the inner
    poll of the second iteration. *)
Definition rejects (k : nat) : wl_status_t :=
  if k =? 3 then WL_WRONG_PASSWORD else WL_DISCONNECTED.

(** The radio reports the wrong password to every condition poll only. *)
Definition rejects_early (k : nat) : wl_status_t :=
  if Nat.even k then WL_WRONG_PASSWORD else WL_DISCONNECTED.

Lemma setupWiFi_connects_witness :
  exists n', setupWiFi "home" "secret" connects_late IPAddress.example_address 10 power_on = Done tt n' /\
    Serial.out (serial n') =
      (Serial.out (serial power_on) ++ crlf ++ "Connecting to WIFI" ++ dots 3 ++ crlf ++
       "Connected to " ++ ssid "home" ++ crlf ++ "IP address: " ++ IPAddress.toString IPAddress.example_address ++ crlf)%string /\
    wmode (wifi n') = WIFI_STA /\ sta_config (wifi n') = Some (ssid "home", password "secret") /\
    polls (wifi n') = polls (wifi power_on) + 2 * 3 + 1 /\ clock n' = clock power_on + 500 * 3.
Proof.
  apply setupWiFi_connects; [|reflexivity|lia].
  intros i Hi. assert (i = 0 \/ i = 1 \/ i = 2) as [->|[->| ->]] by lia;
    split; vm_compute; discriminate.
Defined.

Lemma setupWiFi_wrong_password_witness :
  exists n', setupWiFi "home" "bad" rejects (IPAddress.mkIPAddress 0) 10 power_on = Done tt n' /\
    Serial.out (serial n') =
      (Serial.out (serial power_on) ++ crlf ++ "Connecting to WIFI" ++ dots 2 ++
       "INCORRECT WIFI PASSWORD")%string /\
    wmode (wifi n') = WIFI_STA /\ sta_config (wifi n') = Some (ssid "home", password "bad") /\
    clock n' = clock power_on + 500 * 2.
Proof.
  apply (setupWiFi_wrong_password _ _ _ _ 1); [| discriminate | reflexivity | lia].
  intros i Hi. replace i with 0 by lia. split; discriminate.
Defined.

Lemma setupWiFi_never_returns_witness :
  setupWiFi "home" "secret" rejects_early (IPAddress.mkIPAddress 0) 1000 power_on = OutOfFuel.
Proof.
  apply setupWiFi_never_returns. intros i. unfold goes_round, rejects_early.
  change (polls (wifi power_on)) with 0. rewrite Nat.add_0_l, !Nat.even_add, Nat.even_mul.
  cbn. split; discriminate.
Defined.

End WiFi.
