(* ===== verification/Sketch.v ===== *)
(** * The top level: [setup] and [loop]

    [main.cpp] lines 13-16, 65-73, 102-134.  The device state gathers the
    global objects of the sketch (serial port and Wi-Fi in [WiFi.Net], the
    display, the web server, the mDNS responder) and the LED pin.  The
    environment the sketch reads (the outcome of the display's buffer
    allocation, the radio's status answers, the result of [MDNS.begin], the
    requests clients send, the [IPAddress] [WiFi.localIP()] returns) is
    given as Section variables and as inputs of [loop].

    [setup] runs [setupScreen], [setupWiFi] and [setupServer] in order in
    the outcome monad: a failed allocation ends in [Spin] (the [for (;;)]
    of [setupScreen]) and nothing after it runs.  The theorems here are
    about one [setup] or one [loop] run: the dispatch of the configured
    server, the logs of setup, and fuel being only a bound; the whole
    device as a step relation is in [Device]. *)

From Stdlib Require Import String Ascii List ZArith Lia Bool.
From S2P Require Import Prelude Print Gfx Screen IPAddress Http Query WiFi.
Import ListNotations.

Module Sketch.
Import Http.
Local Open Scope esp_scope.

(** The handler functions the sketch registers. *)
Inductive Handler : Type := HandleRoot | HandleNotFound.

(** Running a registered handler on the current request. *)
Definition run (fuel : nat) (h : Handler) (req : Request) : option (list event) :=
  match h with
  | HandleRoot => Some (handleRoot req)
  | HandleNotFound => handleNotFound fuel req
  end.

(** The [MDNS] responder: the host name it advertises once started, and
    how many times [MDNS.update()] ran. *)
Record MDNSResponder := mkMDNS {
  hostname : option string;
  updates : nat
}.

Record Device := mkDevice {
  net : WiFi.Net;
  screen : Gfx.SSD1306;
  web : ESP8266WebServer Handler;
  mdns : MDNSResponder;
  led_output : bool;
  led : option level;
  replies : list (nat * string * string)
}.

Definition with_net (n : WiFi.Net) (d : Device) : Device :=
  mkDevice n (screen d) (web d) (mdns d) (led_output d) (led d) (replies d).
Definition with_screen (s : Gfx.SSD1306) (d : Device) : Device :=
  mkDevice (net d) s (web d) (mdns d) (led_output d) (led d) (replies d).
Definition with_web (w : ESP8266WebServer Handler) (d : Device) : Device :=
  mkDevice (net d) (screen d) w (mdns d) (led_output d) (led d) (replies d).
Definition with_mdns (m : MDNSResponder) (d : Device) : Device :=
  mkDevice (net d) (screen d) (web d) m (led_output d) (led d) (replies d).

(** [Serial.println(s)] on the device. *)
Definition log (s : string) (d : Device) : Device :=
  with_net (WiFi.mkNet (WiFi.wifi (net d)) (println s (WiFi.serial (net d)))
                       (WiFi.clock (net d))) d.

(** The global objects before [setup]: [ESP8266WebServer server(80);],
    the display object, the radio off, an empty log. *)
Definition power_on : Device :=
  mkDevice (WiFi.mkNet WiFi.init_wifi Serial.init 0) Screen.display
    (server 80) (mkMDNS None 0) false None [].

(** The effect of a handler's events on the device: the LED level and
    the replies sent. *)
Definition apply_event (e : event) (d : Device) : Device :=
  match e with
  | DigitalWrite _ v =>
      mkDevice (net d) (screen d) (web d) (mdns d) (led_output d) (Some v) (replies d)
  | Send c t b =>
      mkDevice (net d) (screen d) (web d) (mdns d) (led_output d) (led d)
        (replies d ++ [(c, t, b)])
  end.

Definition apply_events (es : list event) (d : Device) : Device :=
  fold_left (fun d e => apply_event e d) es d.

(** [MDNS.begin(hostname)]: [true] when the responder starts ([ok],
    what the network stack answers), and then it advertises [hostname];
    the responder is unchanged otherwise. *)
Definition MDNS_begin (ok : bool) (h : string) (m : MDNSResponder) : bool * MDNSResponder :=
  if ok then (true, mkMDNS (Some h) (updates m)) else (false, m).

(** [MDNS.update()] *)
Definition mdns_update (d : Device) : Device :=
  with_mdns (mkMDNS (hostname (mdns d)) (S (updates (mdns d)))) d.

(** [Serial.begin(9600); pinMode(LED_BUILTIN, OUTPUT);] *)
Definition setup_begin : st Device unit :=
  modify (fun d =>
    mkDevice (WiFi.mkNet (WiFi.wifi (net d)) (Serial.begin 9600%N (WiFi.serial (net d)))
                         (WiFi.clock (net d)))
             (screen d) (web d) (mdns d) true (led d) (replies d)).

Section Program.
(** Whether [malloc] of the frame buffer succeeds in [display.begin]. *)
Variable alloc_ok : bool.
(** The credentials of config.h. *)
Variables STASSID STAPSK : string.
(** The radio's answers to [WiFi.status()], and the address
    [WiFi.localIP()] returns once connected. *)
Variable status_at : nat -> WiFi.wl_status_t.
Variable localIP : IPAddress.IPAddress.
(** Whether [MDNS.begin("esp8266")] succeeds. *)
Variable mdns_ok : bool.

(** [void setupScreen()] *)
Definition setupScreen : st Device unit :=
  fun d =>
    let (ok, s) := Gfx.begin alloc_ok (screen d) in
    if ok then Done tt (with_screen s d)
    else Spin (log "SSD1306 allocation failed" d).

(** [setupWiFi()] on the device. *)
Definition setupWiFi (fuel : nat) : st Device unit :=
  fun d =>
    match WiFi.setupWiFi STASSID STAPSK status_at localIP fuel (net d) with
    | Done u n => Done u (with_net n d)
    | Spin n => Spin (with_net n d)
    | OutOfFuel => OutOfFuel
    end.

(** [void setupServer()] *)
Definition setupServer : st Device unit :=
  fun d =>
    let (started, m) := MDNS_begin mdns_ok "esp8266" (mdns d) in
    let d := with_mdns m d in
    let d := if started then log "MDNS responder started" d else d in
    let d := with_web (on "/" HandleRoot (web d)) d in
    let d := with_web (onNotFound HandleNotFound (web d)) d in
    let d := with_web (begin (web d)) d in
    Done tt (log "HTTP server started" d).

(** [void setup()]: [Serial.begin(9600)], [pinMode(LED_BUILTIN, OUTPUT)],
    then the three setup steps in order. *)
Definition setup (fuel : nat) : st Device unit :=
  setup_begin ;;
  setupScreen ;;
  setupWiFi fuel ;;
  setupServer.

End Program.

(** [void loop()]: serve the pending request (if any), advance mDNS, and
    [String ip = WiFi.localIP().toString(); displayIP(ip);] with [ip] the
    address the station has in this iteration (0 while not connected).
    [fuel] bounds the loop of [handleNotFound]. *)
Definition loop (fuel : nat) (pending : option Request) (ip : IPAddress.IPAddress)
    : st Device unit :=
  fun d =>
    match handleClient Some (run fuel) (web d) pending with
    | Some es =>
        let d := apply_events es d in
        let d := mdns_update d in
        let ip := IPAddress.toString ip in
        Done tt (with_screen (Screen.displayIP ip (screen d)) d)
    | None => OutOfFuel
    end.

(** ** The configured server *)

(** The web server once [setupServer] ran on the fresh server object:
    one handler for "/" with any method, the not-found handler, listening. *)
Definition configured (w : ESP8266WebServer Handler) : Prop :=
  handlers w = [mkHandler "/" HTTP_ANY HandleRoot] /\
  notFoundHandler w = Some HandleNotFound /\ listening w = true.

(** What [setupServer] changes: the server, the mDNS host name and the
    log; the display, the radio, the LED and the loop counter are left
    as they were. *)
Lemma setupServer_spec mdns_ok d :
  web d = server 80 ->
  exists d', setupServer mdns_ok d = Done tt d' /\ configured (web d') /\
    screen d' = screen d /\ WiFi.wifi (net d') = WiFi.wifi (net d) /\
    WiFi.clock (net d') = WiFi.clock (net d) /\ led d' = led d /\
    updates (mdns d') = updates (mdns d) /\ replies d' = replies d /\
    Serial.out (WiFi.serial (net d')) =
      (Serial.out (WiFi.serial (net d)) ++
       (if mdns_ok then "MDNS responder started" ++ crlf else "") ++
       "HTTP server started" ++ crlf)%string.
Proof.
  intros Hw. unfold setupServer, MDNS_begin.
  destruct mdns_ok; (eexists; split; [reflexivity|]); unfold log, with_web, with_mdns, with_net;
    cbn [web net screen mdns led replies updates WiFi.wifi WiFi.clock WiFi.serial];
    rewrite Hw; repeat split; try reflexivity;
    autorewrite with esp_rw; reflexivity.
Qed.

Lemma find_root req :
  find (fun h => canHandle h (method req) (uri req)) [mkHandler "/" HTTP_ANY HandleRoot] =
  if String.eqb "/" (uri req) then Some (mkHandler "/" HTTP_ANY HandleRoot) else None.
Proof. unfold canHandle. cbn. now destruct (String.eqb "/" (uri req)). Qed.

(** ** The setup sequence *)

(** The device after [Serial.begin], [pinMode] and a successful
    [setupScreen]: the state [setupWiFi] starts from. *)
Definition booted : Device :=
  mkDevice (WiFi.mkNet WiFi.init_wifi (Serial.begin 9600%N Serial.init) 0)
    (snd (Gfx.begin true Screen.display)) (server 80) (mkMDNS None 0) true None [].

Lemma setup_booted STASSID STAPSK status_at localIP mdns_ok fuel :
  setup true STASSID STAPSK status_at localIP mdns_ok fuel power_on =
  (setupWiFi STASSID STAPSK status_at localIP fuel ;; setupServer mdns_ok) booted.
Proof. reflexivity. Qed.

(** [setupWiFi] on the device touches the radio, the log and the clock
    only. *)
Lemma setupWiFi_frame STASSID STAPSK status_at localIP fuel d d' :
  setupWiFi STASSID STAPSK status_at localIP fuel d = Done tt d' ->
  screen d' = screen d /\ web d' = web d /\ mdns d' = mdns d /\ led d' = led d.
Proof.
  unfold setupWiFi.
  destruct (WiFi.setupWiFi _ _ _ _ _ _) as [[] n|n|]; intros E; inversion E; subst.
  repeat split; reflexivity.
Qed.

(** Handler events leave everything but the LED and the replies as they
    were. *)
Lemma apply_events_frame es d :
  net (apply_events es d) = net d /\ screen (apply_events es d) = screen d /\
  web (apply_events es d) = web d /\ mdns (apply_events es d) = mdns d.
Proof.
  revert d. induction es as [|e es IH]; intros d; [repeat split|].
  cbn [apply_events fold_left]. destruct (IH (apply_event e d)) as (H1 & H2 & H3 & H4).
  unfold apply_events in *. rewrite H1, H2, H3, H4. now destruct e.
Qed.

(** ** The loop as seen from the configured server *)

(** What [handleClient] runs on the configured server. *)
Lemma dispatch_configured w fuel pending :
  configured w ->
  handleClient Some (run fuel) w pending =
    match pending with
    | Some req =>
        if String.eqb "/" (uri req) then Some (handleRoot req) else handleNotFound fuel req
    | None => Some []
    end.
Proof.
  intros (Hh & Hn & Hl). unfold handleClient. rewrite Hl.
  destruct pending as [req|]; [|reflexivity].
  unfold handleRequest. rewrite Hh, find_root, Hn.
  now destruct (String.eqb "/" (uri req)).
Qed.

(** C7. The configured server answers every request on the path "/",
    whatever its method, with [handleRoot] (a 200 "hello from esp8266!"
    between LED HIGH and LOW), and every request on any other path with
    [handleNotFound]; with no pending client it does nothing. *)
Theorem serve_request w fuel req :
  configured w ->
  handleClient Some (run fuel) w (Some req) =
    if String.eqb "/" (uri req) then Some (handleRoot req) else handleNotFound fuel req.
Proof.
  intros Hc. exact (dispatch_configured w fuel (Some req) Hc).
Qed.

(** C18. The diagnostics contract of the specification, from the URL on:
    a request for [path?n1=v1&n2=v2...] on a path other than "/", with
    fewer than [256] arguments whose names hold no ['&'] nor ['='],
    whose values no ['&'], and neither a ['%'] nor a ['+'] (so that
    [urlDecode] keeps them as they are), gets from the configured server one 404
    text/plain reply that lists the path, the method, the count and then
    every pair " name: value" in the order of the query. *)
Theorem serve_query w fuel m path l :
  configured w -> lacks "?" path = true -> String.eqb "/" path = false ->
  forallb Query.plain_arg l = true -> length l < 256 -> length l < fuel ->
  handleClient Some (run fuel) w (Some (Query.parseRequest m (path ++ "?" ++ Query.joinArgs l))) =
  Some [DigitalWrite LED_BUILTIN HIGH;
        Send 404 "text/plain" (notFoundHeader (mkRequest m path l) ++ argLines l);
        DigitalWrite LED_BUILTIN LOW].
Proof.
  intros Hc Hq Hr Hp Hn Hf. rewrite (dispatch_configured w fuel _ Hc).
  unfold Query.parseRequest. change ("?" ++ ?t)%string with (String "?" t).
  rewrite Query.break_at_app, Query.parseArguments_joinArgs by assumption.
  cbn [uri]. rewrite Hr. unfold handleNotFound.
  rewrite (argsLoop_from (mkRequest m path l) 0) by (cbn [args]; lia). reflexivity.
Qed.

(** ** The setup sequence *)

(** C8. When the frame buffer cannot be allocated, [setup] halts in the
    [for (;;)] of [setupScreen] after logging "SSD1306 allocation
    failed": the radio is never configured, the web server never gets a
    handler nor starts, and mDNS is never started. *)
Theorem setup_halts_without_display STASSID STAPSK status_at localIP mdns_ok fuel :
  exists d, setup false STASSID STAPSK status_at localIP mdns_ok fuel power_on = Spin d /\
    Serial.out (WiFi.serial (net d)) = ("SSD1306 allocation failed" ++ crlf)%string /\
    WiFi.wifi (net d) = WiFi.init_wifi /\ web d = server 80 /\ hostname (mdns d) = None.
Proof. eexists; split; [reflexivity|]. repeat split; reflexivity. Qed.

(** C9. A wrong password is not fatal to the setup: when the radio
    reports it to the inner poll of iteration [j], [setup] still returns,
    with the web server configured and listening and the display
    allocated, and its log shows the failure followed by
    "HTTP server started". *)
Theorem setup_wrong_password_nonfatal STASSID STAPSK status_at localIP mdns_ok fuel j :
  (forall i, i < j -> WiFi.goes_round status_at 0 i) ->
  status_at (2 * j) <> WiFi.WL_CONNECTED ->
  status_at (2 * j + 1) = WiFi.WL_WRONG_PASSWORD -> j < fuel ->
  exists d, setup true STASSID STAPSK status_at localIP mdns_ok fuel power_on = Done tt d /\
    configured (web d) /\ Gfx.allocated (screen d) = true /\
    Serial.out (WiFi.serial (net d)) =
      (crlf ++ "Connecting to WIFI" ++ WiFi.dots (S j) ++ "INCORRECT WIFI PASSWORD" ++
       (if mdns_ok then "MDNS responder started" ++ crlf else "") ++
       "HTTP server started" ++ crlf)%string.
Proof.
  intros Hr Hc Hw Hf. rewrite setup_booted.
  pose proof (WiFi.waitLoop_wrong_password status_at j fuel
                (WiFi.joining STASSID STAPSK (net booted)) Hr Hc Hw Hf) as E.
  apply (WiFi.setupWiFi_rejected STASSID STAPSK status_at localIP) in E.
  set (n' := WiFi.mkNet _ _ _) in E.
  assert (Ew : setupWiFi STASSID STAPSK status_at localIP fuel booted
               = Done tt (with_net n' booted)) by (unfold setupWiFi; now rewrite E).
  erewrite bind_Done by exact Ew.
  destruct (setupServer_spec mdns_ok (with_net n' booted) eq_refl)
    as (d' & Es & Hcfg & Hs & _ & _ & _ & _ & _ & Hlog).
  exists d'. rewrite Es. repeat split; try apply Hcfg.
  - rewrite Hs. reflexivity.
  - rewrite Hlog. subst n'. cbn [with_net net WiFi.serial WiFi.joining].
    autorewrite with esp_rw. reflexivity.
Qed.

(** C23. The log of a setup that connects: when the radio answers
    [WL_CONNECTED] to the condition poll of iteration [j] (every earlier
    iteration having gone round), [setup] returns with the server
    configured and the radio in station mode with the credentials of
    config.h, and the serial log is exactly the join's progress, the
    network name, the address as [IPAddress::toString] prints it, the
    mDNS line when [MDNS.begin] succeeds, and "HTTP server started". *)
Theorem setup_connects_log STASSID STAPSK status_at localIP mdns_ok fuel j :
  (forall i, i < j -> WiFi.goes_round status_at 0 i) ->
  status_at (2 * j) = WiFi.WL_CONNECTED -> j < fuel ->
  exists d, setup true STASSID STAPSK status_at localIP mdns_ok fuel power_on = Done tt d /\
    configured (web d) /\ WiFi.wmode (WiFi.wifi (net d)) = WiFi.WIFI_STA /\
    WiFi.sta_config (WiFi.wifi (net d)) = Some (STASSID, STAPSK) /\
    Serial.out (WiFi.serial (net d)) =
      (crlf ++ "Connecting to WIFI" ++ WiFi.dots j ++ crlf ++
       "Connected to " ++ STASSID ++ crlf ++
       "IP address: " ++ IPAddress.toString localIP ++ crlf ++
       (if mdns_ok then "MDNS responder started" ++ crlf else "") ++
       "HTTP server started" ++ crlf)%string.
Proof.
  intros Hr Hc Hf. rewrite setup_booted.
  pose proof (WiFi.waitLoop_connects status_at j fuel
                (WiFi.joining STASSID STAPSK (net booted)) Hr Hc Hf) as E.
  destruct (WiFi.setupWiFi_accepted STASSID STAPSK status_at localIP fuel _ _ E)
    as (n2 & E2 & Hw & _ & Ho).
  assert (Ew : setupWiFi STASSID STAPSK status_at localIP fuel booted
               = Done tt (with_net n2 booted)) by (unfold setupWiFi; now rewrite E2).
  erewrite bind_Done by exact Ew.
  destruct (setupServer_spec mdns_ok (with_net n2 booted) eq_refl)
    as (d' & Es & Hcfg & _ & Hw' & _ & _ & _ & _ & Hlog).
  exists d'. rewrite Es. split; [reflexivity|]. split; [exact Hcfg|].
  cbn [with_net net] in Hw', Hlog. rewrite Hw', Hw.
  split; [reflexivity|]. split; [reflexivity|].
  rewrite Hlog, Ho. cbn [WiFi.serial WiFi.joining]. autorewrite with esp_rw. reflexivity.
Qed.

(** What a [loop] iteration that returns did: the handler's effects,
    one [MDNS.update()], one [displayIP] of the address text. *)
Lemma loop_done fuel req ip d d' :
  loop fuel req ip d = Done tt d' ->
  exists es, handleClient Some (run fuel) (web d) req = Some es /\
    d' = with_screen (Screen.displayIP (IPAddress.toString ip) (screen d))
           (mdns_update (apply_events es d)).
Proof.
  unfold loop. destruct (handleClient _ _ _ _) as [es|]; [|discriminate].
  intros E. injection E as <-. exists es. split; [reflexivity|].
  now destruct (apply_events_frame es d) as (_ & -> & _).
Qed.

(** ** Witnesses *)

(** The radio connects at once. *)
Definition connected_now (_ : nat) : WiFi.wl_status_t := WiFi.WL_CONNECTED.

Definition example_request : Request := mkRequest HTTP_GET "/" [].

(** The device after [setup] with the display allocated, the radio
    connected at once and mDNS started. *)
Definition booted_example : Device :=
  match setup true "home" "secret" connected_now IPAddress.example_address true 1 power_on with
  | Done _ d => d
  | _ => power_on
  end.

(** That device after one [loop] iteration serving a GET of "/". *)
Definition after_one_loop : Device :=
  match loop 1 (Some example_request) IPAddress.example_address booted_example with
  | Done _ d => d
  | _ => power_on
  end.

Lemma booted_example_setup :
  setup true "home" "secret" connected_now IPAddress.example_address true 1 power_on =
  Done tt booted_example.
Proof. vm_compute. reflexivity. Qed.

Lemma after_one_loop_loop :
  loop 1 (Some example_request) IPAddress.example_address booted_example = Done tt after_one_loop.
Proof. vm_compute. reflexivity. Qed.

Lemma serve_request_witness :
  handleClient Some (run 5) (web after_one_loop) (Some foo_request) =
  if String.eqb "/" (uri foo_request) then Some (handleRoot foo_request)
  else handleNotFound 5 foo_request.
Proof.
  apply serve_request. vm_compute. repeat split; reflexivity.
Defined.

Lemma setup_wrong_password_nonfatal_witness :
  exists d, setup true "home" "bad" WiFi.rejects (IPAddress.mkIPAddress 0) true 10 power_on = Done tt d /\
    configured (web d) /\ Gfx.allocated (screen d) = true /\
    Serial.out (WiFi.serial (net d)) =
      (crlf ++ "Connecting to WIFI" ++ WiFi.dots 2 ++ "INCORRECT WIFI PASSWORD" ++
       ("MDNS responder started" ++ crlf) ++ "HTTP server started" ++ crlf)%string.
Proof.
  apply (setup_wrong_password_nonfatal "home" "bad" WiFi.rejects (IPAddress.mkIPAddress 0) true 10 1);
    [| discriminate | reflexivity | lia].
  intros i Hi. replace i with 0 by lia. split; discriminate.
Defined.

(** The specification's example [/foo?a=1&b=2]: two argument lines,
    in order, after "Arguments: 2". *)
Lemma serve_query_witness :
  handleClient Some (run 3) (web after_one_loop)
    (Some (Query.parseRequest HTTP_GET ("/foo" ++ "?" ++ Query.joinArgs (args foo_request)))) =
  Some [DigitalWrite LED_BUILTIN HIGH;
        Send 404 "text/plain"
          (notFoundHeader (mkRequest HTTP_GET "/foo" (args foo_request)) ++
           argLines (args foo_request));
        DigitalWrite LED_BUILTIN LOW] /\
  Query.parseRequest HTTP_GET "/foo?a=1&b=2" = foo_request /\
  (notFoundHeader foo_request ++ argLines (args foo_request))%string =
    ("File Not Found" ++ nl ++ nl ++ "URI: /foo" ++ nl ++ "Method: GET" ++ nl ++
     "Arguments: 2" ++ nl ++ " a: 1" ++ nl ++ " b: 2" ++ nl)%string.
Proof.
  split; [|split; vm_compute; reflexivity].
  apply serve_query; try (vm_compute; reflexivity); try (cbn; lia).
  vm_compute. repeat split; reflexivity.
Defined.

(** The radio connects at the fourth condition poll. *)
Lemma setup_connects_log_witness :
  exists d, setup true "home" "secret" WiFi.connects_late IPAddress.example_address true 10
              power_on = Done tt d /\
    configured (web d) /\ WiFi.wmode (WiFi.wifi (net d)) = WiFi.WIFI_STA /\
    WiFi.sta_config (WiFi.wifi (net d)) = Some ("home"%string, "secret"%string) /\
    Serial.out (WiFi.serial (net d)) =
      (crlf ++ "Connecting to WIFI" ++ WiFi.dots 3 ++ crlf ++
       "Connected to " ++ "home" ++ crlf ++
       "IP address: " ++ IPAddress.toString IPAddress.example_address ++ crlf ++
       ("MDNS responder started" ++ crlf) ++ "HTTP server started" ++ crlf)%string.
Proof.
  apply (setup_connects_log "home" "secret" WiFi.connects_late IPAddress.example_address
           true 10 3); [|reflexivity|lia].
  intros i Hi. assert (i = 0 \/ i = 1 \/ i = 2) as [->|[->| ->]] by lia;
    split; vm_compute; discriminate.
Defined.

End Sketch.
