(* ===== verification/Device.v ===== *)
(** * The whole device: a step relation and its reachable states

    The device of [Sketch] as a transition system: a state [Sys] is a
    stage of its life ([PowerOn], [Running], [Halted]) with the device
    state, and one [step] runs [setup] from power-on (to [Running] when it
    returns, to [Halted] when it enters the halt loop of [setupScreen]),
    turns once in that halt loop, or runs one [loop] iteration with the
    request pending and the address the station has.  The environment of
    each step is arbitrary.  [sys_inv] is the invariant of every state
    reachable from power-on, proved by induction on [star step]; the
    theorems read off it what a running or halted device looks like. *)

From Stdlib Require Import String Ascii List ZArith Lia Bool.
From S2P Require Import Prelude Print Gfx Screen IPAddress Http WiFi Sketch.
Import ListNotations.

Module Device.
Import Http Sketch.

(** ** The device as a step relation *)

Inductive stage : Type := PowerOn | Running | Halted.

(** The whole device: where it is in its life, and its state. *)
Record Sys := mkSys { stage_of : stage; dev : Device }.

(** One step of the device under some environment: [setup] returning
    (to [Running]) or entering its halt loop (to [Halted]), one turn of
    that halt loop, or one [loop] iteration, given the request pending and
    the address the station has in that iteration (any [IPAddress]). *)
Inductive step : Sys -> Sys -> Prop :=
| step_setup alloc_ok STASSID STAPSK status_at localIP mdns_ok fuel d0 d :
    setup alloc_ok STASSID STAPSK status_at localIP mdns_ok fuel d0 = Done tt d ->
    step (mkSys PowerOn d0) (mkSys Running d)
| step_halt alloc_ok STASSID STAPSK status_at localIP mdns_ok fuel d0 d :
    setup alloc_ok STASSID STAPSK status_at localIP mdns_ok fuel d0 = Spin d ->
    step (mkSys PowerOn d0) (mkSys Halted d)
| step_halted d :
    step (mkSys Halted d) (mkSys Halted d)
| step_loop fuel req ip d d' :
    loop fuel req ip d = Done tt d' ->
    step (mkSys Running d) (mkSys Running d').

(** What holds of a running device: the server as [setupServer] left it,
    the display between two [displayIP] calls with its cursor [16] pixels
    lower per [loop] iteration so far (counted by [MDNS.update()]), the
    panel showing the frame of the last iteration, the LED low or never
    written, the display object well-formed. *)
Definition running_inv (d : Device) : Prop :=
  configured (web d) /\ Screen.screen_ok (screen d) /\
  Gfx.cursor_y (screen d) = wrap16 (16 * Z.of_nat (updates (mdns d))) /\
  (led d = None \/ led d = Some LOW) /\
  (updates (mdns d) = 0 \/
   exists k ip, updates (mdns d) = S k /\
     Gfx.panel (screen d) = Screen.frame (wrap16 (16 * Z.of_nat k)) ip) /\
  Gfx.wf (screen d).

(** What holds of a halted device: nothing after [setupScreen] ran. *)
Definition halted_inv (d : Device) : Prop :=
  web d = server 80 /\ WiFi.wifi (net d) = WiFi.init_wifi /\ hostname (mdns d) = None /\
  Gfx.wf (screen d).

Definition sys_inv (s : Sys) : Prop :=
  match stage_of s with
  | PowerOn => dev s = power_on
  | Running => running_inv (dev s)
  | Halted => halted_inv (dev s)
  end.

(** [setup] from power-on that returns leaves a running device. *)
Lemma setup_running alloc_ok STASSID STAPSK status_at localIP mdns_ok fuel d :
  setup alloc_ok STASSID STAPSK status_at localIP mdns_ok fuel power_on = Done tt d ->
  running_inv d /\ updates (mdns d) = 0.
Proof.
  destruct alloc_ok; [|cbn; discriminate].
  rewrite setup_booted. unfold bind at 1.
  destruct (setupWiFi STASSID STAPSK status_at localIP fuel booted) as [[] d1|d1|] eqn:Ew;
    try discriminate.
  destruct (setupWiFi_frame _ _ _ _ _ _ _ Ew) as (Hs & Hw & Hm & Hl).
  destruct (setupServer_spec mdns_ok d1 Hw) as (d' & Es & Hcfg & Hs' & _ & _ & Hl' & Hu & _).
  rewrite Es. intros E. injection E as E. subst d.
  rewrite Hs, Hm in *. rewrite Hl in Hl'. split; [|rewrite Hu; reflexivity].
  unfold running_inv. rewrite Hs'.
  split; [exact Hcfg|]. split; [repeat split; cbn; lia|].
  split; [rewrite Hu; reflexivity|]. split; [left; exact Hl'|]. split; [left; exact Hu|].
  apply Gfx.wf_begin, Gfx.wf_create.
Qed.

(** [setup] from power-on that enters a loop it never leaves is the halt
    of [setupScreen]. *)
Lemma setup_halted alloc_ok STASSID STAPSK status_at localIP mdns_ok fuel d :
  setup alloc_ok STASSID STAPSK status_at localIP mdns_ok fuel power_on = Spin d ->
  halted_inv d.
Proof.
  destruct alloc_ok.
  - rewrite setup_booted. unfold bind at 1, setupWiFi at 1.
    pose proof (WiFi.setupWiFi_no_spin STASSID STAPSK status_at localIP fuel (net booted)).
    destruct (WiFi.setupWiFi _ _ _ _ _ _) as [[] n|n|]; [|intros E; injection E as <-; 
      destruct (H n eq_refl) | discriminate].
    destruct (setupServer_spec mdns_ok (with_net n booted) eq_refl) as (d' & Es & _).
    rewrite Es. discriminate.
  - cbn. intros E. injection E as <-.
    split; [reflexivity|split; [reflexivity|split; [reflexivity|apply Gfx.wf_create]]].
Qed.

(** The effects of a request served by the configured server leave the
    LED as it was or low. *)
Lemma served_led w fuel pending es d :
  configured w -> handleClient Some (run fuel) w pending = Some es ->
  led (apply_events es d) = led d \/ led (apply_events es d) = Some LOW.
Proof.
  intros Hc. rewrite (dispatch_configured w fuel pending Hc).
  destruct pending as [req|].
  - destruct (String.eqb "/" (uri req)).
    + intros E. injection E as <-. now right.
    + unfold handleNotFound. destruct (argsLoop _ _ _ _); [|discriminate].
      intros E. injection E as <-. now right.
  - intros E. injection E as <-. now left.
Qed.

(** One [loop] iteration keeps a running device running. *)
Lemma loop_running fuel req ip d d' :
  running_inv d -> loop fuel req ip d = Done tt d' -> running_inv d'.
Proof.
  intros (Hcfg & Hok & Hy & Hled & _ & Hwf). unfold loop.
  pose proof (proj2 (IPAddress.toString_line ip)) as Hip.
  destruct (handleClient Some (run fuel) (web d) req) as [es|] eqn:Hc; [|discriminate].
  intros E. injection E as <-.
  destruct (apply_events_frame es d) as (_ & Hs & Hw & Hm).
  destruct (Screen.displayIP_spec _ (screen d) Hok Hip) as (Hp & _ & Hy' & Hok').
  pose proof (served_led _ _ _ _ d Hcfg Hc) as Hl.
  unfold running_inv, with_screen, mdns_update, with_mdns; cbn [screen web mdns led updates].
  rewrite Hs, Hw, Hm. split; [exact Hcfg|]. split; [exact Hok'|].
  split; [rewrite Hy', Hy, wrap16_add_l; f_equal; lia|].
  split; [destruct Hl as [-> | ->]; tauto|].
  split; [right; exists (updates (mdns d)), (IPAddress.toString ip);
          split; [reflexivity | now rewrite Hp, Hy]|].
  now apply Screen.displayIP_wf.
Qed.

Lemma step_inv s s' : step s s' -> sys_inv s -> sys_inv s'.
Proof.
  intros Hs. destruct Hs; cbn [sys_inv stage_of dev].
  - intros ->. eapply (proj1 (setup_running _ _ _ _ _ _ _ _ H)).
  - intros ->. eapply setup_halted; eassumption.
  - tauto.
  - intros Hr. eapply loop_running; eassumption.
Qed.

Lemma reachable_inv s :
  star step (mkSys PowerOn power_on) s -> sys_inv s.
Proof. intros H. apply (star_preserves step sys_inv step_inv _ _ H). reflexivity. Qed.

(** ** The theorems on reachable states *)

(** C10. In every state the device reaches running, from power-on through
    [setup] and any number of [loop] iterations under any environment:
    the server keeps exactly the handlers [setupServer] registered and
    listens; the LED is low or was never written (each handler raises it
    and lowers it again before returning); and the display cursor is
    [16] pixels lower per iteration so far, as an [int16_t]. *)
Theorem reachable_running d :
  star step (mkSys PowerOn power_on) (mkSys Running d) ->
  configured (web d) /\ (led d = None \/ led d = Some LOW) /\
  Gfx.cursor_y (screen d) = wrap16 (16 * Z.of_nat (updates (mdns d))).
Proof.
  intros H. pose proof (reachable_inv _ H) as Hi. cbn [sys_inv stage_of dev] in Hi.
  destruct Hi as (Hc & _ & Hy & Hl & _). tauto.
Qed.

(** C11. Fail-fast halt: in every state the device reaches halted, the
    web server is the fresh object (no handler, not listening), the radio
    was never put in station mode nor given credentials, and mDNS was
    never started; from there the device only spins in place. *)
Theorem reachable_halted d :
  star step (mkSys PowerOn power_on) (mkSys Halted d) ->
  web d = server 80 /\ WiFi.wifi (net d) = WiFi.init_wifi /\ hostname (mdns d) = None /\
  (forall s', step (mkSys Halted d) s' -> s' = mkSys Halted d).
Proof.
  intros H. pose proof (reachable_inv _ H) as Hi. cbn [sys_inv stage_of dev] in Hi.
  destruct Hi as (Hw & Hn & Hm & _).
  repeat split; try assumption. intros s' Hs. now inversion Hs.
Qed.

(** C5. On the running device, after its [k+1]-th [loop] iteration, the
    panel shows anything at all exactly when [k mod 4096 < 4]: the address
    is visible during the first four iterations only, then again for four
    iterations every 4096. *)
Theorem reachable_panel_visible d k :
  star step (mkSys PowerOn power_on) (mkSys Running d) ->
  updates (mdns d) = S k ->
  Gfx.panel (screen d) <> [] <-> (k mod 4096 < 4)%nat.
Proof.
  intros H Hk. pose proof (reachable_inv _ H) as Hi. cbn [sys_inv stage_of dev] in Hi.
  destruct Hi as (_ & _ & _ & _ & [H0 | (k' & ip & Hk' & Hp)] & _).
  - congruence.
  - rewrite Hk in Hk'. injection Hk' as <-. rewrite Hp. apply Screen.frame_drift_visible.
Qed.

(** C22. Termination of [loop]: on a device reachable from power-on,
    a [loop] iteration returns whenever no client is pending or the
    pending request has fewer than [256] arguments and the fuel exceeds
    their number (the [uint8_t] loop of [handleNotFound] then ends). *)
Theorem loop_returns d fuel pending ip :
  star step (mkSys PowerOn power_on) (mkSys Running d) ->
  match pending with
  | None => True
  | Some req => length (args req) < 256 /\ length (args req) < fuel
  end ->
  exists d', loop fuel pending ip d = Done tt d'.
Proof.
  intros Hr Hp. pose proof (reachable_inv _ Hr) as Hi. cbn [sys_inv stage_of dev] in Hi.
  destruct Hi as (Hc & _). unfold loop. rewrite (dispatch_configured _ fuel pending Hc).
  destruct pending as [req|]; [|eexists; reflexivity].
  destruct (String.eqb "/" (uri req)); [eexists; reflexivity|].
  destruct Hp as [Hn Hf]. unfold handleNotFound.
  rewrite (argsLoop_from req 0) by lia. eexists; reflexivity.
Qed.

(** ** Witnesses *)

(** The device halted by a failed allocation. *)
Definition halted_device : Device :=
  match setup false "home" "secret" connected_now (IPAddress.mkIPAddress 0) true 1 power_on with
  | Spin d => d
  | _ => power_on
  end.

Lemma after_one_loop_reachable :
  star step (mkSys PowerOn power_on) (mkSys Running after_one_loop).
Proof.
  eapply star_step; [exact (step_setup _ _ _ _ _ _ _ _ _ booted_example_setup)|].
  eapply star_step; [|apply star_refl].
  exact (step_loop 1 (Some example_request) IPAddress.example_address _ _
           after_one_loop_loop).
Qed.

Lemma reachable_running_witness :
  configured (web after_one_loop) /\
  (led after_one_loop = None \/ led after_one_loop = Some LOW) /\
  Gfx.cursor_y (screen after_one_loop) = wrap16 (16 * Z.of_nat (updates (mdns after_one_loop))).
Proof. apply reachable_running. exact after_one_loop_reachable. Defined.

Lemma reachable_halted_witness :
  web halted_device = server 80 /\ WiFi.wifi (net halted_device) = WiFi.init_wifi /\
  hostname (mdns halted_device) = None /\
  (forall s', step (mkSys Halted halted_device) s' -> s' = mkSys Halted halted_device).
Proof.
  apply reachable_halted. eapply star_step; [|apply star_refl].
  apply (step_halt false "home" "secret" connected_now (IPAddress.mkIPAddress 0) true 1). vm_compute. reflexivity.
Defined.

Lemma reachable_panel_visible_witness :
  Gfx.panel (screen after_one_loop) <> [].
Proof.
  apply (reachable_panel_visible after_one_loop 0 after_one_loop_reachable);
    first [vm_compute; reflexivity | apply Nat.ltb_lt; vm_compute; reflexivity].
Defined.

(** The spec's example request of 2 arguments is served with 3 units of
    fuel. *)
Lemma loop_returns_witness :
  exists d', loop 3 (Some foo_request) IPAddress.example_address after_one_loop = Done tt d'.
Proof.
  apply loop_returns; [exact after_one_loop_reachable|]. cbn. lia.
Defined.

End Device.
