(* ===== verification/Responder.v ===== *)
(** * The device against the specification's contracts

    An abstract model of what the specification promises (sections 2,
    4.2, 4.3 and 6): a device that boots once, either fails for good or
    serves, and while serving answers each pending request by the
    responder contract and polls the discovery responder once per loop
    iteration.  The concrete model of [Sketch] refines it:

    - [phase] and [astep] are the abstract life cycle ([Booting],
      [Failed], [Serving n] after [n] iterations), [alpha] maps each
      concrete state to its phase, and every step of the device from a
      reachable state is an abstract step ([step_refines]);
    - [contract] is the responder contract as the specification states
      it: a 200 text/plain greeting on "/", and on any other path a 404
      text/plain reply whose body is lines ending in the URI, the method
      by name, the argument count and one " name: value" line per
      argument in order; every reply a loop iteration sends meets it when
      the method is GET or POST, and the indicator LED ends low
      ([loop_refines]).  For other methods the body says "POST" (see
      [Http.handleNotFound_method_collapse]). *)

From Stdlib Require Import String Ascii List ZArith Lia Bool.
From S2P Require Import Prelude Print Gfx Screen IPAddress Http Query WiFi Sketch Device.
Import ListNotations.

Module Responder.
Import Http Sketch Device.
Local Open Scope string_scope.

(** ** The abstract device *)

Inductive phase : Type := Booting | Failed | Serving (polls : nat).

(** Boot once, to serving or to failed; stay failed; serve iteration
    after iteration, polling discovery once each. *)
Inductive astep : phase -> phase -> Prop :=
| a_boot : astep Booting (Serving 0)
| a_fail : astep Booting Failed
| a_stay : astep Failed Failed
| a_serve n : astep (Serving n) (Serving (S n)).

Definition alpha (s : Sys) : phase :=
  match stage_of s with
  | PowerOn => Booting
  | Halted => Failed
  | Running => Serving (updates (mdns (dev s)))
  end.

(** ** The responder contract *)

(** A text made of lines, each ended by ["\n"]. *)
Definition unlines (ls : list string) : string :=
  fold_right (fun l acc => l ++ nl ++ acc) EmptyString ls.

(** The name of a request method, as the request line writes it. *)
Definition httpName (m : HTTPMethod) : string :=
  match m with
  | HTTP_ANY => "ANY" | HTTP_GET => "GET" | HTTP_HEAD => "HEAD"
  | HTTP_POST => "POST" | HTTP_PUT => "PUT" | HTTP_PATCH => "PATCH"
  | HTTP_DELETE => "DELETE" | HTTP_OPTIONS => "OPTIONS"
  end.

Definition argLineText (kv : string * string) : string := " " ++ fst kv ++ ": " ++ snd kv.

(** What the specification allows as the reply to [req]. *)
Definition contract (req : Request) (code : nat) (ctype body : string) : Prop :=
  if String.eqb "/" (uri req) then
    code = 200 /\ ctype = "text/plain" /\ body = "hello from esp8266!" ++ crlf
  else
    code = 404 /\ ctype = "text/plain" /\
    exists pre, body = unlines (pre ++ ["URI: " ++ uri req;
                                        "Method: " ++ httpName (method req);
                                        "Arguments: " ++ dec (length (args req))]
                                    ++ map argLineText (args req)).

(** ** Lemmas *)

Lemma unlines_app l1 l2 : unlines (l1 ++ l2) = unlines l1 ++ unlines l2.
Proof.
  induction l1 as [|l l1 IH]; cbn [unlines fold_right app]; [reflexivity|].
  fold (unlines l1) (unlines (l1 ++ l2)). rewrite IH. now autorewrite with esp_rw.
Qed.

Lemma argLines_unlines l : argLines l = unlines (map argLineText l).
Proof.
  induction l as [|kv l IH]; [reflexivity|]. cbn [argLines map unlines fold_right].
  fold (unlines (map argLineText l)). rewrite IH. unfold argLine, argLineText.
  now autorewrite with esp_rw.
Qed.

Lemma methodName_httpName m :
  m = HTTP_GET \/ m = HTTP_POST -> methodName m = httpName m.
Proof. now intros [-> | ->]. Qed.

(** The 404 body of [handleNotFound] meets the contract's line format. *)
Lemma notFoundBody_lines req :
  method req = HTTP_GET \/ method req = HTTP_POST ->
  notFoundBody req =
    unlines (["File Not Found"; ""] ++
             ["URI: " ++ uri req; "Method: " ++ httpName (method req);
              "Arguments: " ++ dec (length (args req))] ++ map argLineText (args req)).
Proof.
  intros Hm. unfold notFoundBody, notFoundHeader.
  rewrite (methodName_httpName _ Hm), argLines_unlines, !unlines_app.
  cbn [unlines fold_right]. now autorewrite with esp_rw.
Qed.

(** The effects of a handler on the device's replies and LED. *)
Lemma apply_pulse p c t b d :
  replies (apply_events [DigitalWrite p HIGH; Send c t b; DigitalWrite p LOW] d) =
    (replies d ++ [(c, t, b)])%list /\
  led (apply_events [DigitalWrite p HIGH; Send c t b; DigitalWrite p LOW] d) = Some LOW.
Proof. split; reflexivity. Qed.

(** A served request sends exactly one reply, which meets the contract,
    and leaves the LED low. *)
Lemma served_contract w fuel req es d :
  configured w -> method req = HTTP_GET \/ method req = HTTP_POST ->
  handleClient Some (run fuel) w (Some req) = Some es ->
  exists c t b, replies (apply_events es d) = (replies d ++ [(c, t, b)])%list /\
    contract req c t b /\ led (apply_events es d) = Some LOW.
Proof.
  intros Hc Hm. rewrite (dispatch_configured w fuel (Some req) Hc). unfold contract.
  destruct (String.eqb "/" (uri req)).
  - intros E. injection E as <-. do 3 eexists. split; [apply apply_pulse|].
    split; [repeat split|apply apply_pulse].
  - intros E. apply handleNotFound_some in E as [_ ->].
    do 3 eexists. split; [apply apply_pulse|]. split; [|apply apply_pulse].
    split; [reflexivity|]. split; [reflexivity|].
    exists ["File Not Found"; ""]. apply notFoundBody_lines, Hm.
Qed.

(** Loop iterations poll discovery once. *)
Lemma loop_updates fuel req ip d d' :
  loop fuel req ip d = Done tt d' -> updates (mdns d') = S (updates (mdns d)).
Proof.
  intros E. apply loop_done in E as (es & _ & ->). cbn.
  now destruct (apply_events_frame es d) as (_ & _ & _ & ->).
Qed.

(** ** Refinement *)

(** C19. Refinement of the life cycle: every step of the device from a
    state reachable from power-on is a step of the abstract device:
    [setup] ends serving with no discovery poll yet or failed for good,
    a failed device stays failed, and each [loop] iteration polls the
    discovery responder exactly once ([MDNS.update()]). *)
Theorem step_refines s s' :
  star step (mkSys PowerOn power_on) s -> step s s' -> astep (alpha s) (alpha s').
Proof.
  intros Hr Hs. pose proof (reachable_inv _ Hr) as Hi.
  destruct Hs; cbn [alpha stage_of dev sys_inv] in Hi |- *.
  - subst d0. rewrite (proj2 (setup_running _ _ _ _ _ _ _ _ H)). constructor.
  - constructor.
  - constructor.
  - rewrite (loop_updates _ _ _ _ _ H). constructor.
Qed.

(** C20. Refinement of the responder: on a device reachable from
    power-on, a loop iteration that returns sends nothing when no client
    is pending, and when a GET or POST request is pending sends exactly
    one reply, which meets the specification's contract (200 greeting on
    "/", else a 404 listing URI, method, count and every argument in
    order), and leaves the LED low. *)
Theorem loop_refines d d' fuel pending ip :
  star step (mkSys PowerOn power_on) (mkSys Running d) ->
  loop fuel pending ip d = Done tt d' ->
  match pending with
  | None => replies d' = replies d
  | Some req =>
      (method req = HTTP_GET \/ method req = HTTP_POST) ->
      exists c t b, replies d' = (replies d ++ [(c, t, b)])%list /\ contract req c t b /\
        led d' = Some LOW
  end.
Proof.
  intros Hr E. pose proof (reachable_inv _ Hr) as Hi. cbn [sys_inv stage_of dev] in Hi.
  destruct Hi as (Hc & _).
  apply loop_done in E as (es & Hes & ->).
  destruct pending as [req|].
  - intros Hm. destruct (served_contract _ _ _ _ d Hc Hm Hes) as (c & t & b & H1 & H2 & H3).
    exists c, t, b. split; [exact H1|]. split; [exact H2|exact H3].
  - rewrite (dispatch_configured _ _ None Hc) in Hes. injection Hes as <-. reflexivity.
Qed.

(** C25. The LED is pulsed around every reply, not only the root
    handler's: on the configured server every request with fewer than 256
    arguments, on any path and with any method, is answered by exactly
    the events LED HIGH, one reply, LED LOW. *)
Theorem every_reply_pulses_led w fuel req :
  configured w -> (length (args req) < 256)%nat -> (length (args req) < fuel)%nat ->
  exists c t b, handleClient Some (run fuel) w (Some req) =
    Some [DigitalWrite LED_BUILTIN HIGH; Send c t b; DigitalWrite LED_BUILTIN LOW].
Proof.
  intros Hc Hn Hf. rewrite (dispatch_configured _ _ _ Hc).
  destruct (String.eqb "/" (uri req)); [do 3 eexists; reflexivity|].
  unfold handleNotFound. rewrite (argsLoop_from req 0) by lia. do 3 eexists; reflexivity.
Qed.

(** ** Witnesses *)

Lemma step_refines_witness :
  astep (alpha (mkSys Running booted_example)) (alpha (mkSys Running after_one_loop)).
Proof.
  apply (step_refines (mkSys Running booted_example)).
  - eapply star_step; [exact (step_setup _ _ _ _ _ _ _ _ _ booted_example_setup)|].
    apply star_refl.
  - exact (step_loop _ _ _ _ _ after_one_loop_loop).
Defined.

Lemma loop_refines_witness :
  exists c t b, replies after_one_loop = (replies booted_example ++ [(c, t, b)])%list /\
    contract example_request c t b /\ led after_one_loop = Some LOW.
Proof.
  apply (loop_refines booted_example after_one_loop 1 (Some example_request)
           IPAddress.example_address).
  - eapply star_step; [exact (step_setup _ _ _ _ _ _ _ _ _ booted_example_setup)|].
    apply star_refl.
  - exact after_one_loop_loop.
  - left. reflexivity.
Defined.

Lemma every_reply_pulses_led_witness :
  exists c t b, handleClient Some (run 3) (web after_one_loop) (Some foo_request) =
    Some [DigitalWrite LED_BUILTIN HIGH; Send c t b; DigitalWrite LED_BUILTIN LOW].
Proof.
  apply every_reply_pulses_led; [vm_compute; repeat split; reflexivity|cbn; lia..].
Defined.

End Responder.
