(* ===== verification/Interaction.v ===== *)
(** * The sketch as an interaction tree

    The fuel-bounded models of [Http], [WiFi] and [Sketch] answer "what
    does the code do if it returns within [fuel] rounds".  This file
    gives the same code without fuel, as interaction trees
    (InteractionTrees' [itree]): the loops of the sketch are
    [ITree.iter], the halt loop of [setupScreen] is [ITree.spin], and
    the Arduino core's [main] runs [setup] once and [loop()] forever
    ([device_it]).  What the code reads from its environment is an event
    of [envE]: the outcome of the frame-buffer [malloc], each
    [WiFi.status()] answer, the outcome of [MDNS.begin], the client a
    [server.handleClient()] finds, and [WiFi.localIP()].  [handle]
    answers the events from an environment [Env] of the same shape as
    the parameters of the fuel models, counting status polls and loop
    iterations in a [Clock]; [run_env] is [interp_state] with it.

    - Adequacy: when a fuel model returns, its tree run against the
      matching environment returns the same state, up to [eutt]
      ([waitLoop_it_adequate], [setup_it_adequate], [loop_it_adequate]).
    - Completeness: every leaf of a run of a tree is a result of its fuel
      model with enough fuel ([waitLoop_it_leaf], [setup_it_leaf],
      [loop_it_leaf], [run_n_leaf]); the fuel needed is found from a
      loop invariant ([waitLoop_it_exit]), not assumed, and the states
      reached are reachable in [Device].
    - Divergence: a request with 256 arguments or more on a path other
      than "/" stops the device for good ([after_it_stalls]): the
      iteration serving it has no leaf ([loop_it_stalls], from the
      wrapping [uint8_t] counter of [argsLoop_it]), so no later iteration
      ends either; [device_it] is [after_it] followed by [serve]
      ([device_it_unroll]).  "No leaf" is [has_post t (fun _ => False)],
      proved by loop invariants. *)

From Stdlib Require Import String Ascii List ZArith Lia Bool.
From ITree Require Import ITree ITreeFacts Events.State Events.StateFacts
  Props.HasPost Props.Leaf Props.Finite.
From S2P Require Import Prelude Print Gfx Screen IPAddress Http WiFi Sketch Device Responder.
Import ListNotations ITreeNotations HasPostNotations LeafNotations.

Module Interaction.
Import Http Sketch Device.
Local Open Scope itree_scope.

(** ** What the sketch reads from its environment *)

Variant envE : Type -> Type :=
| AllocBuffer : envE bool                    (* malloc in display.begin *)
| WiFiStatus : envE WiFi.wl_status_t         (* WiFi.status() *)
| MDNSBegin : envE bool                      (* MDNS.begin("esp8266") *)
| Accept : envE (option Request)             (* the client handleClient finds *)
| LocalIP : envE IPAddress.IPAddress.        (* WiFi.localIP() *)

(** An environment: the parameters of the fuel models, with one
    request and one address per loop iteration.  The address of
    iteration [k] is [ip_at (S k)]; [ip_at 0] is the one [setupWiFi]
    prints. *)
Record Env := mkEnv {
  alloc_ok : bool;
  status_at : nat -> WiFi.wl_status_t;
  mdns_ok : bool;
  request_at : nat -> option Request;
  ip_at : nat -> IPAddress.IPAddress
}.

(** How many [WiFi.status()] calls and loop iterations were made. *)
Record Clock := mkClock { c_polls : nat; c_iters : nat }.

Definition handle (env : Env) : envE ~> Monads.stateT Clock (itree void1) :=
  fun _ e c =>
    match e in envE T return itree void1 (Clock * T) with
    | AllocBuffer => Ret (c, alloc_ok env)
    | WiFiStatus => Ret (mkClock (S (c_polls c)) (c_iters c), status_at env (c_polls c))
    | MDNSBegin => Ret (c, mdns_ok env)
    | Accept => Ret (mkClock (c_polls c) (S (c_iters c)), request_at env (c_iters c))
    | LocalIP => Ret (c, ip_at env (c_iters c))
    end.

(** Running a program of the sketch against [env] from clock [c]. *)
Definition run_env {R} (env : Env) (t : itree envE R) (c : Clock) : itree void1 (Clock * R) :=
  interp_state (handle env) t c.

(** ** The not-found handler without fuel *)

(** The loop of [handleNotFound], [i] kept at eight bits. *)
Definition argsLoop_it {E} (req : Request) : Z * string -> itree E string :=
  ITree.iter (fun '(i, message) =>
    if (i <? argCount req)%Z then
      Ret (inl (wrap8 (i + 1), (message ++ (" " ++ argName req i ++ ": " ++ arg req i ++ nl))%string))
    else Ret (inr message)).

(** [void handleNotFound()] *)
Definition handleNotFound_it {E} (req : Request) : itree E (list event) :=
  message <- argsLoop_it req (0%Z, notFoundHeader req) ;;
  Ret [DigitalWrite LED_BUILTIN HIGH; Send 404 "text/plain" message;
       DigitalWrite LED_BUILTIN LOW].

(** Running a registered handler. *)
Definition run_it {E} (h : Handler) (req : Request) : itree E (list event) :=
  match h with
  | HandleRoot => Ret (handleRoot req)
  | HandleNotFound => handleNotFound_it req
  end.

(** ** Joining the network without fuel *)

(** A state update of the fuel models that always returns. *)
Definition exec {S} (m : st S unit) (s : S) : S :=
  match m s with Done _ s' => s' | Spin s' => s' | OutOfFuel => s end.

(** [WiFi.status()]: the radio's answer, the call counted on the
    [WiFi] object as in [WiFi.status]. *)
Definition status_it (n : WiFi.Net) : itree envE (WiFi.wl_status_t * WiFi.Net) :=
  s <- ITree.trigger WiFiStatus ;;
  Ret (s, WiFi.mkNet (WiFi.mkWiFi (WiFi.wmode (WiFi.wifi n)) (WiFi.sta_config (WiFi.wifi n))
                                  (S (WiFi.polls (WiFi.wifi n))))
                     (WiFi.serial n) (WiFi.clock n)).

(** [while (WiFi.status() != WL_CONNECTED) { delay(500); Serial.print(".");
    if (WiFi.status() == WL_WRONG_PASSWORD) { ...; return; } }]:
    [true] when the loop condition ends it, [false] on the early return. *)
Definition waitLoop_body (n : WiFi.Net) : itree envE (WiFi.Net + bool * WiFi.Net) :=
  '(s, n) <- status_it n ;;
  if WiFi.wl_status_eq_dec s WiFi.WL_CONNECTED then Ret (inr (true, n))
  else
    let n := exec (WiFi.serial_print ".") (exec (WiFi.delay 500) n) in
    '(s', n) <- status_it n ;;
    if WiFi.wl_status_eq_dec s' WiFi.WL_WRONG_PASSWORD
    then Ret (inr (false, exec (WiFi.serial_print "INCORRECT WIFI PASSWORD") n))
    else Ret (inl n).

Definition waitLoop_it : WiFi.Net -> itree envE (bool * WiFi.Net) :=
  ITree.iter waitLoop_body.

(** [void setupWiFi()]: [WiFi.localIP()] is read when it is printed. *)
Definition setupWiFi_it (STASSID STAPSK : string) (n : WiFi.Net) : itree envE WiFi.Net :=
  let n := exec (WiFi.mode WiFi.WIFI_STA ;;
                 WiFi.begin (WiFi.ssid STASSID) (WiFi.password STAPSK) ;;
                 WiFi.serial_println "" ;;
                 WiFi.serial_print "Connecting to WIFI")%esp n in
  '(connected, n) <- waitLoop_it n ;;
  if connected then
    ip <- ITree.trigger LocalIP ;;
    Ret (exec (WiFi.serial_println "" ;;
               WiFi.serial_print "Connected to " ;;
               WiFi.serial_println (WiFi.ssid STASSID) ;;
               WiFi.serial_print "IP address: " ;;
               WiFi.serial_println_ip ip)%esp n)
  else Ret n.

(** ** The sketch without fuel *)

(** [void setup()]: the outcome of the frame-buffer allocation and of
    [MDNS.begin] are read where the code makes them; a failed allocation
    enters [for (;;);], a tree that never returns. *)
Definition setup_it (STASSID STAPSK : string) (d : Device) : itree envE Device :=
  let d := exec setup_begin d in
  ok <- ITree.trigger AllocBuffer ;;
  match setupScreen ok d with
  | Done _ d =>
      n <- setupWiFi_it STASSID STAPSK (net d) ;;
      let d := with_net n d in
      mok <- ITree.trigger MDNSBegin ;;
      Ret (exec (setupServer mok) d)
  | _ => ITree.spin
  end.

(** [void loop()]: the server dispatches the pending request to the
    handlers without fuel. *)
Definition loop_it (d : Device) : itree envE Device :=
  pending <- ITree.trigger Accept ;;
  es <- handleClient (fun es => Ret es) run_it (web d) pending ;;
  let d := mdns_update (apply_events es d) in
  ip <- ITree.trigger LocalIP ;;
  Ret (with_screen (Screen.displayIP (IPAddress.toString ip) (screen d)) d).

(** The Arduino core's [main]: [loop()] called forever. *)
Definition serve (d : Device) : itree envE void :=
  ITree.iter (fun d => d' <- loop_it d ;; Ret (inl d')) d.

Definition device_it (STASSID STAPSK : string) : itree envE void :=
  d <- setup_it STASSID STAPSK power_on ;; serve d.

(** [n] iterations of [loop()], and the program up to them: [setup]
    then [n] iterations, the prefix of [device_it] ([device_it_unroll]). *)
Fixpoint run_n (d : Device) (n : nat) : itree envE Device :=
  match n with
  | O => Ret d
  | S n' => d' <- loop_it d ;; run_n d' n'
  end.

Definition after_it (STASSID STAPSK : string) (n : nat) : itree envE Device :=
  d <- setup_it STASSID STAPSK power_on ;; run_n d n.

(** ** Lemmas *)

(** Running a bind whose first part returns. *)
Lemma run_bind {A B} env (t : itree envE A) (k : A -> itree envE B) c c' v :
  run_env env t c ≈ Ret (c', v) -> run_env env (ITree.bind t k) c ≈ run_env env (k v) c'.
Proof.
  unfold run_env. intros H. rewrite interp_state_bind, H, bind_ret_l. reflexivity.
Qed.

Lemma run_bind_eq {A B} env (t : itree envE A) (k : A -> itree envE B) c c' v u :
  run_env env t c ≈ Ret (c', v) -> run_env env (k v) c' ≈ u ->
  run_env env (ITree.bind t k) c ≈ u.
Proof. intros H1 H2. rewrite (run_bind _ _ _ _ _ _ H1). exact H2. Qed.

Lemma run_ret {A} env (v : A) c : run_env env (Ret v) c ≈ Ret (c, v).
Proof. unfold run_env. now rewrite interp_state_ret. Qed.

(** One round of a loop that goes round again, and the round that leaves. *)
Lemma run_iter_inl {I R} env (body : I -> itree envE (I + R)) x y c c' :
  run_env env (body x) c ≈ Ret (c', inl y) ->
  run_env env (ITree.iter body x) c ≈ run_env env (ITree.iter body y) c'.
Proof.
  unfold run_env. intros H. rewrite unfold_iter, interp_state_bind, H, bind_ret_l.
  cbn. rewrite interp_state_tau, tau_eutt. reflexivity.
Qed.

Lemma run_iter_inr {I R} env (body : I -> itree envE (I + R)) x r c c' :
  run_env env (body x) c ≈ Ret (c', inr r) ->
  run_env env (ITree.iter body x) c ≈ Ret (c', r).
Proof.
  unfold run_env. intros H. rewrite unfold_iter, interp_state_bind, H, bind_ret_l.
  cbn. now rewrite interp_state_ret.
Qed.

(** [WiFi.status()] answers from the environment's poll counter, which
    the [WiFi] object's counter tracks. *)
Lemma run_status env n c :
  run_env env (status_it n) c ≈
  Ret (mkClock (S (c_polls c)) (c_iters c),
       (status_at env (c_polls c),
        WiFi.mkNet (WiFi.mkWiFi (WiFi.wmode (WiFi.wifi n)) (WiFi.sta_config (WiFi.wifi n))
                                (S (WiFi.polls (WiFi.wifi n))))
                   (WiFi.serial n) (WiFi.clock n))).
Proof.
  unfold run_env, status_it. rewrite interp_state_bind, interp_state_trigger.
  cbn. rewrite bind_ret_l. cbn. now rewrite interp_state_ret.
Qed.

Lemma run_trigger {A} env (e : envE A) c :
  run_env env (ITree.trigger e) c ≈ handle env A e c.
Proof.
  unfold run_env. rewrite interp_state_trigger. destruct e; cbn; reflexivity.
Qed.

(** Run the event that starts a bind, answered by [handle]. *)
Ltac run_event := eapply run_bind_eq; [rewrite run_trigger; cbn; reflexivity|]; cbn beta iota.

Lemma exec_Done {S} (m : st S unit) s s' : m s = Done tt s' -> exec m s = s'.
Proof. unfold exec. now intros ->. Qed.

Lemma waitLoop_it_adequate env fuel n b n' k :
  WiFi.waitLoop (status_at env) fuel n = Done b n' ->
  run_env env (waitLoop_it n) (mkClock (WiFi.polls (WiFi.wifi n)) k) ≈
    Ret (mkClock (WiFi.polls (WiFi.wifi n')) k, (b, n')).
Proof.
  revert n. induction fuel as [|f IH]; intros n H; [discriminate|].
  cbn [WiFi.waitLoop] in H. unfold bind, WiFi.status in H. cbn in H.
  unfold waitLoop_it.
  destruct (WiFi.wl_status_eq_dec (status_at env (WiFi.polls (WiFi.wifi n))) WiFi.WL_CONNECTED)
    as [Hc|Hc].
  - injection H as <- <-. apply run_iter_inr. unfold waitLoop_body.
    eapply run_bind_eq; [apply run_status|]. cbn.
    destruct (WiFi.wl_status_eq_dec _ _); [|contradiction]. apply run_ret.
  - match type of H with context [WiFi.wl_status_eq_dec ?a WiFi.WL_WRONG_PASSWORD] =>
      destruct (WiFi.wl_status_eq_dec a WiFi.WL_WRONG_PASSWORD) as [Hw|Hw] end.
    + injection H as <- <-. apply run_iter_inr. unfold waitLoop_body.
      eapply run_bind_eq; [apply run_status|]. cbn.
      destruct (WiFi.wl_status_eq_dec _ WiFi.WL_CONNECTED); [contradiction|].
      eapply run_bind_eq; [apply run_status|]. cbn.
      destruct (WiFi.wl_status_eq_dec _ _); [|contradiction]. apply run_ret.
    + etransitivity; [|exact (IH _ H)]. apply run_iter_inl. unfold waitLoop_body.
      eapply run_bind_eq; [apply run_status|]. cbn.
      destruct (WiFi.wl_status_eq_dec _ WiFi.WL_CONNECTED); [contradiction|].
      eapply run_bind_eq; [apply run_status|]. cbn.
      destruct (WiFi.wl_status_eq_dec _ _); [contradiction|]. apply run_ret.
Qed.

Lemma argsLoop_it_adequate {E} fuel i req m msg :
  argsLoop fuel i req m = Some msg -> @argsLoop_it E req (i, m) ≈ Ret msg.
Proof.
  revert i m. induction fuel as [|f IH]; intros i m H; [discriminate|].
  cbn [argsLoop] in H. unfold argsLoop_it. rewrite unfold_iter. cbn.
  destruct (i <? argCount req)%Z; rewrite bind_ret_l.
  - rewrite tau_eutt. apply IH, H.
  - injection H as <-. reflexivity.
Qed.

Lemma handleNotFound_it_adequate {E} fuel req es :
  handleNotFound fuel req = Some es -> @handleNotFound_it E req ≈ Ret es.
Proof.
  unfold handleNotFound, handleNotFound_it.
  destruct (argsLoop fuel 0 req (notFoundHeader req)) as [msg|] eqn:Hl; [|discriminate].
  intros [= <-]. rewrite (argsLoop_it_adequate _ _ _ _ _ Hl). now rewrite bind_ret_l.
Qed.

Lemma run_it_adequate {E} fuel h req es :
  run fuel h req = Some es -> @run_it E h req ≈ Ret es.
Proof.
  destruct h; cbn [run run_it]; [intros [= <-]; reflexivity|].
  apply handleNotFound_it_adequate.
Qed.

Lemma setupWiFi_it_adequate env STASSID STAPSK fuel n n' k :
  WiFi.setupWiFi STASSID STAPSK (status_at env) (ip_at env k) fuel n = Done tt n' ->
  run_env env (setupWiFi_it STASSID STAPSK n) (mkClock (WiFi.polls (WiFi.wifi n)) k) ≈
    Ret (mkClock (WiFi.polls (WiFi.wifi n')) k, n').
Proof.
  rewrite WiFi.setupWiFi_loop. unfold bind at 1.
  destruct (WiFi.waitLoop _ _ _) as [b n1| |] eqn:Hw; try discriminate.
  intros H. unfold setupWiFi_it.
  eapply run_bind_eq; [exact (waitLoop_it_adequate _ _ _ _ _ _ Hw)|]. cbn beta iota.
  destruct b.
  - run_event. apply exec_Done in H. subst n'. apply run_ret.
  - injection H as <-. apply run_ret.
Qed.

Lemma setupScreen_net ok d d' : setupScreen ok d = Done tt d' -> net d' = net d.
Proof.
  unfold setupScreen. destruct (Gfx.begin ok (screen d)) as [[] sc]; [|discriminate].
  now intros [= <-].
Qed.

Lemma setup_it_adequate env STASSID STAPSK fuel d0 d k :
  setup (alloc_ok env) STASSID STAPSK (status_at env) (ip_at env k) (mdns_ok env) fuel d0
    = Done tt d ->
  run_env env (setup_it STASSID STAPSK d0) (mkClock (WiFi.polls (WiFi.wifi (net d0))) k) ≈
    Ret (mkClock (WiFi.polls (WiFi.wifi (net d))) k, d).
Proof.
  intros H. unfold setup in H.
  rewrite (bind_Done _ _ _ tt (exec setup_begin d0)) in H by reflexivity.
  unfold setup_it. cbv zeta. run_event.
  unfold bind at 1 in H.
  destruct (setupScreen (alloc_ok env) (exec setup_begin d0)) as [[] d1|d1|] eqn:Es;
    try discriminate.
  pose proof (setupScreen_net _ _ _ Es) as Hn.
  unfold bind, Sketch.setupWiFi in H.
  destruct (WiFi.setupWiFi _ _ _ _ _ (net d1)) as [[] n1|n1|] eqn:Ew; try discriminate.
  eapply run_bind_eq.
  { rewrite Hn in Ew |- *. exact (setupWiFi_it_adequate _ _ _ _ _ _ _ Ew). }
  run_event. rewrite run_ret. apply exec_Done in H. subst d.
  unfold exec, setupServer. destruct (mdns_ok env); reflexivity.
Qed.

(** A tree that returns [v] without events runs to [v], the clock
    unchanged. *)
Lemma run_pure {A} env (t : itree envE A) v c : t ≈ Ret v -> run_env env t c ≈ Ret (c, v).
Proof. unfold run_env. intros ->. now rewrite interp_state_ret. Qed.

Lemma handleClient_it_adequate fuel w pending es :
  handleClient Some (run fuel) w pending = Some es ->
  handleClient (fun es => Ret es) run_it w pending ≈ (Ret es : itree envE _).
Proof.
  unfold handleClient, handleRequest.
  destruct (listening w); [|intros [= <-]; reflexivity].
  destruct pending as [req|]; [|intros [= <-]; reflexivity].
  destruct (find _ _) as [h|]; [apply run_it_adequate|].
  destruct (notFoundHandler w) as [h|]; [apply run_it_adequate|intros [= <-]; reflexivity].
Qed.

(** A loop iteration reads the request of iteration [k], then the
    address of iteration [k]. *)
Lemma loop_it_adequate env fuel d d' p k :
  loop fuel (request_at env k) (ip_at env (S k)) d = Done tt d' ->
  run_env env (loop_it d) (mkClock p k) ≈ Ret (mkClock p (S k), d').
Proof.
  unfold loop. destruct (handleClient _ _ _ _) as [es|] eqn:Hc; [|discriminate].
  intros [= <-]. unfold loop_it. run_event.
  eapply run_bind_eq; [exact (run_pure _ _ _ _ (handleClient_it_adequate _ _ _ _ Hc))|].
  cbv zeta. run_event. apply run_ret.
Qed.

(** A round of the join loop whose polls answer neither
    [WL_CONNECTED] nor [WL_WRONG_PASSWORD] goes round, two polls later. *)
Lemma waitLoop_body_round env n c :
  status_at env (c_polls c) <> WiFi.WL_CONNECTED ->
  status_at env (S (c_polls c)) <> WiFi.WL_WRONG_PASSWORD ->
  exists n', run_env env (waitLoop_body n) c ≈
             Ret (mkClock (S (S (c_polls c))) (c_iters c), inl n').
Proof.
  intros Hc Hw. eexists. unfold waitLoop_body.
  eapply run_bind_eq; [apply run_status|]. cbn.
  destruct (WiFi.wl_status_eq_dec _ WiFi.WL_CONNECTED); [contradiction|].
  eapply run_bind_eq; [apply run_status|]. cbn.
  destruct (WiFi.wl_status_eq_dec _ _); [contradiction|]. apply run_ret.
Qed.

(** No leaf of a run is a leaf of [spin]. *)
Lemma run_spin {R} env c : run_env env (@ITree.spin envE R) c ⤳ (fun _ => False).
Proof.
  apply has_post_Leaf_equiv. intros r Hr. apply Leaf_interp_state_inv in Hr.
  exact (spin_empty_Leaf _ _ _ Hr).
Qed.

(** [Ret v ⤳ Q] when [Q v]. *)
Lemma has_post_ret {E X} (v : X) (Q : X -> Prop) : Q v -> (Ret v : itree E X) ⤳ Q.
Proof. intros Hq. unfold has_post. apply eqit_Ret, Hq. Qed.

(** From 256 arguments on, the counter stays in [0, 256) below the count:
    the loop never leaves. *)
Lemma argsLoop_it_stuck {E} req i m :
  (256 <= length (args req))%nat -> (0 <= i < 256)%Z ->
  @argsLoop_it E req (i, m) ⤳ (fun _ => False).
Proof.
  intros Hn Hi. unfold argsLoop_it.
  apply has_post_iter_strong with (Inv := fun '(i, _) => (0 <= i < 256)%Z); [|exact Hi].
  intros [j msg] Hj. unfold argCount. rewrite (proj2 (Z.ltb_lt _ _)) by lia.
  apply has_post_ret. cbn. apply wrap8_range.
Qed.

(** Given one unit of fuel per argument and one more, [handleNotFound]
    runs out only where its fuel-free tree has no leaf. *)
Lemma handleNotFound_none_it {E} req :
  handleNotFound (S (length (args req))) req = None -> @handleNotFound_it E req ⤳ (fun _ => False).
Proof.
  intros Hn. destruct (Nat.lt_ge_cases (length (args req)) 256) as [Hl|Hl].
  - unfold handleNotFound in Hn. rewrite (argsLoop_from req 0) in Hn by lia. discriminate.
  - unfold handleNotFound_it. apply has_post_bind with (S := fun _ => False); [|contradiction].
    apply argsLoop_it_stuck; [exact Hl|lia].
Qed.

Lemma handleClient_none_it w fuel req :
  fuel = S (length (args req)) -> handleClient Some (run fuel) w (Some req) = None ->
  @handleClient _ (itree envE (list event)) (fun es => Ret es) run_it w (Some req)
    ⤳ (fun _ => False).
Proof.
  intros ->. unfold handleClient, handleRequest.
  destruct (listening w); [|discriminate].
  destruct (find _ _) as [[u m h]|]; cbn [h_fn];
    [|destruct (notFoundHandler w) as [h|]; [|discriminate]];
    (destruct h; cbn [run run_it]; [discriminate|apply handleNotFound_none_it]).
Qed.

(** A leaf of a run of [t >>= k] comes from a leaf of the run of [t]. *)
Lemma run_bind_leaf {A B} env (t : itree envE A) (k : A -> itree envE B) c x :
  x ∈ run_env env (ITree.bind t k) c ->
  exists y, y ∈ run_env env t c /\ x ∈ run_env env (k (snd y)) (fst y).
Proof.
  unfold run_env. rewrite interp_state_bind. intros Hx.
  apply Leaf_bind_inv in Hx as ([c' y] & Hy & Hk). exists (c', y). now split.
Qed.

(** A run of the join loop that returns met an iteration that does not
    go round: the clock counts the polls of the rounds before it, and a
    round that does not go round is the only way out. *)
Lemma waitLoop_it_exit env n k x :
  x ∈ run_env env (waitLoop_it n) (mkClock (WiFi.polls (WiFi.wifi n)) k) ->
  exists i, ~ WiFi.goes_round (status_at env) (WiFi.polls (WiFi.wifi n)) i.
Proof.
  set (p := WiFi.polls (WiFi.wifi n)). intros Hx.
  set (out := exists i, ~ WiFi.goes_round (status_at env) p i).
  assert (Hinv : forall c n', (exists i, c_polls c = p + 2 * i) \/ out -> True ->
            forall sx, sx ∈ interp_state (handle env) (waitLoop_body n') c ->
            prod_pred (fun c => (exists i, c_polls c = p + 2 * i) \/ out)
                      (sum_pred (fun _ => True) (fun _ : bool * WiFi.Net => out)) sx).
  { intros c n' Hc _ sx Hsx.
    assert (Hout : out -> prod_pred (fun c => (exists i, c_polls c = p + 2 * i) \/ out)
                      (sum_pred (fun _ => True) (fun _ : bool * WiFi.Net => out)) sx)
      by (intros Ho; destruct sx as [c' [n''|r]]; split; cbn; first [right; exact Ho | exact I | exact Ho]).
    destruct Hc as [[i Hi]|Ho]; [|exact (Hout Ho)].
    destruct (WiFi.wl_status_eq_dec (status_at env (p + 2 * i)) WiFi.WL_CONNECTED) as [Hc|Hc];
      [apply Hout; exists i; intros [H _]; contradiction|].
    destruct (WiFi.wl_status_eq_dec (status_at env (p + 2 * i + 1)) WiFi.WL_WRONG_PASSWORD)
      as [Hw|Hw]; [apply Hout; exists i; intros [_ H]; contradiction|].
    destruct (waitLoop_body_round env n' c) as [m E];
      [rewrite Hi; exact Hc | rewrite Hi, <- Nat.add_1_r; exact Hw |].
    change (interp_state (handle env) (waitLoop_body n') c) with
      (run_env env (waitLoop_body n') c) in Hsx.
    rewrite E in Hsx. apply Leaf_Ret_inv in Hsx. subst sx.
    split; [left; exists (S i); cbn; lia|exact I]. }
  assert (H0 : (exists i, c_polls (mkClock p k) = p + 2 * i) \/ out) by (left; exists 0; cbn; lia).
  pose proof (Leaf_interp_state_iter_inv _ _ _ _ _ _ _ Hinv H0 I x Hx) as Hp.
  destruct x as [c r]. exact (proj2 Hp).
Qed.

Lemma run_ret_leaf {A} env (v : A) c x : x ∈ run_env env (Ret v) c -> x = (c, v).
Proof. rewrite run_ret. apply Leaf_Ret_inv. Qed.

(** Completeness of the fuel model of the join loop: a run of the
    fuel-free loop that returns is a run of [WiFi.waitLoop] with enough
    fuel. *)
Lemma waitLoop_it_leaf env n k x :
  x ∈ run_env env (waitLoop_it n) (mkClock (WiFi.polls (WiFi.wifi n)) k) ->
  exists fuel, WiFi.waitLoop (status_at env) fuel n = Done (fst (snd x)) (snd (snd x)) /\
    fst x = mkClock (WiFi.polls (WiFi.wifi (snd (snd x)))) k.
Proof.
  intros Hx. destruct (waitLoop_it_exit _ _ _ _ Hx) as [i Hi].
  destruct (WiFi.exit_at_found (status_at env) _ i 0 (Nat.le_0_l _) Hi) as [[b j] E].
  assert (Hw : WiFi.waitLoop (status_at env) (S (i - 0)) n = Done b (WiFi.exit_state b j n))
    by (rewrite <- (WiFi.after_0 n) at 1; now rewrite WiFi.waitLoop_exit_from, E).
  rewrite (waitLoop_it_adequate _ _ _ _ _ _ Hw) in Hx. apply Leaf_Ret_inv in Hx. subst x.
  exists (S (i - 0)). split; [exact Hw|reflexivity].
Qed.

(** Completeness of the fuel model of [setupWiFi]. *)
Lemma setupWiFi_it_leaf env STASSID STAPSK n k x :
  x ∈ run_env env (setupWiFi_it STASSID STAPSK n) (mkClock (WiFi.polls (WiFi.wifi n)) k) ->
  exists fuel, WiFi.setupWiFi STASSID STAPSK (status_at env) (ip_at env k) fuel n = Done tt (snd x) /\
    fst x = mkClock (WiFi.polls (WiFi.wifi (snd x))) k.
Proof.
  unfold setupWiFi_it. intros Hx. apply run_bind_leaf in Hx as ([c [b n1]] & H1 & H2).
  destruct (waitLoop_it_leaf env (WiFi.joining STASSID STAPSK n) k _ H1) as (fuel & Hw & Hc).
  cbn [fst snd] in Hw, Hc, H2. subst c.
  exists fuel. rewrite WiFi.setupWiFi_loop. rewrite (bind_Done _ _ _ b n1 Hw).
  destruct b.
  - rewrite (run_bind _ _ _ _ _ (ip_at env k)) in H2 by (rewrite run_trigger; cbn; reflexivity).
    apply run_ret_leaf in H2. subst x. split; reflexivity.
  - apply run_ret_leaf in H2. subst x. split; reflexivity.
Qed.

(** Completeness of the fuel model of [setup]: a run of the fuel-free
    [setup] that returns is a run of [Sketch.setup] with enough fuel. *)
Lemma setup_it_leaf env STASSID STAPSK d0 k x :
  x ∈ run_env env (setup_it STASSID STAPSK d0) (mkClock (WiFi.polls (WiFi.wifi (net d0))) k) ->
  exists fuel, setup (alloc_ok env) STASSID STAPSK (status_at env) (ip_at env k) (mdns_ok env)
                 fuel d0 = Done tt (snd x) /\ c_iters (fst x) = k.
Proof.
  intros Hx. unfold setup_it in Hx. cbv zeta in Hx.
  rewrite (run_bind _ _ _ _ _ (alloc_ok env)) in Hx by (rewrite run_trigger; cbn; reflexivity).
  destruct (setupScreen (alloc_ok env) (exec setup_begin d0)) as [[] d1|d1|] eqn:Es;
    try (exfalso; exact (has_post_Leaf _ _ _ (run_spin _ _) Hx)).
  apply run_bind_leaf in Hx as ([c n1] & H1 & H2).
  assert (H1' : (c, n1) ∈ run_env env (setupWiFi_it STASSID STAPSK (net d1))
                  (mkClock (WiFi.polls (WiFi.wifi (net d1))) k))
    by (replace (WiFi.polls (WiFi.wifi (net d1))) with (WiFi.polls (WiFi.wifi (net d0)))
          by (rewrite (setupScreen_net _ _ _ Es); reflexivity); exact H1).
  apply setupWiFi_it_leaf in H1' as (fuel & Hw & Hc). cbn [fst snd] in Hw, Hc, H2. subst c.
  rewrite (run_bind _ _ _ _ _ (mdns_ok env)) in H2 by (rewrite run_trigger; cbn; reflexivity).
  apply run_ret_leaf in H2. subst x. exists fuel. split; [|reflexivity].
  unfold setup. rewrite (bind_Done _ _ _ tt (exec setup_begin d0)) by reflexivity.
  rewrite (bind_Done _ _ _ _ _ Es).
  rewrite (bind_Done _ _ _ tt (with_net n1 d1)) by (unfold Sketch.setupWiFi; now rewrite Hw).
  unfold exec; destruct (mdns_ok env); reflexivity.
Qed.

(** Completeness of the fuel model of [loop]: every state a fuel-free
    iteration returns (against the environment, in iteration [k]) is the
    state the fuel model returns with one unit of fuel per argument of the
    pending request and one more, and the iteration read one request. *)
Lemma loop_it_leaf env d p k x :
  x ∈ run_env env (loop_it d) (mkClock p k) ->
  fst x = mkClock p (S k) /\
  loop (match request_at env k with Some req => S (length (args req)) | None => 0 end)
    (request_at env k) (ip_at env (S k)) d = Done tt (snd x).
Proof.
  set (F := match request_at env k with Some req => S (length (args req)) | None => 0 end).
  intros Hx. unfold loop.
  destruct (handleClient Some (run F) (web d) (request_at env k)) as [es|] eqn:Hc.
  - assert (E : loop F (request_at env k) (ip_at env (S k)) d = Done tt
                  (with_screen (Screen.displayIP (IPAddress.toString (ip_at env (S k)))
                     (screen (mdns_update (apply_events es d)))) (mdns_update (apply_events es d))))
      by (unfold loop; rewrite Hc; reflexivity).
    rewrite (loop_it_adequate _ _ _ _ _ _ E) in Hx. apply Leaf_Ret_inv in Hx. subst x.
    split; reflexivity.
  - exfalso. unfold loop_it in Hx.
    rewrite (run_bind _ _ _ _ (mkClock p (S k)) (request_at env k)) in Hx
      by (rewrite run_trigger; cbn; reflexivity).
    apply run_bind_leaf in Hx as ([c' es] & Hes & _).
    apply Leaf_interp_state_inv in Hes. cbn [snd] in Hes.
    subst F. destruct (request_at env k) as [req|]; [|unfold handleClient in Hc; destruct (listening (web d)); discriminate].
    exact (has_post_Leaf _ _ _ (handleClient_none_it _ _ _ eq_refl Hc) Hes).
Qed.

Lemma serve_unroll d n : serve d ≈ (d' <- run_n d n ;; serve d').
Proof.
  revert d. induction n as [|n IH]; intros d; cbn [run_n].
  - now rewrite bind_ret_l.
  - unfold serve at 1. rewrite unfold_iter, !bind_bind. apply eutt_eq_bind. intros d'.
    rewrite bind_ret_l. cbv beta iota. rewrite tau_eutt. apply IH.
Qed.

Lemma device_it_unroll STASSID STAPSK n :
  device_it STASSID STAPSK ≈ (d <- after_it STASSID STAPSK n ;; serve d).
Proof.
  unfold device_it, after_it. rewrite bind_bind.
  apply eutt_eq_bind. intros d. apply serve_unroll.
Qed.

(** The states [n] fuel-free iterations return are reached by [n]
    steps of the device, each polling mDNS once and reading one request. *)
Lemma run_n_leaf env n : forall d c x,
  x ∈ run_env env (run_n d n) c ->
  star step (mkSys Running d) (mkSys Running (snd x)) /\
  updates (mdns (snd x)) = updates (mdns d) + n /\ c_iters (fst x) = c_iters c + n.
Proof.
  induction n as [|n IH]; intros d [p k] x Hx; cbn [run_n] in Hx.
  - apply run_ret_leaf in Hx. subst x. cbn. repeat split; [apply star_refl|lia..].
  - apply run_bind_leaf in Hx as (y & Hy & Hk).
    destruct (loop_it_leaf _ _ _ _ _ Hy) as [Hc Hl].
    destruct (IH _ _ _ Hk) as (Hs & Hu & Hi). rewrite Hc in Hi.
    rewrite (Responder.loop_updates _ _ _ _ _ Hl) in Hu. cbn in Hi |- *.
    repeat split; [|lia..]. eapply star_step; [exact (step_loop _ _ _ _ _ Hl)|exact Hs].
Qed.

(** A tree without leaves runs to a tree without leaves. *)
Lemma run_no_leaf {R} env (t : itree envE R) c :
  t ⤳ (fun _ => False) -> run_env env t c ⤳ (fun _ => False).
Proof.
  intros Ht. apply has_post_Leaf_equiv. intros r Hr.
  exact (has_post_Leaf _ _ _ Ht (Leaf_interp_state_inv _ _ _ _ Hr)).
Qed.

(** On a reachable device, a fuel-free iteration whose request has 256
    arguments or more on a path other than "/" never returns. *)
Lemma loop_it_stalls env d c req :
  star step (mkSys PowerOn power_on) (mkSys Running d) ->
  request_at env (c_iters c) = Some req -> String.eqb "/" (uri req) = false ->
  (256 <= length (args req))%nat ->
  run_env env (loop_it d) c ⤳ (fun _ => False).
Proof.
  intros Hr Hq Hu Hn. destruct (reachable_inv _ Hr) as (Hc & _).
  unfold loop_it.
  rewrite (run_bind _ _ _ _ (mkClock (c_polls c) (S (c_iters c))) (request_at env (c_iters c)))
    by (rewrite run_trigger; reflexivity).
  rewrite Hq. unfold run_env at 1. rewrite interp_state_bind.
  apply has_post_bind with (S := fun _ => False); [|intros ? []].
  apply run_no_leaf, (handleClient_none_it _ (S (length (args req)))); [reflexivity|].
  rewrite (dispatch_configured _ _ (Some req) Hc), Hu. unfold handleNotFound.
  rewrite argsLoop_stuck by lia. reflexivity.
Qed.

(** [n] iterations after [k] are [k] iterations, then [n]. *)
Lemma run_n_add d k n : run_n d (k + n) ≈ (d' <- run_n d k ;; run_n d' n).
Proof.
  revert d. induction k as [|k IH]; intros d; cbn [run_n Nat.add].
  - now rewrite bind_ret_l.
  - rewrite bind_bind. apply eutt_eq_bind. intros d'. apply IH.
Qed.

(** ** Theorems *)

(** C24. A flood of arguments freezes the device for good: when the
    request of iteration [k] has 256 arguments or more on a path other
    than "/", the fuel-free device never completes iteration [k] (the
    [uint8_t] counter of [handleNotFound] wraps), so for every [n > k]
    it never reaches the end of iteration [n]: no reply, no [MDNS.update()]
    and no refresh of the display follow. *)
Theorem after_it_stalls env STASSID STAPSK k n req :
  request_at env k = Some req -> String.eqb "/" (uri req) = false ->
  (256 <= length (args req))%nat -> (k < n)%nat ->
  run_env env (after_it STASSID STAPSK n) (mkClock 0 0) ⤳ (fun _ => False).
Proof.
  intros Hq Hu Hn Hk. apply has_post_Leaf_equiv. intros x Hx.
  unfold after_it in Hx. apply run_bind_leaf in Hx as (y & Hy & Hx).
  destruct (setup_it_leaf env STASSID STAPSK power_on 0 y Hy) as (fuel & Hs & Hi).
  replace n with (k + S (n - S k)) in Hx by lia.
  unfold run_env in Hx. rewrite run_n_add in Hx. fold (run_env env (run_n (snd y) k) (fst y)) in Hx.
  apply run_bind_leaf in Hx as (z & Hz & Hx).
  destruct (run_n_leaf _ _ _ _ _ Hz) as (Hr & _ & Hi').
  rewrite Hi in Hi'. cbn [run_n] in Hx. apply run_bind_leaf in Hx as (w & Hw & _).
  refine (has_post_Leaf _ _ _ (loop_it_stalls env (snd z) (fst z) req _ _ Hu Hn) Hw).
  - exact (star_step _ _ _ _ (step_setup _ _ _ _ _ _ _ _ _ Hs) Hr).
  - rewrite Hi'. exact Hq.
Qed.

(** ** Witnesses *)

(** A request with 256 arguments. *)
Definition flood_request : Request :=
  mkRequest HTTP_GET "/flood" (repeat ("a"%string, "1"%string) 256).

(** The environment of [example_env] with a flood of arguments on
    "/flood" as the first request. *)
Definition flood_env : Env :=
  mkEnv true connected_now true
    (fun k => if Nat.eqb k 0 then Some flood_request else None)
    (fun _ => IPAddress.example_address).

Lemma after_it_stalls_witness :
  run_env flood_env (after_it "home" "secret" 1) (mkClock 0 0) ⤳ (fun _ => False).
Proof. apply (after_it_stalls flood_env "home" "secret" 0 1 flood_request); cbn; (reflexivity || lia). Defined.

End Interaction.
