(* ===== verification/Ordering.v ===== *)
(** * The order of the sketch's interactions with its environment

    The interaction trees of [Interaction] have traces (InteractionTrees'
    [Interp.Traces]): a trace lists the events a run issues with the
    answers it gets, and ends with the result ([TRet]), with nothing
    more ([TEnd], a prefix of a longer run) or with an unanswered event.
    The traces are taken on the trees themselves, so every answer of the
    environment is allowed: the statements hold for every radio, every
    client and every allocator.  [answers] projects a trace to the list
    of observations [obs], one per answered query; properties of the
    order are predicates on that list, in the style of trace predicates
    (a [rounds] of two status polls repeated, then an exit).

    The theorems: a [setup] that returns asked for the buffer first, polled the radio
    in rounds of two, read the address only after a connection, and
    started discovery last, once ([setup_it_order]); a [loop()]
    iteration that returns read exactly one pending client and then the
    address, without waiting for further clients ([loop_it_order]). *)

From Stdlib Require Import String List Lia Program.Equality.
From ITree Require Import ITree ITreeFacts Interp.Traces Props.HasPost Props.Leaf.
From S2P Require Import Prelude IPAddress Http WiFi Sketch Interaction.
Import ListNotations ITreeNotations HasPostNotations LeafNotations.

Module Ordering.
Import Http Sketch Interaction.
Local Open Scope itree_scope.

(** ** Observations *)

(** One answered query of the sketch. *)
Inductive obs : Type :=
| OAlloc (ok : bool)
| OStatus (s : WiFi.wl_status_t)
| OMDNS (ok : bool)
| OAccept (pending : option Request)
| OLocalIP (ip : IPAddress.IPAddress).

(** The observation of event [e] answered by [x]. *)
Definition obs_of {X} (e : envE X) : X -> obs :=
  match e in envE X return X -> obs with
  | AllocBuffer => OAlloc
  | WiFiStatus => OStatus
  | MDNSBegin => OMDNS
  | Accept => OAccept
  | LocalIP => OLocalIP
  end.

(** The answered queries of a trace, in order. *)
Fixpoint answers {R} (tr : @trace envE R) : list obs :=
  match tr with
  | TEventResponse e x tr => obs_of e x :: answers tr
  | _ => []
  end.

(** ** The expected orders *)

(** Rounds of the join loop that go round: a condition poll that is not
    [WL_CONNECTED], then an inner poll that is not [WL_WRONG_PASSWORD]. *)
Inductive rounds : list obs -> Prop :=
| rounds_nil : rounds []
| rounds_cons s1 s2 l :
    s1 <> WiFi.WL_CONNECTED -> s2 <> WiFi.WL_WRONG_PASSWORD -> rounds l ->
    rounds (OStatus s1 :: OStatus s2 :: l).

(** The round that leaves the join loop, by its condition ([true]) or by
    the early return ([false]). *)
Definition join_exit (b : bool) (l : list obs) : Prop :=
  if b then l = [OStatus WiFi.WL_CONNECTED]
  else exists s, s <> WiFi.WL_CONNECTED /\ l = [OStatus s; OStatus WiFi.WL_WRONG_PASSWORD].

(** What [setupWiFi] asks: rounds, the exit, and the address only after
    a connection. *)
Definition join_log (l : list obs) : Prop :=
  exists r e, rounds r /\ l = r ++ e /\
    ((exists ip, e = [OStatus WiFi.WL_CONNECTED; OLocalIP ip]) \/ join_exit false e).

(** ** Traces of trees *)

Lemma trace_eutt {R} (t u : itree envE R) tr : t ≈ u -> is_trace t tr -> is_trace u tr.
Proof. intros H. exact (proj1 (eutt_trace_eq _ _ H) tr). Qed.

Lemma trace_tau {R} (t : itree envE R) tr : is_trace (Tau t) tr -> is_trace t tr.
Proof. apply is_traceF_tau. Qed.

Lemma trace_vis {X R} (e : envE X) (k : X -> itree envE R) tr :
  is_trace (Vis e k) tr ->
  tr = TEnd \/ tr = TEventEnd e \/ exists x tr', tr = TEventResponse e x tr' /\ is_trace (k x) tr'.
Proof.
  unfold is_trace. cbn. intros H. dependent destruction H; auto.
  right; right. eexists _, _. split; [reflexivity|assumption].
Qed.

Lemma trace_ret_inv {R} (v : R) tr :
  is_trace (Ret v : itree envE R) tr -> tr = TEnd \/ tr = TRet v.
Proof. unfold is_trace. cbn. intros H. inversion H; auto. Qed.

(** [ITree.spin] answers nothing and returns nothing. *)
Lemma trace_spin {R} tr : is_trace (@ITree.spin envE R) tr -> tr = TEnd.
Proof.
  unfold is_trace. intros H. remember (observe ITree.spin) as o eqn:Ho.
  induction H; try discriminate; [reflexivity|].
  injection Ho as ->. apply IHis_traceF. reflexivity.
Qed.

Lemma observe_bind {A B} (t : itree envE A) (k : A -> itree envE B) :
  observe (ITree.bind t k) =
    match observe t with
    | RetF a => observe (k a)
    | TauF u => TauF (ITree.bind u k)
    | VisF e h => VisF e (fun x => ITree.bind (h x) k)
    end.
Proof. unfold observe at 1; cbn. destruct (observe t); reflexivity. Qed.

(** A complete trace of [t >>= k] is a complete trace of [t] followed by
    one of [k] at its result. *)
Lemma trace_bind_ret {A B} (t : itree envE A) (k : A -> itree envE B) tr r :
  is_trace (ITree.bind t k) tr -> trace_ret tr = Some r ->
  exists tr1 a tr2, is_trace t tr1 /\ trace_ret tr1 = Some a /\ is_trace (k a) tr2 /\
    trace_ret tr2 = Some r /\ answers tr = answers tr1 ++ answers tr2.
Proof.
  unfold is_trace. intros H. remember (observe (ITree.bind t k)) as o eqn:Ho. revert t Ho.
  induction H as [o'|r0|t0 tr H IH|X e k0|X e x k0 tr H IH]; intros t' Ho Hr;
    cbn in Hr; try discriminate; rewrite observe_bind in Ho;
    destruct (observe t') as [a|u|Y e' h] eqn:Et; try discriminate.
  - exists (TRet a), a, (TRet r0). repeat split; [constructor|rewrite <- Ho; constructor|exact Hr].
  - exists (TRet a), a, tr. repeat split; [constructor|rewrite <- Ho; constructor; exact H|exact Hr].
  - injection Ho as ->. destruct (IH u eq_refl Hr) as (tr1 & b & tr2 & H1 & H2 & H3 & H4 & H5).
    exists tr1, b, tr2. repeat split; [constructor; exact H1|assumption..].
  - exists (TRet a), a, (TEventResponse e x tr).
    repeat split; [constructor|rewrite <- Ho; constructor; exact H|exact Hr].
  - dependent destruction Ho.
    destruct (IH (h x) eq_refl Hr) as (tr1 & b & tr2 & H1 & H2 & H3 & H4 & H5).
    eexists (TEventResponse _ x tr1), b, tr2.
    repeat split; [constructor; exact H1|exact H2|exact H3|exact H4|cbn; now rewrite H5].
Qed.

Lemma trace_ret_done {R} (v r : R) tr :
  is_trace (Ret v : itree envE R) tr -> trace_ret tr = Some r -> r = v /\ answers tr = [].
Proof. intros H Hr. destruct (trace_ret_inv _ _ H) as [->| ->]; [discriminate|now injection Hr]. Qed.

Lemma trace_trigger_done {X} (e : envE X) tr x :
  is_trace (ITree.trigger e) tr -> trace_ret tr = Some x -> answers tr = [obs_of e x].
Proof.
  intros H Hr. destruct (trace_vis _ _ _ H) as [->|[->|(y & tr' & -> & H')]]; try discriminate.
  cbn in Hr |- *. destruct (trace_ret_done _ _ _ H' Hr) as [-> ->]. reflexivity.
Qed.

(** Take apart a complete trace [H] (with result [Hr]) of a bind into
    the first part's trace [tr1] ([H1]) with result [a] ([Hr1]), the
    rest [tr2] left in [H] and [Hr], and the split of the answers [Hl]. *)
Tactic Notation "trace_step" hyp(H) hyp(Hr)
    "as" ident(tr1) ident(a) ident(H1) ident(Hr1) ident(tr2) ident(Hl) :=
  let H2 := fresh "H" in let Hr2 := fresh "Hr" in
  destruct (trace_bind_ret _ _ _ _ H Hr) as (tr1 & a & tr2 & H1 & Hr1 & H2 & Hr2 & Hl);
  clear H Hr; rename H2 into H; rename Hr2 into Hr.

Lemma status_it_trace n tr s n' :
  is_trace (status_it n) tr -> trace_ret tr = Some (s, n') -> answers tr = [OStatus s].
Proof.
  intros H Hr. unfold status_it in H. trace_step H Hr as tr1 s1 H1 Hr1 tr2 Hl.
  destruct (trace_ret_done _ _ _ H Hr) as [E H2]. injection E as -> _.
  rewrite Hl, H2, (trace_trigger_done _ _ _ H1 Hr1). reflexivity.
Qed.

(** One round of the join loop asks two polls when it goes round, and
    leaves by [join_exit] otherwise. *)
Lemma waitLoop_body_trace n tr lr :
  is_trace (waitLoop_body n) tr -> trace_ret tr = Some lr ->
  match lr with
  | inl _ => exists s1 s2, s1 <> WiFi.WL_CONNECTED /\ s2 <> WiFi.WL_WRONG_PASSWORD /\
               answers tr = [OStatus s1; OStatus s2]
  | inr (b, _) => join_exit b (answers tr)
  end.
Proof.
  intros H Hr. unfold waitLoop_body in H. trace_step H Hr as tr1 a H1 Hr1 tr2 Hl. destruct a as [s1 n1].
  rewrite Hl, (status_it_trace _ _ _ _ H1 Hr1). cbn [app].
  destruct (WiFi.wl_status_eq_dec s1 WiFi.WL_CONNECTED) as [Hc|Hc].
  - destruct (trace_ret_done _ _ _ H Hr) as [-> ->]. cbn. now rewrite Hc.
  - trace_step H Hr as tr3 a H2 Hr2 tr4 Hl2. destruct a as [s2 n2].
    rewrite Hl2, (status_it_trace _ _ _ _ H2 Hr2).
    destruct (WiFi.wl_status_eq_dec s2 WiFi.WL_WRONG_PASSWORD) as [Hw|Hw];
      destruct (trace_ret_done _ _ _ H Hr) as [-> ->]; cbn.
    + exists s1. rewrite Hw. split; [exact Hc|reflexivity].
    + exists s1, s2. repeat split; assumption.
Qed.

(** The join loop asks rounds of two polls, then its exit. *)
Lemma waitLoop_it_trace m : forall n tr b n',
  length (answers tr) <= m -> is_trace (waitLoop_it n) tr -> trace_ret tr = Some (b, n') ->
  exists r e, rounds r /\ join_exit b e /\ answers tr = r ++ e.
Proof.
  induction m as [m IH] using (well_founded_induction Wf_nat.lt_wf).
  intros n tr b n' Hm H Hr. unfold waitLoop_it in H.
  eapply trace_eutt in H; [|apply eq_sub_eutt, unfold_iter].
  trace_step H Hr as tr1 a H1 Hr1 tr2 Hl. pose proof (waitLoop_body_trace _ _ _ H1 Hr1) as Hb.
  destruct a as [n1|[b1 n1]].
  - destruct Hb as (s1 & s2 & Hs1 & Hs2 & Ha). apply trace_tau in H.
    rewrite Hl, Ha in Hm. cbn in Hm.
    destruct (IH (length (answers tr2)) ltac:(lia) n1 tr2 b n' (le_n _) H Hr)
      as (r & e & Hr' & He & Ht).
    exists (OStatus s1 :: OStatus s2 :: r), e. rewrite Hl, Ha, Ht.
    repeat split; [constructor; assumption|exact He].
  - destruct (trace_ret_done _ _ _ H Hr) as [E Hn]. injection E as -> _.
    exists [], (answers tr1). rewrite Hl, Hn, app_nil_r. repeat split; [constructor|exact Hb].
Qed.

(** [setupWiFi] asks rounds of polls, the exit, and the address once
    after a connection. *)
Lemma setupWiFi_it_trace STASSID STAPSK n tr n' :
  is_trace (setupWiFi_it STASSID STAPSK n) tr -> trace_ret tr = Some n' -> join_log (answers tr).
Proof.
  intros H Hr. unfold setupWiFi_it in H. trace_step H Hr as tr1 a H1 Hr1 tr2 Hl.
  destruct a as [b n1]. cbn beta iota in H.
  destruct (waitLoop_it_trace _ _ _ _ _ (le_n _) H1 Hr1) as (r & e & Hr' & He & Ht).
  exists r. rewrite Hl, Ht, <- app_assoc. destruct b; cbn in He.
  - trace_step H Hr as tr3 ip H3 Hr3 tr4 Hl'.
    destruct (trace_ret_done _ _ _ H Hr) as [_ Hn].
    rewrite Hl', (trace_trigger_done _ _ _ H3 Hr3), Hn, He.
    eexists. split; [exact Hr'|]. split; [reflexivity|]. left. exists ip. reflexivity.
  - destruct (trace_ret_done _ _ _ H Hr) as [_ Hn]. rewrite Hn, app_nil_r.
    eexists. split; [exact Hr'|]. split; [reflexivity|]. right. exact He.
Qed.

(** A complete trace gives a leaf. *)
Lemma trace_ret_leaf {R} (t : itree envE R) tr r :
  is_trace t tr -> trace_ret tr = Some r -> r ∈ t.
Proof.
  unfold is_trace. intros H. remember (observe t) as o eqn:Ho. revert t Ho.
  induction H as [o'|r0|t0 tr H IH|X e k0|X e x k0 tr H IH]; intros t' Ho Hr;
    cbn in Hr; try discriminate.
  - injection Hr as ->. apply LeafRet. symmetry. exact Ho.
  - eapply LeafTau; [symmetry; exact Ho|]. exact (IH t0 eq_refl Hr).
  - eapply LeafVis; [symmetry; exact Ho|]. exact (IH (k0 x) eq_refl Hr).
Qed.

(** The server dispatch asks nothing: it returns at once or never. *)
Lemma handleClient_it_cases w pending :
  (exists es, @handleClient _ (itree envE (list event)) (fun es => Ret es) run_it w pending ≈ Ret es) \/
  @handleClient _ (itree envE (list event)) (fun es => Ret es) run_it w pending ⤳ (fun _ => False).
Proof.
  destruct pending as [req|].
  - destruct (handleClient Some (run (S (length (args req)))) w (Some req)) as [es|] eqn:E.
    + left. exists es. exact (handleClient_it_adequate _ _ _ _ E).
    + right. exact (handleClient_none_it _ _ _ eq_refl E).
  - left. exists []. apply (handleClient_it_adequate 0). unfold handleClient.
    now destruct (listening w).
Qed.

Lemma handleClient_it_trace w pending tr es :
  is_trace (@handleClient _ (itree envE (list event)) (fun es => Ret es) run_it w pending) tr ->
  trace_ret tr = Some es -> answers tr = [].
Proof.
  intros H Hr. destruct (handleClient_it_cases w pending) as [[es' E]|E].
  - apply (trace_eutt _ _ _ E) in H. exact (proj2 (trace_ret_done _ _ _ H Hr)).
  - destruct (has_post_Leaf _ _ _ E (trace_ret_leaf _ _ _ H Hr)).
Qed.

(** ** Theorems *)

(** C26. The order of [setup]'s questions: every run of [setup] from
    power-on that returns, whatever the environment answers, asked for
    the frame buffer first and got it, then polled the radio in rounds of
    two (a condition poll, then the inner poll) until a round left the
    join loop, read the station's address only when it left connected,
    and asked [MDNS.begin] last, exactly once; it never asked for a
    client. *)
Theorem setup_it_order STASSID STAPSK tr d :
  is_trace (setup_it STASSID STAPSK power_on) tr -> trace_ret tr = Some d ->
  exists j ok, join_log j /\ answers tr = OAlloc true :: j ++ [OMDNS ok].
Proof.
  intros H Hr. unfold setup_it in H. cbv zeta in H.
  trace_step H Hr as tr1 ok H1 Hr1 tr2 Hl.
  rewrite Hl, (trace_trigger_done _ _ _ H1 Hr1).
  destruct (setupScreen ok (exec setup_begin power_on)) as [[] d1|d1|] eqn:Es;
    [|rewrite (trace_spin _ H) in Hr; discriminate..].
  destruct ok; [|vm_compute in Es; discriminate].
  trace_step H Hr as tr3 n1 H3 Hr3 tr4 Hl'.
  trace_step H Hr as tr5 mok H5 Hr5 tr6 Hl''.
  destruct (trace_ret_done _ _ _ H Hr) as [_ Hn].
  exists (answers tr3), mok. split; [exact (setupWiFi_it_trace _ _ _ _ _ H3 Hr3)|].
  rewrite Hl', Hl'', (trace_trigger_done _ _ _ H5 Hr5), Hn. reflexivity.
Qed.

(** C27. Each [loop()] iteration serves what is pending without waiting:
    every run of an iteration that returns, whatever the environment
    answers, asked for the pending client exactly once, then (after
    serving it and advancing mDNS) for the station's address, and
    nothing else. *)
Theorem loop_it_order d tr d' :
  is_trace (loop_it d) tr -> trace_ret tr = Some d' ->
  exists pending ip, answers tr = [OAccept pending; OLocalIP ip].
Proof.
  intros H Hr. unfold loop_it in H.
  trace_step H Hr as tr1 pending H1 Hr1 tr2 Hl.
  trace_step H Hr as tr3 es H3 Hr3 tr4 Hl'. cbv zeta in H.
  trace_step H Hr as tr5 ip H5 Hr5 tr6 Hl''.
  destruct (trace_ret_done _ _ _ H Hr) as [_ Hn].
  exists pending, ip.
  rewrite Hl, (trace_trigger_done _ _ _ H1 Hr1), Hl', (handleClient_it_trace _ _ _ _ H3 Hr3),
    Hl'', (trace_trigger_done _ _ _ H5 Hr5), Hn.
  reflexivity.
Qed.

(** ** Witnesses *)

(** The trace of a [setup] whose radio connects at the first poll, with
    the address of [IPAddress.example_address], ending in [d]. *)
Definition connected_trace (d : Device) : @trace envE Device :=
  TEventResponse AllocBuffer true
    (TEventResponse WiFiStatus WiFi.WL_CONNECTED
       (TEventResponse LocalIP IPAddress.example_address
          (TEventResponse MDNSBegin true (TRet d)))).

(** The trace of a [loop()] iteration serving [example_request]. *)
Definition served_trace (d : Device) : @trace envE Device :=
  TEventResponse Accept (Some example_request)
    (TEventResponse LocalIP IPAddress.example_address (TRet d)).

Lemma setup_it_order_witness :
  exists d, is_trace (setup_it "home" "secret" power_on) (connected_trace d) /\
    exists j ok, join_log j /\ answers (connected_trace d) = OAlloc true :: j ++ [OMDNS ok].
Proof.
  assert (H : exists d, is_trace (setup_it "home" "secret" power_on) (connected_trace d)).
  { eexists. unfold is_trace, connected_trace. repeat (cbn; econstructor). }
  destruct H as [d H]. exists d. split; [exact H|].
  exact (setup_it_order "home" "secret" _ d H eq_refl).
Defined.

Lemma loop_it_order_witness :
  exists d, is_trace (loop_it booted_example) (served_trace d) /\
    exists pending ip, answers (served_trace d) = [OAccept pending; OLocalIP ip].
Proof.
  assert (H : exists d, is_trace (loop_it booted_example) (served_trace d)).
  { eexists. unfold is_trace, served_trace. repeat (cbn; econstructor). }
  destruct H as [d H]. exists d. split; [exact H|].
  exact (loop_it_order booted_example _ d H eq_refl).
Defined.

End Ordering.
